(** * react-hydra-builder: naming resolver, metadata registry and watch orchestrator

    A shallow embedding of [src/metadata.ts] (naming functions, metadata file,
    [ComponentResolver]) and [src/index.ts] (build invoker, watch handler, per-file
    lock), together with the parts of the JavaScript platform they call
    ([String.prototype] methods, [node:path] on POSIX, [JSON]).

    JavaScript strings are modelled as [string]: the bytes of their UTF-8
    encoding (a surrogate code unit without its partner keeps its three-byte
    form). [toUpperCase] and [toLowerCase] are modelled on the ASCII letters
    only: names with other cased letters are outside the model, and a
    statement that depends on the case mapping says so with [isAscii]. *)

From Stdlib Require Import Ascii String.
From stdpp Require Import base option list gmap strings.

(** ** JavaScript strings: the [String.prototype] methods the sources use *)

Module JsString.

Definition length (s : string) : nat := String.length s.

(** [s.startsWith(pre)], returning what follows the prefix. *)
Fixpoint stripPrefix (pre s : string) : option string :=
  match pre, s with
  | EmptyString, _ => Some s
  | String a pre', String b s' =>
      if Ascii.eqb a b then stripPrefix pre' s' else None
  | String _ _, EmptyString => None
  end.

Definition startsWith (s pre : string) : bool :=
  match stripPrefix pre s with Some _ => true | None => false end.

(** [s.endsWith(suf)]: [s] is [suf], or its tail ends with [suf]. *)
Fixpoint endsWith (s suf : string) : bool :=
  String.eqb s suf ||
  match s with
  | EmptyString => false
  | String _ s' => endsWith s' suf
  end.

(** [s.replace(pat, '')] for a string pattern: the first (leftmost)
    occurrence of [pat] is removed, nothing changes when there is none. *)
Fixpoint replace (pat s : string) : string :=
  match stripPrefix pat s with
  | Some rest => rest
  | None =>
      match s with
      | EmptyString => EmptyString
      | String c s' => String c (replace pat s')
      end
  end.

(** [s.split(re)] for a regular expression [re] that is a character class
    [isSep]: the pieces between separators, empty pieces included. *)
Fixpoint split (isSep : ascii → bool) (s : string) : list string :=
  match s with
  | EmptyString => [EmptyString]
  | String c s' =>
      if isSep c then EmptyString :: split isSep s'
      else match split isSep s' with
           | w :: ws => String c w :: ws
           | [] => [String c EmptyString]
           end
  end.

(** What precedes [suf] when [s] ends with it. *)
Fixpoint stripSuffix (suf s : string) : option string :=
  if String.eqb s suf then Some EmptyString
  else match s with
       | EmptyString => None
       | String c s' => String c <$> stripSuffix suf s'
       end.

(** [pieces.join(sep)] *)
Definition join (sep : string) (pieces : list string) : string :=
  String.concat sep pieces.

Definition isLower (c : ascii) : bool :=
  let n := nat_of_ascii c in (97 <=? n) && (n <=? 122).
Definition isUpper (c : ascii) : bool :=
  let n := nat_of_ascii c in (65 <=? n) && (n <=? 90).

(** Case mapping, on the ASCII letters: a character outside ASCII is left
    as it is, which is what JavaScript does to an ASCII string only. *)
Definition upperChar (c : ascii) : ascii :=
  if isLower c then ascii_of_nat (nat_of_ascii c - 32) else c.
Definition lowerChar (c : ascii) : ascii :=
  if isUpper c then ascii_of_nat (nat_of_ascii c + 32) else c.

Fixpoint mapChars (f : ascii → ascii) (s : string) : string :=
  match s with
  | EmptyString => EmptyString
  | String c s' => String (f c) (mapChars f s')
  end.

Definition toUpperCase : string → string := mapChars upperChar.
Definition toLowerCase : string → string := mapChars lowerChar.

(** [s.charAt(0)]: the first character as a string, the empty string when [s] is empty. *)
Definition charAt0 (s : string) : string :=
  match s with
  | EmptyString => EmptyString
  | String c _ => String c EmptyString
  end.

(** [s.slice(1)] *)
Definition slice1 (s : string) : string :=
  match s with
  | EmptyString => EmptyString
  | String _ s' => s'
  end.

(** Number of occurrences of a character. *)
Fixpoint count (c : ascii) (s : string) : nat :=
  match s with
  | EmptyString => 0
  | String d s' => (if Ascii.eqb c d then 1 else 0) + count c s'
  end.

End JsString.

(** ** [node:path], POSIX flavour *)

Module Path.

Definition isSlash (c : ascii) : bool := Ascii.eqb c "/"%char.

Definition segments (path : string) : list string :=
  JsString.split isSlash path.

Definition nonEmpty (s : string) : bool :=
  match s with EmptyString => false | _ => true end.

(** [basename(path)]: trailing slashes are dropped, then what follows the
    last remaining slash is returned: the last non-empty segment. *)
Definition basename (path : string) : string :=
  List.last (List.filter nonEmpty (segments path)) EmptyString.

Definition isAbsolute (path : string) : bool :=
  JsString.startsWith path "/".

(** One step of [normalizeString]: the stack [acc] holds the segments kept so
    far, last one first. *)
Definition pushSegment (allowAboveRoot : bool) (acc : list string)
    (seg : string) : list string :=
  if String.eqb seg "" || String.eqb seg "." then acc
  else if String.eqb seg ".." then
    match acc with
    | top :: below =>
        if String.eqb top ".." then
          (if allowAboveRoot then seg :: acc else acc)
        else below
    | [] => if allowAboveRoot then [seg] else []
    end
  else seg :: acc.

Definition normalizeSegments (allowAboveRoot : bool) (segs : list string)
    : list string :=
  List.rev (List.fold_left (pushSegment allowAboveRoot) segs []).

(** [normalize(path)] *)
Definition normalize (path : string) : string :=
  if String.eqb path "" then "."
  else
    let isAbs := isAbsolute path in
    let trailing := JsString.endsWith path "/" in
    let p := JsString.join "/" (normalizeSegments (negb isAbs) (segments path)) in
    if String.eqb p "" then
      (if isAbs then "/" else if trailing then "./" else ".")
    else
      (if isAbs then "/" else "") +:+ p +:+ (if trailing then "/" else "").

(** [join(a, b)] for two arguments. *)
Definition join (a b : string) : string :=
  let joined :=
    if String.eqb a "" then b
    else if String.eqb b "" then a
    else a +:+ "/" +:+ b in
  if String.eqb joined "" then "." else normalize joined.

(** [resolve(path)] as the list of segments of the absolute path; [cwd] is
    the list of segments of [process.cwd()]. *)
Definition resolve (cwd : list string) (path : string) : list string :=
  normalizeSegments false
    (if isAbsolute path then segments path else cwd ++ segments path).

Fixpoint dropCommonPrefix (xs ys : list string) : list string * list string :=
  match xs, ys with
  | x :: xs', y :: ys' =>
      if String.eqb x y then dropCommonPrefix xs' ys' else (xs, ys)
  | _, _ => (xs, ys)
  end.

(** [relative(from, to)]: both are resolved, the common leading segments are
    dropped, and one [..] is emitted for each segment left of [from]. *)
Definition relative (cwd : list string) (from to : string) : string :=
  if String.eqb from to then ""
  else
    let '(f, t) := dropCommonPrefix (resolve cwd from) (resolve cwd to) in
    JsString.join "/" (List.repeat ".." (List.length f) ++ t).

Fixpoint dropWhile (p : ascii → bool) (l : list ascii) : list ascii :=
  match l with
  | [] => []
  | c :: l' => if p c then dropWhile p l' else l
  end.

(** [dirname(path)]: scanning from the end down to index 1, the trailing
    slashes and the last component are skipped; the path up to the slash
    found there is returned. *)
Definition dirname (path : string) : string :=
  match path with
  | EmptyString => "."
  | String c0 rest =>
      let hasRoot := isSlash c0 in
      let back := dropWhile isSlash (List.rev (list_ascii_of_string rest)) in
      match dropWhile (λ c, negb (isSlash c)) back with
      | [] => if hasRoot then "/" else "."
      | _ :: before =>
          match before with
          | [] => if hasRoot then "//" else String c0 EmptyString
          | _ => String c0 (string_of_list_ascii (List.rev before))
          end
      end
  end.

End Path.

(** ** Naming resolver ([src/metadata.ts]) *)

(** [fileName.replace(/\.page\.(tsx|ts)$/, '')]: the pattern is anchored at the
    end, so the only possible match is a trailing [.page.tsx] or [.page.ts]. *)
Definition replacePageExtension (fileName : string) : string :=
  match JsString.stripSuffix ".page.tsx" fileName with
  | Some base => base
  | None =>
      match JsString.stripSuffix ".page.ts" fileName with
      | Some base => base
      | None => fileName
      end
  end.

(** The character class [[.\-_]]. *)
Definition isWordSeparator (c : ascii) : bool :=
  Ascii.eqb c "."%char || Ascii.eqb c "-"%char || Ascii.eqb c "_"%char.

(** [word.charAt(0).toUpperCase() + word.slice(1).toLowerCase()] *)
Definition pascalWord (word : string) : string :=
  JsString.toUpperCase (JsString.charAt0 word) +:+
  JsString.toLowerCase (JsString.slice1 word).

Definition extractComponentName (filePath : string) : string :=
  let fileName := Path.basename filePath in
  let baseName := replacePageExtension fileName in
  JsString.join "" (pascalWord <$> JsString.split isWordSeparator baseName)
  +:+ "Page".

Definition toScriptFileName (filePath suffix : string) : string :=
  let fileName := Path.basename filePath in
  let name := JsString.replace suffix fileName in
  name +:+ "page.js".

(** [cwd] is the working directory of the process, which [relative(".", _)]
    reads. *)
Definition toScriptPath (cwd : list string) (outputDir originalPath suffix : string)
    : string :=
  let relativePath := Path.relative cwd "." originalPath in
  let pathWithoutExt := JsString.replace suffix relativePath in
  outputDir +:+ "/" +:+ pathWithoutExt +:+ "page.js".

(** The naming rule as the specification words it, with the configured suffix:
    base name, suffix stripped, split on [.], [-], [_], each piece capitalised
    and the rest lowercased, concatenated, [Page] appended. *)
Module Reference.

Definition stripConfiguredSuffix (suffix name : string) : string :=
  default name (JsString.stripSuffix suffix name).

Definition capitalize (segment : string) : string :=
  match segment with
  | EmptyString => EmptyString
  | String c rest => String (JsString.upperChar c) (JsString.toLowerCase rest)
  end.

Definition extractComponentName (suffix path : string) : string :=
  let segs :=
    JsString.split isWordSeparator
      (stripConfiguredSuffix suffix (Path.basename path)) in
  List.fold_right (λ seg acc, capitalize seg +:+ acc) "Page" segs.

End Reference.

(** ** Registry entries ([src/types.ts]) *)

Record ComponentEntry := {
  scriptFileName : string;
  originalPath : string;
  outputPath : string;
}.

Global Instance ComponentEntry_eq_dec : EqDecision ComponentEntry.
Proof. solve_decision. Defined.

(** [ComponentMetadata]: the entries by component name. *)
Abbreviation ComponentMetadata := (gmap string ComponentEntry).

(** ** Build invoker ([src/index.ts]) *)

Record PageBuildConfig := {
  buildTargetDir : string;
  buildTargetFileSuffix : string;
  outputDir : string;
  metadataPath : string;
}.

Definition toOutFile (dir path suffix : string) : string :=
  let fileName := Path.basename path in
  let name := JsString.replace suffix fileName in
  dir +:+ "/" +:+ name +:+ "page.js".

(** The options [_build] passes to [esbuild.build]. *)
Record BuildOptions := {
  stdin_contents : string;
  stdin_resolveDir : string;
  stdin_loader : string;
  bundle : bool;
  outfile : string;
  platform : string;
}.

Definition dquote : string := String (ascii_of_nat 34) EmptyString.

(** [format(TEMPLATE, importPath)]: the template with its one [%s] filled in. *)
Definition formatTemplate (importPath : string) : string :=
  "
import React from " +:+ dquote +:+ "react" +:+ dquote +:+ ";
import { hydrateRoot } from " +:+ dquote +:+ "react-dom/client" +:+ dquote +:+ ";
import Page from " +:+ dquote +:+ "./" +:+ importPath +:+ dquote +:+ ";

hydrateRoot(
    document.getElementById(" +:+ dquote +:+ "app" +:+ dquote +:+ "),
    <Page {...window.__SERVER_DATA__} />,
);
".

Definition backslashToSlash (c : ascii) : ascii :=
  if Ascii.eqb c "\"%char then "/"%char else c.

(** [_build]: what is handed to the bundler; whether the bundler then succeeds
    is decided outside. *)
Definition _build (cwd : list string) (targetDir targetFileSuffix path : string)
    : BuildOptions :=
  let importPath :=
    "./" +:+ JsString.mapChars backslashToSlash (Path.relative cwd "." path) in
  let outFile := toOutFile targetDir path targetFileSuffix in
  {| stdin_contents := formatTemplate importPath;
     stdin_resolveDir := ".";
     stdin_loader := "tsx";
     bundle := true;
     outfile := outFile;
     platform := "browser" |}.

(** The entry [build] and [watchBuild] record for a source file. *)
Definition entryFor (cwd : list string) (cfg : PageBuildConfig) (file : string)
    : ComponentEntry :=
  let scriptFileName := toScriptFileName file (buildTargetFileSuffix cfg) in
  let relativePath := Path.relative cwd (buildTargetDir cfg) file in
  {| scriptFileName := scriptFileName;
     originalPath := relativePath;
     outputPath := toScriptPath cwd (outputDir cfg) file (buildTargetFileSuffix cfg) |}.

(** ** [JSON] *)

#[local] Set Warnings "-register-all".

Inductive json :=
| JNull
| JBool (b : bool)
| JNumber (lexeme : string)
| JString (s : string)
| JArray (items : list json)
| JObject (members : list (string * json)).

Module JSON.

Definition newline : string := String (ascii_of_nat 10) EmptyString.

Definition hexDigit (n : nat) : ascii :=
  match n with
  | 0 => "0" | 1 => "1" | 2 => "2" | 3 => "3" | 4 => "4" | 5 => "5"
  | 6 => "6" | 7 => "7" | 8 => "8" | 9 => "9" | 10 => "a" | 11 => "b"
  | 12 => "c" | 13 => "d" | 14 => "e" | _ => "f"
  end%char.

(** [QuoteJSONString], one character: the quote and the backslash are
    escaped, control characters get their short escape or [\u00xx]. *)
Definition escapeChar (c : ascii) : string :=
  let n := nat_of_ascii c in
  if n =? 34 then "\" +:+ dquote
  else if n =? 92 then "\\"
  else if n =? 8 then "\b"
  else if n =? 12 then "\f"
  else if n =? 10 then "\n"
  else if n =? 13 then "\r"
  else if n =? 9 then "\t"
  else if n <? 32 then
    "\u00" +:+ String (hexDigit (n / 16)) (String (hexDigit (n mod 16)) EmptyString)
  else String c EmptyString.

Fixpoint escape (s : string) : string :=
  match s with
  | EmptyString => EmptyString
  | String c s' => escapeChar c +:+ escape s'
  end.

Definition quote (s : string) : string := dquote +:+ escape s +:+ dquote.

Fixpoint indent (level : nat) : string :=
  match level with
  | 0 => EmptyString
  | S level' => "  " +:+ indent level'
  end.

(** The lines of an object or array, joined with a comma and a newline. *)
Definition lines (items : list string) : string :=
  JsString.join ("," +:+ newline) items.

(** [JSON.stringify(value, null, 2)] at nesting depth [level]. *)
Fixpoint stringifyAt (level : nat) (v : json) {struct v} : string :=
  match v with
  | JNull => "null"
  | JBool true => "true"
  | JBool false => "false"
  | JNumber lexeme => lexeme
  | JString s => quote s
  | JArray [] => "[]"
  | JArray items =>
      "[" +:+ newline +:+
      lines ((λ item, indent (S level) +:+ stringifyAt (S level) item) <$> items)
      +:+ newline +:+ indent level +:+ "]"
  | JObject [] => "{}"
  | JObject members =>
      "{" +:+ newline +:+
      lines ((λ kv, indent (S level) +:+ quote (fst kv) +:+ ": " +:+
                    stringifyAt (S level) (snd kv)) <$> members)
      +:+ newline +:+ indent level +:+ "}"
  end.

Definition stringify (v : json) : string := stringifyAt 0 v.

(** *** Parsing *)

Definition isWhitespace (c : ascii) : bool :=
  let n := nat_of_ascii c in
  (n =? 32) || (n =? 9) || (n =? 10) || (n =? 13).

Fixpoint skipWhitespace (s : string) : string :=
  match s with
  | EmptyString => EmptyString
  | String c s' => if isWhitespace c then skipWhitespace s' else s
  end.

Definition hexValue (c : ascii) : option nat :=
  let n := nat_of_ascii c in
  if (48 <=? n) && (n <=? 57) then Some (n - 48)
  else if (97 <=? n) && (n <=? 102) then Some (n - 87)
  else if (65 <=? n) && (n <=? 70) then Some (n - 55)
  else None.

(** The bytes of a code unit written [\uXXXX] that stands for itself:
    itself below 128, its two or three byte encoding above. *)
Definition codeUnitBytes (u : nat) : string :=
  if u <? 128 then String (ascii_of_nat u) EmptyString
  else if u <? 2048 then
    String (ascii_of_nat (192 + u / 64))
      (String (ascii_of_nat (128 + u mod 64)) EmptyString)
  else
    String (ascii_of_nat (224 + u / 4096))
      (String (ascii_of_nat (128 + (u / 64) mod 64))
         (String (ascii_of_nat (128 + u mod 64)) EmptyString)).

(** A high surrogate followed by a low surrogate is one code point above
    [U+FFFF], with a four byte encoding. *)
Definition isHighSurrogate (u : nat) : bool :=
  let n := N.of_nat u in ((55296 <=? n) && (n <=? 56319))%N.
Definition isLowSurrogate (u : nat) : bool :=
  let n := N.of_nat u in ((56320 <=? n) && (n <=? 57343))%N.

Definition surrogatePairBytes (high low : nat) : string :=
  let p :=
    (65536 + (N.of_nat high - 55296) * 1024 + (N.of_nat low - 56320))%N in
  String (ascii_of_N (240 + p / 262144))
    (String (ascii_of_N (128 + (p / 4096) mod 64))
       (String (ascii_of_N (128 + (p / 64) mod 64))
          (String (ascii_of_N (128 + p mod 64)) EmptyString))).

(** The character a one-letter escape stands for. *)
Definition simpleEscape (e : ascii) : option ascii :=
  let n := nat_of_ascii e in
  if n =? 34 then Some e
  else if n =? 92 then Some e
  else if n =? 47 then Some e
  else if n =? 98 then Some (ascii_of_nat 8)
  else if n =? 102 then Some (ascii_of_nat 12)
  else if n =? 110 then Some (ascii_of_nat 10)
  else if n =? 114 then Some (ascii_of_nat 13)
  else if n =? 116 then Some (ascii_of_nat 9)
  else None.

(** A string literal after its opening quote: the decoded string and the
    text after the closing quote. An escaped high surrogate directly
    followed by an escaped low surrogate is read as the one code point the
    pair stands for. *)
Fixpoint parseStringBody (s : string) : option (string * string) :=
  match s with
  | EmptyString => None
  | String c rest =>
      let n := nat_of_ascii c in
      if n =? 34 then Some (EmptyString, rest)
      else if n =? 92 then
        match rest with
        | EmptyString => None
        | String e rest1 =>
            match simpleEscape e with
            | Some ch =>
                prod_map (String ch) id <$> parseStringBody rest1
            | None =>
                if nat_of_ascii e =? 117 then
                  match rest1 with
                  | String h1 (String h2 (String h3 (String h4 rest2))) =>
                      match hexValue h1, hexValue h2, hexValue h3, hexValue h4 with
                      | Some a, Some b, Some c', Some d =>
                          let u := ((a * 16 + b) * 16 + c') * 16 + d in
                          let alone :=
                            prod_map (String.append (codeUnitBytes u)) id
                            <$> parseStringBody rest2 in
                          if isHighSurrogate u then
                            match rest2 with
                            | String b1 (String b2 (String l1 (String l2
                                (String l3 (String l4 rest3))))) =>
                                if (nat_of_ascii b1 =? 92) && (nat_of_ascii b2 =? 117)
                                then
                                  match hexValue l1, hexValue l2,
                                        hexValue l3, hexValue l4 with
                                  | Some a', Some b', Some c'', Some d' =>
                                      let l :=
                                        ((a' * 16 + b') * 16 + c'') * 16 + d' in
                                      if isLowSurrogate l then
                                        prod_map
                                          (String.append (surrogatePairBytes u l))
                                          id
                                        <$> parseStringBody rest3
                                      else alone
                                  | _, _, _, _ => alone
                                  end
                                else alone
                            | _ => alone
                            end
                          else alone
                      | _, _, _, _ => None
                      end
                  | _ => None
                  end
                else None
            end
        end
      else if n <? 32 then None
      else prod_map (String c) id <$> parseStringBody rest
  end.

Definition isDigit (c : ascii) : bool :=
  let n := nat_of_ascii c in (48 <=? n) && (n <=? 57).

Fixpoint takeDigits (s : string) : string * string :=
  match s with
  | EmptyString => (EmptyString, EmptyString)
  | String c s' =>
      if isDigit c then prod_map (String c) id (takeDigits s') else (EmptyString, s)
  end.

(** A number, kept as its lexeme: an optional minus sign; a zero, or a
    non-zero digit and more digits; optionally a dot and digits; optionally
    an exponent letter, a sign and digits. *)
Definition parseNumber (s : string) : option (string * string) :=
  let '(sign, s1) :=
    match s with
    | String c r => if Ascii.eqb c "-" then ("-", r) else ("", s)
    | EmptyString => ("", s)
    end in
  match s1 with
  | EmptyString => None
  | String d r =>
      if negb (isDigit d) then None
      else
        let '(int, r1) :=
          if Ascii.eqb d "0" then (String d EmptyString, r)
          else prod_map (String d) id (takeDigits r) in
        let frac :=
          match r1 with
          | String p r2 =>
              if Ascii.eqb p "." then
                let '(ds, r3) := takeDigits r2 in
                if String.eqb ds "" then None else Some ("." +:+ ds, r3)
              else Some ("", r1)
          | EmptyString => Some ("", r1)
          end in
        match frac with
        | None => None
        | Some (fr, r4) =>
            let expo :=
              match r4 with
              | String e r5 =>
                  if Ascii.eqb e "e" || Ascii.eqb e "E" then
                    let '(sg, r6) :=
                      match r5 with
                      | String g r' =>
                          if Ascii.eqb g "+" || Ascii.eqb g "-"
                          then (String g EmptyString, r') else ("", r5)
                      | EmptyString => ("", r5)
                      end in
                    let '(ds, r7) := takeDigits r6 in
                    if String.eqb ds "" then None
                    else Some (String e EmptyString +:+ sg +:+ ds, r7)
                  else Some ("", r4)
              | EmptyString => Some ("", r4)
              end in
            match expo with
            | None => None
            | Some (ex, r8) => Some (sign +:+ int +:+ fr +:+ ex, r8)
            end
        end
  end.

Definition parseLiteral (word : string) (v : json) (s : string)
    : option (json * string) :=
  (λ rest, (v, rest)) <$> JsString.stripPrefix word s.

(** A value, the members of an object after its first brace, the items of
    an array after its first bracket. [fuel] bounds the nesting. *)
Fixpoint parseValue (fuel : nat) (s : string) : option (json * string) :=
  match fuel with
  | 0 => None
  | S fuel' =>
      match skipWhitespace s with
      | EmptyString => None
      | String c rest =>
          let n := nat_of_ascii c in
          if n =? 123 then
            match skipWhitespace rest with
            | EmptyString => None
            | String c' rest' =>
                if nat_of_ascii c' =? 125 then Some (JObject [], rest')
                else prod_map JObject id <$> parseMembers fuel' rest
            end
          else if n =? 91 then
            match skipWhitespace rest with
            | EmptyString => None
            | String c' rest' =>
                if nat_of_ascii c' =? 93 then Some (JArray [], rest')
                else prod_map JArray id <$> parseItems fuel' rest
            end
          else if n =? 34 then prod_map JString id <$> parseStringBody rest
          else if n =? 116 then parseLiteral "true" (JBool true) (String c rest)
          else if n =? 102 then parseLiteral "false" (JBool false) (String c rest)
          else if n =? 110 then parseLiteral "null" JNull (String c rest)
          else prod_map JNumber id <$> parseNumber (String c rest)
      end
  end
with parseMembers (fuel : nat) (s : string)
    : option (list (string * json) * string) :=
  match fuel with
  | 0 => None
  | S fuel' =>
      match skipWhitespace s with
      | EmptyString => None
      | String q afterQuote =>
          if negb (nat_of_ascii q =? 34) then None
          else
            match parseStringBody afterQuote with
            | None => None
            | Some (key, afterKey) =>
                match skipWhitespace afterKey with
                | EmptyString => None
                | String colon afterColon =>
                    if negb (nat_of_ascii colon =? 58) then None
                    else
                      match parseValue fuel' afterColon with
                      | None => None
                      | Some (v, afterValue) =>
                          match skipWhitespace afterValue with
                          | EmptyString => None
                          | String d afterDelim =>
                              if nat_of_ascii d =? 125 then
                                Some ([(key, v)], afterDelim)
                              else if nat_of_ascii d =? 44 then
                                prod_map (cons (key, v)) id
                                <$> parseMembers fuel' afterDelim
                              else None
                          end
                      end
                end
            end
      end
  end
with parseItems (fuel : nat) (s : string) : option (list json * string) :=
  match fuel with
  | 0 => None
  | S fuel' =>
      match parseValue fuel' s with
      | None => None
      | Some (v, afterValue) =>
          match skipWhitespace afterValue with
          | EmptyString => None
          | String d afterDelim =>
              if nat_of_ascii d =? 93 then Some ([v], afterDelim)
              else if nat_of_ascii d =? 44 then
                prod_map (cons v) id <$> parseItems fuel' afterDelim
              else None
          end
      end
  end.

(** [JSON.parse(text)]; [None] is the [SyntaxError]. Every level of nesting
    consumes a character, so the length of the text is fuel enough. *)
Definition parse (text : string) : option json :=
  match parseValue (S (String.length text)) text with
  | Some (v, rest) =>
      if String.eqb (skipWhitespace rest) "" then Some v else None
  | None => None
  end.

End JSON.

(** ** Metadata file and resolver ([src/metadata.ts]) *)

(** The files by path, with their text as [readFile(path, "utf8")] returns
    it. *)
Abbreviation Disk := (gmap string string).

Definition entryToJson (e : ComponentEntry) : json :=
  JObject
    [("scriptFileName", JString (scriptFileName e));
     ("originalPath", JString (originalPath e));
     ("outputPath", JString (outputPath e))].

(** The metadata object as a JSON value. The members come in the order of the
    map, not in the insertion order of the JavaScript object; nothing below
    depends on the order. *)
Definition metadataToJson (metadata : ComponentMetadata) : json :=
  JObject (prod_map id entryToJson <$> map_to_list metadata).

(** [JSON.stringify(metadata, null, 2)] *)
Definition metadataFileContent (metadata : ComponentMetadata) : string :=
  JSON.stringify (metadataToJson metadata).

(** [generateMetadataFile(metadata, outputPath)] run to its end: [mkdirOk] and
    [writeOk] tell whether [mkdir] and [writeFile] are fulfilled; [None] is
    the rejected promise. *)
Definition generateMetadataFile (metadata : ComponentMetadata)
    (outputPath : string) (mkdirOk writeOk : bool) (disk : Disk) : option Disk :=
  let dir := Path.dirname outputPath in
  if negb mkdirOk then None
  else
    let content := metadataFileContent metadata in
    if negb writeOk then None
    else Some (<[outputPath := content]> disk).

(** [ComponentResolver.loadMetadata(metadataPath)]: the parsed document, and
    the empty object when the file cannot be read or parsed. *)
Definition loadMetadata (disk : Disk) (metadataPath : string) : json :=
  match disk !! metadataPath with
  | None => JObject []
  | Some metadataContent =>
      match JSON.parse metadataContent with
      | Some v => v
      | None => JObject []
      end
  end.

(** [JSON.parse] keeps the last of several members with one name. The
    view of a parsed value at the type the sources declare for it,
    [ComponentMetadata], is [asMetadata]; it is used to state what a file
    holds, not by the resolver. *)
Definition asString (v : json) : option string :=
  match v with JString s => Some s | _ => None end.

Definition member (key : string) (members : list (string * json)) : option json :=
  snd <$> List.find (λ kv, String.eqb (fst kv) key) (reverse members).

Definition asEntry (v : json) : option ComponentEntry :=
  match v with
  | JObject members =>
      s ← member "scriptFileName" members ≫= asString;
      o ← member "originalPath" members ≫= asString;
      p ← member "outputPath" members ≫= asString;
      Some {| scriptFileName := s; originalPath := o; outputPath := p |}
  | _ => None
  end.

Definition asMetadata (v : json) : option ComponentMetadata :=
  match v with
  | JObject members =>
      list_to_map
      <$> mapM (λ kv, pair (fst kv) <$> asEntry (snd kv)) (reverse members)
  | _ => None
  end.

(** The properties every object inherits from [Object.prototype]; each has a
    truthy value. *)
Definition objectPrototypeNames : list string :=
  ["constructor"; "__defineGetter__"; "__defineSetter__"; "hasOwnProperty";
   "__lookupGetter__"; "__lookupSetter__"; "isPrototypeOf";
   "propertyIsEnumerable"; "toString"; "valueOf"; "__proto__";
   "toLocaleString"].

Definition inherited (name : string) : bool :=
  bool_decide (name ∈ objectPrototypeNames).

(** Whether [metadata[componentName]] is truthy. *)
Definition hasProperty (metadata : ComponentMetadata) (componentName : string)
    : bool :=
  match metadata !! componentName with
  | Some _ => true
  | None => inherited componentName
  end.

(** *** Property access on the parsed document

    [resolveScriptPath] reads [metadata[componentName]] and then
    [componentMeta.scriptFileName] on whatever [JSON.parse] returned: the
    declared type [ComponentMetadata] is not checked at run time. *)

Definition digitValue (c : ascii) : N := (N_of_ascii c - 48)%N.

Fixpoint digitsValue (acc : N) (digits : string) : N :=
  match digits with
  | EmptyString => acc
  | String c digits' => digitsValue (acc * 10 + digitValue c) digits'
  end.

(** Whether a number lexeme denotes zero as a double: its digits are all
    zero, or its value is at most [2^-1075], half the least positive
    double, and is rounded to zero. *)
Definition isZeroNumber (lexeme : string) : bool :=
  let unsigned :=
    match lexeme with
    | String c r => if Ascii.eqb c "-" then r else lexeme
    | EmptyString => lexeme
    end in
  let '(int, r1) := JSON.takeDigits unsigned in
  let '(frac, r2) :=
    match r1 with
    | String c r => if Ascii.eqb c "." then JSON.takeDigits r else ("", r1)
    | EmptyString => ("", r1)
    end in
  let exponent : Z :=
    match r2 with
    | String _ (String g ds) =>
        if Ascii.eqb g "-" then (- Z.of_N (digitsValue 0 ds))%Z
        else if Ascii.eqb g "+" then Z.of_N (digitsValue 0 ds)
        else Z.of_N (digitsValue 0 (String g ds))
    | _ => 0%Z
    end in
  let m := digitsValue 0 (int +:+ frac) in
  let e10 := (exponent - Z.of_nat (String.length frac))%Z in
  (m =? 0)%N || ((e10 <? 0)%Z && (Z.of_N m * 2 ^ 1075 <=? 10 ^ (- e10))%Z).

(** [ToBoolean] of a parsed value. *)
Definition truthy (v : json) : bool :=
  match v with
  | JNull => false
  | JBool b => b
  | JNumber lexeme => negb (isZeroNumber lexeme)
  | JString s => negb (String.eqb s "")
  | JArray _ | JObject _ => true
  end.

(** The string-keyed properties of the prototypes of arrays, strings,
    numbers and booleans (ECMAScript 2023, which the Node versions that
    have [Dirent.parentPath] implement); each holds a function. *)
Definition arrayPrototypeNames : list string :=
  ["constructor"; "at"; "concat"; "copyWithin"; "fill"; "find"; "findIndex";
   "findLast"; "findLastIndex"; "lastIndexOf"; "pop"; "push"; "reverse";
   "shift"; "unshift"; "slice"; "sort"; "splice"; "includes"; "indexOf";
   "join"; "keys"; "entries"; "values"; "forEach"; "filter"; "flat";
   "flatMap"; "map"; "every"; "some"; "reduce"; "reduceRight";
   "toLocaleString"; "toString"; "toReversed"; "toSorted"; "toSpliced";
   "with"].

Definition stringPrototypeNames : list string :=
  ["constructor"; "anchor"; "at"; "big"; "blink"; "bold"; "charAt";
   "charCodeAt"; "codePointAt"; "concat"; "endsWith"; "fontcolor";
   "fontsize"; "fixed"; "includes"; "indexOf"; "isWellFormed"; "italics";
   "lastIndexOf"; "link"; "localeCompare"; "match"; "matchAll"; "normalize";
   "padEnd"; "padStart"; "repeat"; "replace"; "replaceAll"; "search";
   "slice"; "small"; "split"; "strike"; "sub"; "substr"; "substring"; "sup";
   "startsWith"; "toString"; "toWellFormed"; "trim"; "trimStart";
   "trimLeft"; "trimEnd"; "trimRight"; "toLocaleLowerCase";
   "toLocaleUpperCase"; "toLowerCase"; "toUpperCase"; "valueOf"].

Definition numberPrototypeNames : list string :=
  ["constructor"; "toExponential"; "toFixed"; "toPrecision"; "toString";
   "valueOf"; "toLocaleString"].

Definition booleanPrototypeNames : list string :=
  ["constructor"; "toString"; "valueOf"].

(** An array index as a property name: [0], or digits that do not start
    with a zero. *)
Definition arrayIndex (name : string) : option nat :=
  match name with
  | EmptyString => None
  | String c rest =>
      let '(digits, other) := JSON.takeDigits name in
      if String.eqb other "" && (negb (Ascii.eqb c "0") || String.eqb rest "")
      then Some (N.to_nat (digitsValue 0 digits))
      else None
  end.

(** The length of a string in UTF-16 code units, from its UTF-8 bytes: one
    for each byte that starts a character, and one more for each character
    of four bytes. *)
Fixpoint utf16Length (s : string) : nat :=
  match s with
  | EmptyString => 0
  | String c s' =>
      let n := nat_of_ascii c in
      (if (n <? 128) || (192 <=? n) then 1 else 0)
      + (if 240 <=? n then 1 else 0) + utf16Length s'
  end.

(** What [value[name]] is. *)
Inductive Property :=
| Own (v : json)            (* a member or item of the parsed document *)
| Builtin (isTruthy : bool) (* supplied by the platform: an inherited function
                               or prototype object, a character of a string,
                               a length; none has a [scriptFileName] *)
| Missing                   (* [undefined] *)
| NoProperties.             (* [null]: the access throws a [TypeError] *)

Definition inheritedFrom (prototypeNames : list string) (name : string)
    : Property :=
  if bool_decide (name ∈ prototypeNames) || inherited name
  then Builtin true else Missing.

Definition getProperty (value : json) (name : string) : Property :=
  match value with
  | JNull => NoProperties
  | JObject members =>
      match member name members with
      | Some v => Own v
      | None => inheritedFrom [] name
      end
  | JArray items =>
      match arrayIndex name ≫= (λ i, items !! i) with
      | Some v => Own v
      | None =>
          if String.eqb name "length"
          then Builtin (negb (bool_decide (items = [])))
          else inheritedFrom arrayPrototypeNames name
      end
  | JString s =>
      match arrayIndex name with
      | Some i =>
          if i <? utf16Length s then Builtin true
          else inheritedFrom stringPrototypeNames name
      | None =>
          if String.eqb name "length" then Builtin (negb (String.eqb s ""))
          else inheritedFrom stringPrototypeNames name
      end
  | JNumber _ => inheritedFrom numberPrototypeNames name
  | JBool _ => inheritedFrom booleanPrototypeNames name
  end.

(** What [resolveScriptPath] does: it returns a script file name, returns a
    value that is no string (the declared type is not enforced), returns
    [undefined], or throws. *)
Inductive Resolution :=
| Resolved (scriptFileName : string)
| ResolvedValue (v : json)
| ResolvedUndefined
| NotFoundError (message : string)
| TypeError.

Definition notFoundMessage (componentName : string) : string :=
  "コンポーネント " +:+ dquote +:+ componentName +:+ dquote +:+
  " のメタデータが見つかりません。" +:+
  "ビルドが完了していることを確認してください。".

(** [componentMeta.scriptFileName] for a truthy parsed value. *)
Definition scriptFileNameOf (componentMeta : json) : Resolution :=
  match componentMeta with
  | JObject fields =>
      match member "scriptFileName" fields with
      | Some (JString s) => Resolved s
      | Some v => ResolvedValue v
      | None => ResolvedUndefined
      end
  | _ => ResolvedUndefined
  end.

(** [ComponentResolver.resolveScriptPath(componentName, metadataPath)]: a
    truthy [metadata[componentName]] gives its [scriptFileName]; anything
    else throws the error that names the component. *)
Definition resolveScriptPath (disk : Disk) (componentName metadataPath : string)
    : Resolution :=
  let metadata := loadMetadata disk metadataPath in
  match getProperty metadata componentName with
  | NoProperties => TypeError
  | Own componentMeta =>
      if truthy componentMeta then scriptFileNameOf componentMeta
      else NotFoundError (notFoundMessage componentName)
  | Builtin true => ResolvedUndefined
  | Builtin false | Missing => NotFoundError (notFoundMessage componentName)
  end.

(** The lookup called with a strictness flag: [resolveScriptPath] declares two
    parameters, and a call drops the arguments beyond them. *)
Definition resolve (disk : Disk) (componentName metadataPath : string)
    (strict : bool) : Resolution :=
  resolveScriptPath disk componentName metadataPath.

(** ** Directory scanner ([src/utils.ts]) *)

Record Dirent := {
  isFile : bool;
  name : string;
  parentPath : string;
}.

Definition readFiles (entries : list Dirent) (suffix : string) : list string :=
  (λ file, Path.join (parentPath file) (name file))
  <$> List.filter (λ file, isFile file && JsString.endsWith (name file) suffix)
        entries.

(** ** Watch orchestrator ([src/index.ts]) *)

Inductive WatchEventType := change | rename.

Record Stats := { isDirectory : bool }.

(** What [statSync(path, { throwIfNoEntry: false })] does: it returns
    [undefined], returns the [Stats], or throws. *)
Inductive StatOutcome :=
| StatMissing
| StatFound (stats : Stats)
| StatThrows.

(** [isBuild]: the event type is only logged. *)
Definition isBuild (eventType : WatchEventType) (fileName : string)
    (stats : option Stats) (buildTargetFileSuffix : string) : bool :=
  match stats with
  | None => false
  | Some stats =>
      if isDirectory stats then false
      else if negb (JsString.endsWith fileName buildTargetFileSuffix) then false
      else true
  end.

(** *** The lock *)

(** What [lock] returns: [isLock], and the file name its [Symbol.dispose]
    closes over. *)
Record LockHandle := {
  isLock : bool;
  lockedFileName : string;
}.

Definition lock (fileName : string) (lockMap : gmap string bool)
    : LockHandle * gmap string bool :=
  match lockMap !! fileName with
  | Some true => ({| isLock := false; lockedFileName := fileName |}, lockMap)
  | _ =>
      ({| isLock := true; lockedFileName := fileName |},
       <[fileName := true]> lockMap)
  end.

(** [locked[Symbol.dispose]()] *)
Definition dispose (locked : LockHandle) (lockMap : gmap string bool)
    : gmap string bool :=
  if isLock locked then <[lockedFileName locked := false]> lockMap else lockMap.

(** *** The handler as a state machine *)

(** Calls that leave the process. *)
Inductive Effect :=
| EBuild (options : BuildOptions)
| EMkdir (dir : string)
| EWriteFile (path content : string)
| ERm (path : string)
| EUnlink (path : string).

(** What follows [await generateMetadataFile(...)] in the handler. *)
Inductive AfterPersist :=
| AfterDelete (componentName fullPath : string)
| AfterAdd (componentName : string).

(** The [await] a handler is suspended at. *)
Inductive Await :=
| AwaitBuild (fullPath : string)
| AwaitMkdir (next : AfterPersist)
| AwaitWriteFile (content : string) (next : AfterPersist).

Record Task := {
  locked : LockHandle;
  awaiting : Await;
}.

Record State := {
  lockMap : gmap string bool;
  metadata : ComponentMetadata;
  disk : Disk;
  tasks : list Task;
  effects : list Effect;
}.

Definition setLockMap (lm : gmap string bool) (s : State) : State :=
  {| lockMap := lm; metadata := metadata s; disk := disk s;
     tasks := tasks s; effects := effects s |}.
Definition setMetadata (m : ComponentMetadata) (s : State) : State :=
  {| lockMap := lockMap s; metadata := m; disk := disk s;
     tasks := tasks s; effects := effects s |}.
Definition setDisk (d : Disk) (s : State) : State :=
  {| lockMap := lockMap s; metadata := metadata s; disk := d;
     tasks := tasks s; effects := effects s |}.
Definition setTasks (ts : list Task) (s : State) : State :=
  {| lockMap := lockMap s; metadata := metadata s; disk := disk s;
     tasks := ts; effects := effects s |}.
Definition emit (es : list Effect) (s : State) : State :=
  {| lockMap := lockMap s; metadata := metadata s; disk := disk s;
     tasks := tasks s; effects := effects s ++ es |}.

(** The [finally] block. *)
Definition release (locked : LockHandle) (s : State) : State :=
  setLockMap (dispose locked (lockMap s)) s.

(** [deleteBuildedPageJsFile]: the removal it starts, [None] when its
    [statSync] throws. *)
Definition deleteBuildedPageJsFile (filePath buildTargetFileSuffix outputDir : string)
    (outStat : StatOutcome) : option (list Effect) :=
  let path := toOutFile outputDir filePath buildTargetFileSuffix in
  match outStat with
  | StatThrows => None
  | StatMissing => Some []
  | StatFound stats =>
      if isDirectory stats then Some [ERm path] else Some [EUnlink path]
  end.

Section Handler.

Variable cwd : list string.
Variable cfg : PageBuildConfig.

(** A handler comes to rest at an [await]: it joins the suspended ones. *)
Definition suspend (locked : LockHandle) (a : Await) (s : State) : State :=
  setTasks (tasks s ++ [{| locked := locked; awaiting := a |}]) s.

(** [generateMetadataFile(metadata, metadataPath)] up to its first [await]. *)
Definition startGenerateMetadataFile (locked : LockHandle) (next : AfterPersist)
    (s : State) : State :=
  suspend locked (AwaitMkdir next)
    (emit [EMkdir (Path.dirname (metadataPath cfg))] s).

(** [deleteBuildedPageJsFile(...)], then [return] and the [finally] block. *)
Definition cleanupAndReturn (locked : LockHandle) (fullPath : string)
    (outStat : StatOutcome) (s : State) : State :=
  match deleteBuildedPageJsFile fullPath (buildTargetFileSuffix cfg)
          (outputDir cfg) outStat with
  | Some es => release locked (emit es s)
  | None => release locked s
  end.

(** The callback of [watch] from its start to its first [await] or its end.
    [stat] is the outcome of [statSync(fullPath)]; [outStat] that of the
    [statSync] in [deleteBuildedPageJsFile], should it be reached. *)
Definition onEvent (eventType : WatchEventType) (filename : option string)
    (stat outStat : StatOutcome) (s : State) : State :=
  match filename with
  | None => s
  | Some filename =>
      if String.eqb filename "" then s
      else
        let '(locked, lockMap') := lock filename (lockMap s) in
        if negb (isLock locked) then s
        else
          let s := setLockMap lockMap' s in
          let fullPath := Path.join (buildTargetDir cfg) filename in
          match stat with
          | StatThrows => release locked s
          | StatMissing =>
              if JsString.endsWith filename (buildTargetFileSuffix cfg) then
                let componentName := extractComponentName fullPath in
                if hasProperty (metadata s) componentName then
                  let s := setMetadata (delete componentName (metadata s)) s in
                  startGenerateMetadataFile locked
                    (AfterDelete componentName fullPath) s
                else cleanupAndReturn locked fullPath outStat s
              else cleanupAndReturn locked fullPath outStat s
          | StatFound stats =>
              if negb (isBuild eventType filename (Some stats)
                         (buildTargetFileSuffix cfg))
              then release locked s
              else
                suspend locked (AwaitBuild fullPath)
                  (emit [EBuild (_build cwd (outputDir cfg)
                                   (buildTargetFileSuffix cfg) fullPath)] s)
          end
  end.

(** The handler suspended as task [i] goes on: the promise it awaits is
    fulfilled ([ok]) or rejected. A rejection leaves through [finally]. *)
Definition onSettle (i : nat) (ok : bool) (outStat : StatOutcome) (s : State)
    : State :=
  match tasks s !! i with
  | None => s
  | Some t =>
      let s := setTasks (delete i (tasks s)) s in
      let locked := locked t in
      if negb ok then release locked s
      else
        match awaiting t with
        | AwaitBuild fullPath =>
            let componentName := extractComponentName fullPath in
            if negb (hasProperty (metadata s) componentName) then
              let s :=
                setMetadata
                  (<[componentName := entryFor cwd cfg fullPath]> (metadata s)) s in
              startGenerateMetadataFile locked (AfterAdd componentName) s
            else release locked s
        | AwaitMkdir next =>
            let content := metadataFileContent (metadata s) in
            suspend locked (AwaitWriteFile content next)
              (emit [EWriteFile (metadataPath cfg) content] s)
        | AwaitWriteFile content next =>
            let s := setDisk (<[metadataPath cfg := content]> (disk s)) s in
            match next with
            | AfterAdd _ => release locked s
            | AfterDelete _ fullPath => cleanupAndReturn locked fullPath outStat s
            end
        end
  end.

(** What the event loop runs next. *)
Inductive Step :=
| Event (eventType : WatchEventType) (filename : option string)
    (stat outStat : StatOutcome)
| Settle (i : nat) (ok : bool) (outStat : StatOutcome).

Definition step (s : State) (l : Step) : State :=
  match l with
  | Event eventType filename stat outStat =>
      onEvent eventType filename stat outStat s
  | Settle i ok outStat => onSettle i ok outStat s
  end.

Definition run (s : State) (ls : list Step) : State := foldl step s ls.

(** The metadata [watchBuild] (and [build]) collect from the scanned files. *)
Definition collectMetadata (files : list string) : ComponentMetadata :=
  foldl (λ metadata file,
           <[extractComponentName file := entryFor cwd cfg file]> metadata)
    ∅ files.

(** The bundler calls of the first [build]. *)
Definition build (files : list string) : list BuildOptions :=
  (λ file, _build cwd (outputDir cfg) (buildTargetFileSuffix cfg) file)
  <$> files.

(** The state in which [watch] is started: the first build is done and has
    written the metadata file. *)
Definition watchStart (files : list string) (disk0 : Disk) : State :=
  {| lockMap := ∅;
     metadata := collectMetadata files;
     disk := <[metadataPath cfg := metadataFileContent (collectMetadata files)]> disk0;
     tasks := [];
     effects := [] |}.


End Handler.

(** ** Vocabulary of the statements *)

(** A path segment that [normalize] keeps as it is: it is not empty, not [.]
    nor [..], and holds no slash. *)
Definition plainSegment (seg : string) : Prop :=
  seg ≠ "" ∧ seg ≠ "." ∧ seg ≠ ".." ∧ JsString.count "/" seg = 0.

(** A project used in the examples: sources under [src], bundles under
    [public/js], run from [/home/app]. *)
Definition exampleCwd : list string := ["home"; "app"].

Definition exampleConfig : PageBuildConfig :=
  {| buildTargetDir := "src";
     buildTargetFileSuffix := ".page.tsx";
     outputDir := "public/js";
     metadataPath := "build/metadata.json" |}.

Definition exampleFiles : list string :=
  ["src/user/register.page.tsx"; "src/home.page.tsx"].

Definition exampleMetadata : ComponentMetadata :=
  collectMetadata exampleCwd exampleConfig exampleFiles.

(** The watcher of the example project when [watch] starts. *)
Definition exampleStart : State :=
  watchStart exampleCwd exampleConfig exampleFiles ∅.

Definition regularFile : Stats := {| isDirectory := false |}.

(** A metadata file written by hand: the entry of [HomePage] has a
    [scriptFileName] and nothing else, and [AboutPage] holds [null]. *)
Definition partialMetadataFile : string :=
  "{ " +:+ dquote +:+ "HomePage" +:+ dquote +:+ ": { " +:+
  dquote +:+ "scriptFileName" +:+ dquote +:+ ": " +:+
  dquote +:+ "homepage.js" +:+ dquote +:+ " }, " +:+
  dquote +:+ "AboutPage" +:+ dquote +:+ ": null }".






(** Component names as one scan of the base name: a separator is dropped and
    starts a word, the first character of a word is upper-cased and the
    others are lower-cased. [start] tells whether the next character starts a
    word. *)
Fixpoint pascalScan (start : bool) (s : string) : string :=
  match s with
  | EmptyString => EmptyString
  | String c s' =>
      if isWordSeparator c then pascalScan true s'
      else String (if start then JsString.upperChar c else JsString.lowerChar c)
                  (pascalScan false s')
  end.

(** The strings on which the model of [toUpperCase] and [toLowerCase] is
    the JavaScript one: every character is an ASCII character. *)
Fixpoint isAscii (s : string) : bool :=
  match s with
  | EmptyString => true
  | String c s' => (nat_of_ascii c <? 128) && isAscii s'
  end.

(** A base name with letter case and the choice of separator forgotten:
    every separator becomes a dot, every letter its lower-case form. *)
Definition canonicalChar (c : ascii) : ascii :=
  if isWordSeparator c then "."%char else JsString.lowerChar c.

Definition canonicalName (baseName : string) : string :=
  JsString.mapChars canonicalChar baseName.

(** * Properties *)

#[local] Arguments Ascii.eqb : simpl never.
#[local] Arguments String.eqb : simpl never.

(** ** Strings *)

Section StringFacts.

Implicit Types (s t u pre suf pat : string) (c d : ascii).

Lemma app_String c s t : String c s +:+ t = String c (s +:+ t).
Proof. reflexivity. Qed.

Lemma app_empty_l t : "" +:+ t = t.
Proof. reflexivity. Qed.

Lemma app_empty_r s : s +:+ "" = s.
Proof. induction s as [|c s IH]; [done|]. by rewrite app_String, IH. Qed.

Lemma app_assoc_s s t u : (s +:+ t) +:+ u = s +:+ (t +:+ u).
Proof. induction s as [|c s IH]; [done|]. by rewrite !app_String, IH. Qed.

Lemma length_app_s s t :
  String.length (s +:+ t) = String.length s + String.length t.
Proof. induction s as [|c s IH]; [done|]. rewrite app_String. simpl. by rewrite IH. Qed.

Lemma app_inv_head_s s t u : s +:+ t = s +:+ u → t = u.
Proof. apply (inj (String.app s)). Qed.

Lemma stripPrefix_Some pre s t :
  JsString.stripPrefix pre s = Some t ↔ s = pre +:+ t.
Proof.
  revert s. induction pre as [|a pre IH]; intros s; simpl.
  - rewrite app_empty_l. split; congruence.
  - destruct s as [|b s]; [by split|].
    rewrite app_String. destruct (Ascii.eqb_spec a b) as [->|Hne].
    + rewrite IH. split; congruence.
    + split; [done|]. intros [=]. done.
Qed.

Lemma stripPrefix_app pre t : JsString.stripPrefix pre (pre +:+ t) = Some t.
Proof. by apply stripPrefix_Some. Qed.

Lemma stripSuffix_nil suf :
  JsString.stripSuffix suf "" = if String.eqb "" suf then Some "" else None.
Proof. reflexivity. Qed.

Lemma stripSuffix_cons suf c s :
  JsString.stripSuffix suf (String c s) =
  if String.eqb (String c s) suf then Some ""
  else String c <$> JsString.stripSuffix suf s.
Proof. reflexivity. Qed.

Lemma endsWith_nil suf : JsString.endsWith "" suf = String.eqb "" suf || false.
Proof. reflexivity. Qed.

Lemma endsWith_cons suf c s :
  JsString.endsWith (String c s) suf =
  String.eqb (String c s) suf || JsString.endsWith s suf.
Proof. reflexivity. Qed.

Lemma stripSuffix_Some suf s t :
  JsString.stripSuffix suf s = Some t → s = t +:+ suf.
Proof.
  revert t. induction s as [|c s IH]; intros t.
  - rewrite stripSuffix_nil. destruct (String.eqb_spec "" suf) as [<-|_]; [|done].
    intros [= ?]; by subst.
  - rewrite stripSuffix_cons.
    destruct (String.eqb_spec (String c s) suf) as [Heq|_].
    + intros [= ?]; by subst.
    + destruct (JsString.stripSuffix suf s) as [t'|]; simpl; [|done].
      intros [= ?]; subst. rewrite app_String. f_equal. by apply IH.
Qed.

Lemma stripSuffix_app suf t : JsString.stripSuffix suf (t +:+ suf) = Some t.
Proof.
  induction t as [|c t IH].
  - rewrite app_empty_l. destruct suf as [|d suf]; [done|].
    by rewrite stripSuffix_cons, String.eqb_refl.
  - rewrite app_String, stripSuffix_cons.
    destruct (String.eqb_spec (String c (t +:+ suf)) suf) as [Heq|_].
    + apply (f_equal String.length) in Heq. simpl in Heq.
      rewrite length_app_s in Heq. lia.
    + by rewrite IH.
Qed.

Lemma endsWith_stripSuffix s suf :
  JsString.endsWith s suf = true ↔ is_Some (JsString.stripSuffix suf s).
Proof.
  induction s as [|c s IH].
  - rewrite endsWith_nil, stripSuffix_nil.
    destruct (String.eqb "" suf); simpl; split; done || by intros [? ?].
  - rewrite endsWith_cons, stripSuffix_cons.
    destruct (String.eqb (String c s) suf); simpl; [by split; eauto|].
    rewrite IH. by rewrite fmap_is_Some.
Qed.

Lemma endsWith_app s suf :
  JsString.endsWith s suf = true ↔ ∃ t, s = t +:+ suf.
Proof.
  rewrite endsWith_stripSuffix. split.
  - intros [t Ht]. exists t. by apply stripSuffix_Some.
  - intros [t ->]. rewrite stripSuffix_app. eauto.
Qed.

Lemma count_app c s t :
  JsString.count c (s +:+ t) = JsString.count c s + JsString.count c t.
Proof.
  induction s as [|d s IH]; [done|]. rewrite app_String. simpl.
  rewrite IH. lia.
Qed.

Lemma replace_unfold pat s :
  JsString.replace pat s =
  match JsString.stripPrefix pat s with
  | Some rest => rest
  | None =>
      match s with
      | EmptyString => EmptyString
      | String c s' => String c (JsString.replace pat s')
      end
  end.
Proof. by destruct s. Qed.

(** Removing a pattern that holds no [c] keeps the number of [c]. *)
Lemma count_replace c pat s :
  JsString.count c pat = 0 →
  JsString.count c (JsString.replace pat s) = JsString.count c s.
Proof.
  intros Hpat. induction s as [|d s IH]; rewrite replace_unfold.
  - destruct (JsString.stripPrefix pat "") as [r|] eqn:E; [|done].
    apply stripPrefix_Some in E. destruct pat; [|done].
    rewrite app_empty_l in E. by subst.
  - destruct (JsString.stripPrefix pat (String d s)) as [r|] eqn:E.
    + apply stripPrefix_Some in E. rewrite E, count_app, Hpat. done.
    + simpl. by rewrite IH.
Qed.

Lemma split_nonempty isSep s : JsString.split isSep s ≠ [].
Proof.
  induction s as [|c s IH]; simpl; [done|].
  destruct (isSep c); [done|]. by destruct (JsString.split isSep s).
Qed.

(** No piece of a split holds a separator. *)
Lemma split_pieces c s :
  Forall (λ w, JsString.count c w = 0)
    (JsString.split (λ d, Ascii.eqb d c) s).
Proof.
  induction s as [|d s IH]; simpl.
  - by constructor.
  - destruct (Ascii.eqb_spec d c) as [->|Hne].
    + by constructor.
    + destruct (JsString.split _ s) as [|w ws]; inversion IH; subst;
        constructor; simpl; try done.
      all: destruct (Ascii.eqb_spec c d); [congruence|]; simpl; done.
Qed.

End StringFacts.

(** ** Component names *)

Lemma pascalWord_capitalize word : pascalWord word = Reference.capitalize word.
Proof. by destruct word. Qed.

Lemma join_empty_cons (x : string) (l : list string) :
  JsString.join "" (x :: l) = x +:+ JsString.join "" l.
Proof.
  unfold JsString.join. destruct l as [|y l]; simpl; [|done].
  by rewrite app_empty_r.
Qed.

Lemma join_words_fold (words : list string) :
  JsString.join "" (pascalWord <$> words) +:+ "Page"
  = List.fold_right (λ seg acc, Reference.capitalize seg +:+ acc) "Page" words.
Proof.
  induction words as [|w ws IH]; [done|].
  rewrite fmap_cons, join_empty_cons, app_assoc_s, IH.
  by rewrite pascalWord_capitalize.
Qed.

Lemma not_tsx_when_ts (base : string) :
  JsString.stripSuffix ".page.tsx" (base +:+ ".page.ts") = None.
Proof.
  induction base as [|c base IH]; [done|].
  rewrite app_String, stripSuffix_cons, IH.
  destruct (String.eqb_spec (String c (base +:+ ".page.ts")) ".page.tsx")
    as [Heq|_]; [|done].
  destruct base as [|d base].
  - by injection Heq.
  - apply (f_equal String.length) in Heq. simpl in Heq.
    rewrite length_app_s in Heq. simpl in Heq. lia.
Qed.

Lemma replacePageExtension_tsx (base : string) :
  replacePageExtension (base +:+ ".page.tsx") = base.
Proof. unfold replacePageExtension. by rewrite stripSuffix_app. Qed.

Lemma replacePageExtension_ts (base : string) :
  replacePageExtension (base +:+ ".page.ts") = base.
Proof.
  unfold replacePageExtension. by rewrite not_tsx_when_ts, stripSuffix_app.
Qed.

(** The component name is a function of the base name. *)
Lemma extractComponentName_basename (p q : string) :
  Path.basename p = Path.basename q →
  extractComponentName p = extractComponentName q.
Proof. unfold extractComponentName. by intros ->. Qed.

(** C5, as amended: [extractComponentName] takes no suffix and strips a
    trailing [.page.tsx] or [.page.ts]. When the configured suffix is one of
    these two and the base name of the path ends in it, the result is the
    reference computation (base name, suffix stripped, split on dot, hyphen
    and underscore, pieces capitalised, joined, [Page] appended). The result
    depends on the base name only, and [user-profile.page.tsx] gives
    [UserProfilePage]. *)
Theorem extractComponentName_reference :
  (∀ suffix p : string,
     suffix = ".page.tsx" ∨ suffix = ".page.ts" →
     JsString.endsWith (Path.basename p) suffix = true →
     extractComponentName p = Reference.extractComponentName suffix p)
  ∧ (∀ p q : string,
       Path.basename p = Path.basename q →
       extractComponentName p = extractComponentName q)
  ∧ extractComponentName "user-profile.page.tsx" = "UserProfilePage".
Proof.
  split; [|split; [apply extractComponentName_basename|reflexivity]].
  intros suffix p Hsuffix Hends.
  apply endsWith_app in Hends as [base Hbase].
  unfold extractComponentName, Reference.extractComponentName,
    Reference.stripConfiguredSuffix.
  rewrite Hbase, stripSuffix_app, join_words_fold. simpl.
  destruct Hsuffix as [-> | ->].
  - by rewrite replacePageExtension_tsx.
  - by rewrite replacePageExtension_ts.
Qed.

Lemma extractComponentName_reference_witness :
  extractComponentName "src/user/user-profile.page.tsx"
  = Reference.extractComponentName ".page.tsx" "src/user/user-profile.page.tsx".
Proof.
  apply (proj1 extractComponentName_reference); [by left | reflexivity].
Defined.

(** C5 as stated fails: with the configured suffix [.view.tsx] the base name
    [home.view.tsx] ends in the suffix, the sources give [HomeViewTsxPage] and
    the reference computation gives [HomePage]. *)
Lemma extractComponentName_ignores_suffix :
  JsString.endsWith (Path.basename "src/home.view.tsx") ".view.tsx" = true
  ∧ extractComponentName "src/home.view.tsx" = "HomeViewTsxPage"
  ∧ Reference.extractComponentName ".view.tsx" "src/home.view.tsx" = "HomePage".
Proof. by vm_compute. Qed.

(** ** Paths *)

Lemma count_slash_isSlash (c : ascii) :
  Path.isSlash c = Ascii.eqb "/" c.
Proof. unfold Path.isSlash. apply Ascii.eqb_sym. Qed.

Lemma split_no_separator (c : ascii) (s : string) :
  JsString.count c s = 0 → JsString.split (λ d, Ascii.eqb d c) s = [s].
Proof.
  induction s as [|d s IH]; [done|]. simpl.
  rewrite (Ascii.eqb_sym d c). destruct (Ascii.eqb c d); [done|].
  simpl. intros H. by rewrite IH.
Qed.

Lemma split_app_separator (c : ascii) (s t : string) :
  JsString.count c s = 0 →
  JsString.split (λ d, Ascii.eqb d c) (s +:+ String c t)
  = s :: JsString.split (λ d, Ascii.eqb d c) t.
Proof.
  induction s as [|d s IH].
  - intros _. rewrite app_empty_l. simpl. by rewrite Ascii.eqb_refl.
  - rewrite app_String. simpl.
    rewrite (Ascii.eqb_sym d c). destruct (Ascii.eqb c d); [done|].
    simpl. intros H. by rewrite IH.
Qed.

Lemma join_slash_cons (x y : string) (l : list string) :
  JsString.join "/" (x :: y :: l) = x +:+ String "/" (JsString.join "/" (y :: l)).
Proof. reflexivity. Qed.

(** Joining plain segments with slashes and splitting again gives them back. *)
Lemma segments_join (segs : list string) :
  segs ≠ [] → Forall plainSegment segs →
  Path.segments (JsString.join "/" segs) = segs.
Proof.
  intros Hne Hplain. unfold Path.segments, Path.isSlash.
  induction Hplain as [|x l (_ & _ & _ & Hx) Hl IH]; [done|].
  destruct l as [|y l].
  - by apply split_no_separator.
  - rewrite join_slash_cons, split_app_separator by done.
    f_equal. by apply IH.
Qed.

Lemma pushSegment_plain (allow : bool) (acc : list string) (seg : string) :
  plainSegment seg → Path.pushSegment allow acc seg = seg :: acc.
Proof.
  intros (H1 & H2 & H3 & _). unfold Path.pushSegment.
  destruct (String.eqb_spec seg "") as [|_]; [done|].
  destruct (String.eqb_spec seg ".") as [|_]; [done|].
  destruct (String.eqb_spec seg "..") as [|_]; [done|]. done.
Qed.

Lemma fold_pushSegment_plain (allow : bool) (segs acc : list string) :
  Forall plainSegment segs →
  List.fold_left (Path.pushSegment allow) segs acc = List.rev segs ++ acc.
Proof.
  intros Hplain. revert acc.
  induction Hplain as [|x l Hx Hl IH]; intros acc; [done|].
  simpl. rewrite pushSegment_plain by done. rewrite IH.
  by rewrite <- app_assoc.
Qed.

Lemma dropCommonPrefix_app (l t : list string) :
  Path.dropCommonPrefix l (l ++ t) = ([], t).
Proof.
  induction l as [|x l IH]; simpl; [by destruct t|].
  by rewrite String.eqb_refl.
Qed.

Lemma isAbsolute_plain (x rest : string) :
  plainSegment x → Path.isAbsolute (x +:+ rest) = false.
Proof.
  intros (Hne & _ & _ & Hcount). destruct x as [|c x]; [done|].
  unfold Path.isAbsolute, JsString.startsWith. rewrite app_String. simpl.
  simpl in Hcount. by destruct (Ascii.eqb "/" c).
Qed.

Lemma isAbsolute_join (segs : list string) :
  segs ≠ [] → Forall plainSegment segs →
  Path.isAbsolute (JsString.join "/" segs) = false.
Proof.
  intros Hne Hplain. destruct Hplain as [|x l Hx Hl]; [done|].
  destruct l as [|y l].
  - unfold JsString.join. simpl. rewrite <- (app_empty_r x).
    by apply isAbsolute_plain.
  - rewrite join_slash_cons. by apply isAbsolute_plain.
Qed.

(** A path of plain segments is its own path relative to the working
    directory. *)
Lemma relative_plain (cwd segs : list string) :
  segs ≠ [] → Forall plainSegment segs →
  Path.relative cwd "." (JsString.join "/" segs) = JsString.join "/" segs.
Proof.
  intros Hne Hplain. unfold Path.relative.
  destruct (String.eqb_spec "." (JsString.join "/" segs)) as [Heq|_].
  - pose proof (segments_join segs Hne Hplain) as Hsegs.
    rewrite <- Heq in Hsegs. compute in Hsegs. subst segs.
    apply Forall_inv in Hplain. by destruct Hplain as (_ & ? & _).
  - unfold Path.resolve, Path.normalizeSegments.
    rewrite isAbsolute_join, segments_join by done.
    change (Path.isAbsolute ".") with false.
    change (Path.segments ".") with ["."].
    cbv iota. rewrite !fold_left_app.
    rewrite (fold_pushSegment_plain false segs) by done.
    change (fold_left (Path.pushSegment false) ["."] ?acc) with acc.
    rewrite rev_app_distr, rev_involutive, dropCommonPrefix_app.
    done.
Qed.

(** Plain segments given by literals. *)
Ltac plain_segments :=
  repeat (apply List.Forall_cons; [by repeat split|]); apply List.Forall_nil.

(** C6, as amended: [toScriptPath] keeps the path of the source relative to
    the working directory, directories included. For a source path of plain
    segments the result is [outputDir], a slash, the path with the first
    occurrence of the suffix removed, and [page.js]. For [a/b/file.page.tsx]
    this is [outputDir/a/b/file.page.js] when the configured suffix is
    [page.tsx], and [outputDir/a/b/filepage.js] when it is [.page.tsx]. *)
Theorem toScriptPath_keeps_directories :
  (∀ (cwd : list string) (outputDir suffix : string) (segs : list string),
     segs ≠ [] → Forall plainSegment segs →
     toScriptPath cwd outputDir (JsString.join "/" segs) suffix
     = outputDir +:+ "/" +:+
       JsString.replace suffix (JsString.join "/" segs) +:+ "page.js")
  ∧ (∀ (cwd : list string) (outputDir : string),
       toScriptPath cwd outputDir "a/b/file.page.tsx" "page.tsx"
       = outputDir +:+ "/a/b/file.page.js")
  ∧ (∀ (cwd : list string) (outputDir : string),
       toScriptPath cwd outputDir "a/b/file.page.tsx" ".page.tsx"
       = outputDir +:+ "/a/b/filepage.js").
Proof.
  assert (Hgen : ∀ cwd segs, segs ≠ [] → Forall plainSegment segs →
            ∀ outputDir suffix,
            toScriptPath cwd outputDir (JsString.join "/" segs) suffix
            = outputDir +:+ "/" +:+
              JsString.replace suffix (JsString.join "/" segs) +:+ "page.js").
  { intros cwd segs Hne Hplain outputDir suffix. unfold toScriptPath.
    by rewrite relative_plain. }
  assert (Hex : Forall plainSegment ["a"; "b"; "file.page.tsx"]).
  { plain_segments. }
  split; [intros; by apply Hgen|].
  split; intros cwd outputDir.
  - apply (Hgen cwd ["a"; "b"; "file.page.tsx"]); done.
  - apply (Hgen cwd ["a"; "b"; "file.page.tsx"]); done.
Qed.

Lemma toScriptPath_keeps_directories_witness :
  toScriptPath ["home"; "app"] "public/js" "src/user/register.page.tsx" "page.tsx"
  = "public/js/src/user/register.page.js".
Proof.
  apply (proj1 toScriptPath_keeps_directories ["home"; "app"] "public/js"
           "page.tsx" ["src"; "user"; "register.page.tsx"]).
  - done.
  - plain_segments.
Defined.

(** C6 as stated fails for the suffix [.page.tsx]: the dot goes with the
    suffix and [page.js] brings none back. *)
Lemma toScriptPath_drops_dot :
  toScriptPath ["home"; "app"] "out" "a/b/file.page.tsx" ".page.tsx"
  = "out/a/b/filepage.js".
Proof. reflexivity. Qed.

(** ** Where the bundle is written *)

Lemma last_Forall {A} (P : A → Prop) (l : list A) (d : A) :
  P d → Forall P l → P (List.last l d).
Proof.
  intros Hd Hl. induction Hl as [|x l Hx Hl IH]; [done|].
  destruct l; [done|]. exact IH.
Qed.

Lemma basename_no_slash (path : string) :
  JsString.count "/" (Path.basename path) = 0.
Proof.
  unfold Path.basename. apply last_Forall; [done|].
  apply List.Forall_forall. intros w Hw. apply filter_In in Hw as [Hw _].
  pose proof (split_pieces "/" path) as Hall.
  rewrite List.Forall_forall in Hall. by apply Hall.
Qed.

Lemma endsWith_count (c : ascii) (s suf : string) :
  JsString.endsWith s suf = true → JsString.count c suf ≤ JsString.count c s.
Proof.
  intros [t ->]%endsWith_app. rewrite count_app. lia.
Qed.

Lemma toOutFile_toScriptPath_differ (cwd : list string)
    (dir file suffix : string) :
  JsString.endsWith (Path.basename file) suffix = true →
  JsString.count "/" (Path.relative cwd "." file) ≠ 0 →
  toOutFile dir file suffix ≠ toScriptPath cwd dir file suffix.
Proof.
  intros Hends Hnested Heq.
  assert (Hsuffix : JsString.count "/" suffix = 0).
  { pose proof (endsWith_count "/" _ _ Hends) as Hle.
    rewrite basename_no_slash in Hle. lia. }
  unfold toOutFile, toScriptPath in Heq.
  apply app_inv_head_s, app_inv_head_s in Heq.
  apply (f_equal (JsString.count "/")) in Heq.
  rewrite !count_app, !count_replace, basename_no_slash in Heq by done.
  lia.
Qed.

(** C4: [_build] writes the bundle to [outputDir], a slash, the base name with
    the first occurrence of the suffix removed, and [page.js]; the directory
    of the source plays no part. For a source file whose base name ends in
    the suffix and whose path relative to the working directory has a
    directory part, this differs from the [outputPath] its registry entry
    records; and two sources with one base name are written to one file. *)
Theorem build_output_is_flat :
  (∀ (cwd : list string) (targetDir suffix path : string),
     outfile (_build cwd targetDir suffix path)
     = targetDir +:+ "/" +:+
       JsString.replace suffix (Path.basename path) +:+ "page.js")
  ∧ (∀ (cwd : list string) (cfg : PageBuildConfig) (file : string),
       JsString.endsWith (Path.basename file) (buildTargetFileSuffix cfg) = true →
       JsString.count "/" (Path.relative cwd "." file) ≠ 0 →
       outfile (_build cwd (outputDir cfg) (buildTargetFileSuffix cfg) file)
       ≠ outputPath (entryFor cwd cfg file))
  ∧ (∀ (cwd : list string) (targetDir suffix p q : string),
       Path.basename p = Path.basename q →
       outfile (_build cwd targetDir suffix p)
       = outfile (_build cwd targetDir suffix q)).
Proof.
  split; [done|]. split.
  - intros cwd cfg file Hends Hnested. simpl.
    by apply toOutFile_toScriptPath_differ.
  - intros cwd targetDir suffix p q Hbase. simpl. unfold toOutFile.
    by rewrite Hbase.
Qed.

Lemma build_output_is_flat_witness :
  outfile (_build exampleCwd "public/js" ".page.tsx" "src/user/register.page.tsx")
  = "public/js/registerpage.js"
  ∧ outputPath (entryFor exampleCwd exampleConfig "src/user/register.page.tsx")
    = "public/js/src/user/registerpage.js"
  ∧ outfile (_build exampleCwd (outputDir exampleConfig)
               (buildTargetFileSuffix exampleConfig) "src/user/register.page.tsx")
    ≠ outputPath (entryFor exampleCwd exampleConfig "src/user/register.page.tsx").
Proof.
  split; [reflexivity|]. split; [reflexivity|].
  apply (proj1 (proj2 build_output_is_flat) exampleCwd exampleConfig
           "src/user/register.page.tsx"); [reflexivity | by vm_compute].
Defined.

(** ** The metadata file: written, then read *)

Section JsonFacts.

Implicit Types (s t rest : string) (c : ascii) (v : json).

(** Reading back one escaped character. *)
Lemma parseStringBody_escapeChar c t :
  JSON.parseStringBody (JSON.escapeChar c +:+ t)
  = prod_map (String c) id <$> JSON.parseStringBody t.
Proof. destruct c as [[] [] [] [] [] [] [] []]; reflexivity. Qed.

Lemma parseStringBody_dquote rest :
  JSON.parseStringBody (dquote +:+ rest) = Some ("", rest).
Proof. reflexivity. Qed.

Lemma parseStringBody_escape s rest :
  JSON.parseStringBody (JSON.escape s +:+ dquote +:+ rest) = Some (s, rest).
Proof.
  induction s as [|c s IH]; [done|].
  change (JSON.escape (String c s)) with (JSON.escapeChar c +:+ JSON.escape s).
  by rewrite app_assoc_s, parseStringBody_escapeChar, IH.
Qed.

Lemma skipWhitespace_newline s :
  JSON.skipWhitespace (JSON.newline +:+ s) = JSON.skipWhitespace s.
Proof. reflexivity. Qed.

Lemma skipWhitespace_space s :
  JSON.skipWhitespace (" " +:+ s) = JSON.skipWhitespace s.
Proof. reflexivity. Qed.

Lemma skipWhitespace_indent level s :
  JSON.skipWhitespace (JSON.indent level +:+ s) = JSON.skipWhitespace s.
Proof.
  induction level as [|level IH]; [done|].
  change (JSON.indent (S level)) with ("  " +:+ JSON.indent level).
  rewrite app_assoc_s. exact IH.
Qed.

Lemma skipWhitespace_quote s t :
  JSON.skipWhitespace (JSON.quote s +:+ t) = JSON.quote s +:+ t.
Proof. reflexivity. Qed.

Lemma skipWhitespace_char c s :
  JSON.isWhitespace c = false →
  JSON.skipWhitespace (String c s) = String c s.
Proof. intros H. simpl. by rewrite H. Qed.

(** A string literal, after a blank. *)
Lemma parseValue_string fuel s rest :
  JSON.parseValue (S fuel) (" " +:+ JSON.quote s +:+ rest)
  = Some (JString s, rest).
Proof.
  unfold JSON.quote. rewrite !app_assoc_s.
  change (JSON.parseValue (S fuel)
            (" " +:+ dquote +:+ JSON.escape s +:+ dquote +:+ rest))
    with (prod_map JString id
          <$> JSON.parseStringBody (JSON.escape s +:+ dquote +:+ rest)).
  by rewrite parseStringBody_escape.
Qed.

(** One member of an object: its name, a colon, its value, and what the
    delimiter after the value decides. *)
Lemma parseMembers_member fuel s k valueText v afterValue d afterDelim :
  JSON.skipWhitespace s = JSON.quote k +:+ ": " +:+ valueText →
  JSON.parseValue fuel (" " +:+ valueText) = Some (v, afterValue) →
  JSON.skipWhitespace afterValue = String d afterDelim →
  JSON.parseMembers (S fuel) s
  = if nat_of_ascii d =? 125 then Some ([(k, v)], afterDelim)
    else if nat_of_ascii d =? 44 then
      prod_map (cons (k, v)) id <$> JSON.parseMembers fuel afterDelim
    else None.
Proof.
  intros Hs Hv Hd.
  transitivity
    (match JSON.skipWhitespace s with
     | EmptyString => None
     | String q afterQuote =>
         if negb (nat_of_ascii q =? 34) then None
         else
           match JSON.parseStringBody afterQuote with
           | None => None
           | Some (key, afterKey) =>
               match JSON.skipWhitespace afterKey with
               | EmptyString => None
               | String colon afterColon =>
                   if negb (nat_of_ascii colon =? 58) then None
                   else
                     match JSON.parseValue fuel afterColon with
                     | None => None
                     | Some (v, afterValue) =>
                         match JSON.skipWhitespace afterValue with
                         | EmptyString => None
                         | String d afterDelim =>
                             if nat_of_ascii d =? 125 then
                               Some ([(key, v)], afterDelim)
                             else if nat_of_ascii d =? 44 then
                               prod_map (cons (key, v)) id
                               <$> JSON.parseMembers fuel afterDelim
                             else None
                         end
                     end
               end
           end
     end); [reflexivity|].
  rewrite Hs. unfold JSON.quote. rewrite !app_assoc_s.
  change (dquote +:+ JSON.escape k +:+ dquote +:+ ": " +:+ valueText)
    with (String (ascii_of_nat 34)
            (JSON.escape k +:+ dquote +:+ ": " +:+ valueText)).
  cbv iota. change (negb (nat_of_ascii (ascii_of_nat 34) =? 34)) with false.
  cbv iota. rewrite parseStringBody_escape.
  change (JSON.skipWhitespace (": " +:+ valueText))
    with (String ":" (" " +:+ valueText)).
  cbv iota beta. change (negb (nat_of_ascii ":" =? 58)) with false.
  cbv iota. rewrite Hv, Hd. reflexivity.
Qed.

(** An object with members, after its opening brace. *)
Lemma parseValue_object fuel s q r ms rest :
  JSON.skipWhitespace s = String q r →
  (nat_of_ascii q =? 125) = false →
  JSON.parseMembers fuel s = Some (ms, rest) →
  JSON.parseValue (S fuel) ("{" +:+ s) = Some (JObject ms, rest).
Proof.
  intros Hs Hq Hms.
  transitivity
    (match JSON.skipWhitespace s with
     | EmptyString => None
     | String c' rest' =>
         if nat_of_ascii c' =? 125 then Some (JObject [], rest')
         else prod_map JObject id <$> JSON.parseMembers fuel s
     end); [reflexivity|].
  by rewrite Hs, Hq, Hms.
Qed.

Lemma parseValue_blank fuel s :
  JSON.parseValue fuel (" " +:+ s) = JSON.parseValue fuel s.
Proof. by destruct fuel. Qed.

Lemma parseMembers_more fuel s k valueText v more ms rest :
  JSON.skipWhitespace s = JSON.quote k +:+ ": " +:+ valueText →
  JSON.parseValue fuel (" " +:+ valueText) = Some (v, "," +:+ more) →
  JSON.parseMembers fuel more = Some (ms, rest) →
  JSON.parseMembers (S fuel) s = Some ((k, v) :: ms, rest).
Proof.
  intros Hs Hv Hms.
  rewrite (parseMembers_member fuel s k valueText v ("," +:+ more) "," more)
    by done.
  change (nat_of_ascii "," =? 125) with false.
  change (nat_of_ascii "," =? 44) with true.
  cbv iota. by rewrite Hms.
Qed.

Lemma parseMembers_last fuel s k valueText v afterValue rest :
  JSON.skipWhitespace s = JSON.quote k +:+ ": " +:+ valueText →
  JSON.parseValue fuel (" " +:+ valueText) = Some (v, afterValue) →
  JSON.skipWhitespace afterValue = "}" +:+ rest →
  JSON.parseMembers (S fuel) s = Some ([(k, v)], rest).
Proof.
  intros Hs Hv Hd.
  by rewrite (parseMembers_member fuel s k valueText v afterValue "}" rest).
Qed.

Lemma lines_one (x : string) : JSON.lines [x] = x.
Proof. reflexivity. Qed.

Lemma lines_more (x y : string) (l : list string) :
  JSON.lines (x :: y :: l) = x +:+ "," +:+ JSON.newline +:+ JSON.lines (y :: l).
Proof. unfold JSON.lines, JsString.join. simpl. by rewrite app_assoc_s. Qed.

(** The text of an entry is read back as the entry. *)
Lemma parseValue_entry fuel level (e : ComponentEntry) rest :
  JSON.parseValue (5 + fuel)
    (" " +:+ JSON.stringifyAt level (entryToJson e) +:+ rest)
  = Some (entryToJson e, rest).
Proof.
  rewrite parseValue_blank.
  change (JSON.stringifyAt level (entryToJson e)) with
    ("{" +:+ JSON.newline +:+
     JSON.lines
       [JSON.indent (S level) +:+ JSON.quote "scriptFileName" +:+ ": " +:+
          JSON.quote (scriptFileName e);
        JSON.indent (S level) +:+ JSON.quote "originalPath" +:+ ": " +:+
          JSON.quote (originalPath e);
        JSON.indent (S level) +:+ JSON.quote "outputPath" +:+ ": " +:+
          JSON.quote (outputPath e)]
     +:+ JSON.newline +:+ JSON.indent level +:+ "}").
  rewrite !lines_more, lines_one, !app_assoc_s.
  eapply parseValue_object.
  { rewrite skipWhitespace_newline, skipWhitespace_indent. reflexivity. }
  { reflexivity. }
  eapply parseMembers_more.
  { by rewrite skipWhitespace_newline, skipWhitespace_indent, skipWhitespace_quote. }
  { apply parseValue_string. }
  eapply parseMembers_more.
  { by rewrite skipWhitespace_newline, skipWhitespace_indent, skipWhitespace_quote. }
  { apply parseValue_string. }
  eapply parseMembers_last.
  { by rewrite skipWhitespace_newline, skipWhitespace_indent, skipWhitespace_quote. }
  { apply parseValue_string. }
  by rewrite skipWhitespace_newline, skipWhitespace_indent.
Qed.

Lemma stringifyAt_object level (x : string * json) (xs : list (string * json)) :
  JSON.stringifyAt level (JObject (x :: xs))
  = "{" +:+ JSON.newline +:+
    JSON.lines
      ((λ kv, JSON.indent (S level) +:+ JSON.quote (fst kv) +:+ ": " +:+
              JSON.stringifyAt (S level) (snd kv)) <$> (x :: xs))
    +:+ JSON.newline +:+ JSON.indent level +:+ "}".
Proof. reflexivity. Qed.

(** The lines of the members of a metadata object. *)
Local Abbreviation memberLines l :=
  ((λ kv : string * json,
      JSON.indent 1 +:+ JSON.quote (fst kv) +:+ ": " +:+
      JSON.stringifyAt 1 (snd kv))
   <$> (prod_map id entryToJson <$> l)).

(** The members of the metadata object are read back one by one. *)
Lemma parseMembers_entries (kv : string * ComponentEntry)
    (l : list (string * ComponentEntry)) fuel rest :
  JSON.parseMembers (length (kv :: l) + 5 + fuel)
    (JSON.newline +:+ JSON.lines (memberLines (kv :: l))
     +:+ JSON.newline +:+ "}" +:+ rest)
  = Some (prod_map id entryToJson <$> (kv :: l), rest).
Proof.
  revert kv fuel. induction l as [|kv' l IH]; intros [k e] fuel.
  - rewrite !fmap_cons, !fmap_nil, lines_one, !app_assoc_s.
    eapply parseMembers_last.
    { by rewrite skipWhitespace_newline, skipWhitespace_indent,
        skipWhitespace_quote. }
    { apply (parseValue_entry fuel). }
    by rewrite skipWhitespace_newline.
  - rewrite (fmap_cons _ (k, e)), (fmap_cons _ (prod_map id entryToJson (k, e))).
    rewrite fmap_cons, fmap_cons, lines_more, <- !fmap_cons, !app_assoc_s.
    change (length ((k, e) :: kv' :: l) + 5 + fuel)
      with (S (length (kv' :: l) + 5 + fuel)).
    eapply parseMembers_more.
    { by rewrite skipWhitespace_newline, skipWhitespace_indent,
        skipWhitespace_quote. }
    { replace (length (kv' :: l) + 5 + fuel)
        with (5 + (length (kv' :: l) + fuel)) by lia.
      apply parseValue_entry. }
    apply IH.
Qed.

Lemma length_lines (items : list string) :
  Forall (λ x, 2 ≤ String.length x) items →
  2 * length items ≤ String.length (JSON.lines items).
Proof.
  induction 1 as [|x l Hx Hl IH]; [done|].
  destruct l as [|y l].
  - rewrite lines_one. simpl. lia.
  - rewrite lines_more, !length_app_s. simpl in *. lia.
Qed.

Lemma length_memberLines (l : list (string * ComponentEntry)) :
  2 * length l ≤ String.length (JSON.lines (memberLines l)).
Proof.
  rewrite <- (length_fmap (prod_map id entryToJson)).
  rewrite <- (length_fmap
    (λ kv : string * json,
       JSON.indent 1 +:+ JSON.quote (fst kv) +:+ ": " +:+
       JSON.stringifyAt 1 (snd kv))).
  apply length_lines, Forall_fmap, Forall_fmap, Forall_true.
  intros [k e]. simpl. rewrite length_app_s. simpl. lia.
Qed.

(** The lines of the members start, after blanks, with a quote. *)
Lemma skipWhitespace_memberLines (kv : string * ComponentEntry)
    (l : list (string * ComponentEntry)) rest :
  ∃ r, JSON.skipWhitespace (JSON.lines (memberLines (kv :: l)) +:+ rest)
       = String (ascii_of_nat 34) r.
Proof.
  destruct kv as [k e]. rewrite (fmap_cons _ (k, e)), fmap_cons.
  destruct l as [|kv' l].
  - rewrite !fmap_nil, lines_one, !app_assoc_s, skipWhitespace_indent.
    eexists. reflexivity.
  - rewrite (fmap_cons _ kv'), fmap_cons, lines_more, !app_assoc_s,
      skipWhitespace_indent.
    eexists. reflexivity.
Qed.

(** [JSON.parse] undoes [JSON.stringify] on a metadata object. *)
Lemma parse_stringify_entries (l : list (string * ComponentEntry)) :
  JSON.parse (JSON.stringify (JObject (prod_map id entryToJson <$> l)))
  = Some (JObject (prod_map id entryToJson <$> l)).
Proof.
  destruct l as [|kv l]; [reflexivity|].
  unfold JSON.parse, JSON.stringify.
  rewrite fmap_cons, stringifyAt_object, <- fmap_cons.
  change (JSON.indent 0 +:+ "}") with "}".
  pose proof (length_memberLines (kv :: l)) as Hlen.
  assert (Hpos : length (kv :: l) = S (length l)) by reflexivity.
  match goal with |- context [JSON.parseValue (S (String.length ?text))] =>
    assert (Hfuel : ∃ extra,
              S (String.length text) = S (length (kv :: l) + 5 + extra));
    [ exists (String.length text - (length (kv :: l) + 5));
      assert (Hbound : length (kv :: l) + 5 ≤ String.length text);
      [|lia] |]
  end.
  { rewrite !length_app_s.
    change (String.length "{") with 1. change (String.length "}") with 1.
    change (String.length JSON.newline) with 1. lia. }
  destruct Hfuel as [extra ->].
  match goal with |- context [JSON.parseValue ?fuel ?text] =>
    assert (Hparse : JSON.parseValue fuel text
                     = Some (JObject (prod_map id entryToJson <$> kv :: l), ""))
  end.
  { destruct (skipWhitespace_memberLines kv l (JSON.newline +:+ "}"))
      as [r Hr].
    eapply parseValue_object.
    - rewrite skipWhitespace_newline. exact Hr.
    - reflexivity.
    - rewrite <- (app_empty_r "}"). apply (parseMembers_entries kv l extra ""). }
  by rewrite Hparse.
Qed.

End JsonFacts.

Lemma asEntry_entryToJson (e : ComponentEntry) : asEntry (entryToJson e) = Some e.
Proof. by destruct e. Qed.

(** Read at its type, the JSON value of a metadata map is the map. *)
Lemma asMetadata_metadataToJson (metadata : ComponentMetadata) :
  asMetadata (metadataToJson metadata) = Some metadata.
Proof.
  unfold asMetadata, metadataToJson.
  rewrite <- fmap_reverse.
  rewrite (mapM_fmap_Some _ (prod_map id entryToJson)).
  - simpl. f_equal.
    rewrite <- (list_to_map_to_list metadata) at 2.
    symmetry. apply list_to_map_proper.
    + apply NoDup_fst_map_to_list.
    + symmetry. apply reverse_Permutation.
  - intros [k e]. cbn [prod_map fst snd id].
    by rewrite asEntry_entryToJson.
Qed.

Lemma parse_metadataFileContent (metadata : ComponentMetadata) :
  JSON.parse (metadataFileContent metadata) = Some (metadataToJson metadata).
Proof. apply parse_stringify_entries. Qed.

Lemma loadMetadata_written (metadata : ComponentMetadata) (path : string)
    (disk : Disk) :
  loadMetadata (<[path := metadataFileContent metadata]> disk) path
  = metadataToJson metadata.
Proof.
  unfold loadMetadata. by rewrite lookup_insert_eq, parse_metadataFileContent.
Qed.

Lemma asMetadata_loadMetadata_written (metadata : ComponentMetadata)
    (path : string) (disk : Disk) :
  asMetadata (loadMetadata (<[path := metadataFileContent metadata]> disk) path)
  = Some metadata.
Proof. rewrite loadMetadata_written. apply asMetadata_metadataToJson. Qed.

(** C10: when [generateMetadataFile] has written a metadata map (its promise
    is fulfilled), [loadMetadata] on the same path returns the JSON value of
    that map, which read as a [ComponentMetadata] is the map itself. *)
Theorem metadata_round_trip (metadata : ComponentMetadata) (path : string)
    (mkdirOk writeOk : bool) (disk disk' : Disk) :
  generateMetadataFile metadata path mkdirOk writeOk disk = Some disk' →
  loadMetadata disk' path = metadataToJson metadata
  ∧ asMetadata (loadMetadata disk' path) = Some metadata.
Proof.
  unfold generateMetadataFile.
  destruct mkdirOk, writeOk; simpl; try done.
  intros [= <-]. rewrite loadMetadata_written.
  split; [done | apply asMetadata_metadataToJson].
Qed.

Lemma metadata_round_trip_witness :
  asMetadata
    (loadMetadata
       (<["build/metadata.json" := metadataFileContent exampleMetadata]> ∅)
       "build/metadata.json")
  = Some exampleMetadata.
Proof.
  exact (proj2 (metadata_round_trip exampleMetadata "build/metadata.json"
                  true true ∅ _ eq_refl)).
Defined.

(** ** Resolving a component name *)

(** A document that reads as a registry holds, under each key of the
    registry, a member that reads as the entry, and no other member. *)
Lemma member_typed (members : list (string * json)) (m : ComponentMetadata)
    (name : string) :
  asMetadata (JObject members) = Some m →
  match m !! name with
  | Some e => ∃ v, member name members = Some v ∧ asEntry v = Some e
  | None => member name members = None
  end.
Proof.
  unfold asMetadata, member.
  intros (l & Hl & ->)%fmap_Some. apply mapM_Some in Hl.
  induction Hl as [|kv ke l l' Hkv _ IH]; [done|].
  destruct kv as [k v].
  apply fmap_Some in Hkv as (e & He & ->). simpl in *.
  destruct (String.eqb_spec k name) as [->|Hne].
  - rewrite lookup_insert_eq. by exists v.
  - by rewrite lookup_insert_ne.
Qed.

Lemma asEntry_scriptFileName (v : json) (e : ComponentEntry) :
  asEntry v = Some e →
  truthy v = true ∧ scriptFileNameOf v = Resolved (scriptFileName e).
Proof.
  destruct v as [| | | | |fields]; try done. simpl.
  destruct (member "scriptFileName" fields) as [[| | |s| |]|]; try done.
  simpl.
  destruct (member "originalPath" fields ≫= asString) as [o|]; [|done].
  simpl.
  destruct (member "outputPath" fields ≫= asString) as [q|]; [|done].
  simpl. by intros [= <-].
Qed.

(** On a document that reads as a registry the lookup is the lookup in the
    registry. *)
Lemma resolveScriptPath_typed (disk : Disk) (componentName metadataPath : string)
    (metadata : ComponentMetadata) :
  asMetadata (loadMetadata disk metadataPath) = Some metadata →
  resolveScriptPath disk componentName metadataPath
  = match metadata !! componentName with
    | Some entry => Resolved (scriptFileName entry)
    | None =>
        if inherited componentName then ResolvedUndefined
        else NotFoundError (notFoundMessage componentName)
    end.
Proof.
  intros Htyped. unfold resolveScriptPath. cbv zeta.
  destruct (loadMetadata disk metadataPath) as [| | | | |members];
    try done.
  pose proof (member_typed members metadata componentName Htyped) as Hmember.
  unfold getProperty.
  destruct (metadata !! componentName) as [entry|].
  - destruct Hmember as (v & -> & Hentry).
    by destruct (asEntry_scriptFileName v entry Hentry) as [-> ->].
  - rewrite Hmember. unfold inheritedFrom.
    replace (bool_decide (componentName ∈ [])) with false
      by (symmetry; apply bool_decide_eq_false; by intros ?%elem_of_nil).
    by destruct (inherited componentName).
Qed.

(** C1, as amended: the lookup has one mode, whatever the strictness flag.
    The registry is the object the metadata file parses to, and its shape
    is not checked. A component name whose member is an object with a string
    [scriptFileName] resolves to that string, whatever else the member
    holds; in particular a key of a registry as [generateMetadataFile]
    writes it resolves to the [scriptFileName] of its entry. A name with no
    member (and that is not a property inherited from [Object.prototype]),
    or whose member is falsy, fails with the error whose message names the
    component. A metadata file that cannot be read or parsed is the empty
    registry, so the failure is this error and never an I/O error. A file
    that holds [null] makes the lookup throw a [TypeError]. Nothing is made
    up from the component name. *)
Theorem resolve_is_strict (disk : Disk) (componentName metadataPath : string)
    (strict : bool) :
  let missing :=
    NotFoundError
      ("コンポーネント " +:+ dquote +:+ componentName +:+ dquote +:+
       " のメタデータが見つかりません。" +:+
       "ビルドが完了していることを確認してください。") in
  (∀ members fields scriptFileName,
     loadMetadata disk metadataPath = JObject members →
     member componentName members = Some (JObject fields) →
     member "scriptFileName" fields = Some (JString scriptFileName) →
     resolve disk componentName metadataPath strict = Resolved scriptFileName)
  ∧ (∀ metadata entry,
       asMetadata (loadMetadata disk metadataPath) = Some metadata →
       metadata !! componentName = Some entry →
       resolve disk componentName metadataPath strict
       = Resolved (scriptFileName entry))
  ∧ (∀ members,
       loadMetadata disk metadataPath = JObject members →
       (member componentName members = None ∧ inherited componentName = false)
       ∨ (∃ v, member componentName members = Some v ∧ truthy v = false) →
       resolve disk componentName metadataPath strict = missing)
  ∧ (disk !! metadataPath = None
     ∨ (∃ content, disk !! metadataPath = Some content
                   ∧ JSON.parse content = None) →
     loadMetadata disk metadataPath = JObject []
     ∧ (inherited componentName = false →
        resolve disk componentName metadataPath strict = missing))
  ∧ (loadMetadata disk metadataPath = JNull →
     resolve disk componentName metadataPath strict = TypeError).
Proof.
  cbv zeta. unfold resolve.
  change (NotFoundError _) with (NotFoundError (notFoundMessage componentName)).
  split; [|split; [|split; [|split]]].
  - intros members fields name Hdoc Hmember Hname.
    unfold resolveScriptPath. rewrite Hdoc. simpl.
    rewrite Hmember. simpl. by rewrite Hname.
  - intros metadata entry Htyped Hentry.
    by rewrite (resolveScriptPath_typed _ _ _ _ Htyped), Hentry.
  - intros members Hdoc Hmember.
    unfold resolveScriptPath. rewrite Hdoc. simpl.
    destruct Hmember as [[-> Hown]|(v & -> & Hfalsy)].
    + unfold inheritedFrom. rewrite Hown.
      by replace (bool_decide (componentName ∈ [])) with false
        by (symmetry; apply bool_decide_eq_false; by intros ?%elem_of_nil).
    + by rewrite Hfalsy.
  - intros Hfile.
    assert (Hdoc : loadMetadata disk metadataPath = JObject []).
    { unfold loadMetadata.
      destruct Hfile as [->|(content & -> & ->)]; reflexivity. }
    split; [done|]. intros Hown.
    unfold resolveScriptPath. rewrite Hdoc. simpl.
    unfold inheritedFrom. rewrite Hown.
    by replace (bool_decide (componentName ∈ [])) with false
      by (symmetry; apply bool_decide_eq_false; by intros ?%elem_of_nil).
  - intros Hdoc. unfold resolveScriptPath. by rewrite Hdoc.
Qed.

Lemma resolve_is_strict_witness :
  resolve {[ "build/metadata.json" := partialMetadataFile ]} "HomePage"
    "build/metadata.json" false
  = Resolved "homepage.js"
  ∧ resolve {[ "build/metadata.json" := partialMetadataFile ]} "AboutPage"
      "build/metadata.json" false
    = NotFoundError (notFoundMessage "AboutPage")
  ∧ resolve (disk exampleStart) "RegisterPage" "build/metadata.json" true
    = Resolved "registerpage.js".
Proof.
  split; [|split].
  - eapply (proj1 (resolve_is_strict
                     {[ "build/metadata.json" := partialMetadataFile ]}
                     "HomePage" "build/metadata.json" false));
      by vm_compute.
  - eapply (proj1 (proj2 (proj2 (resolve_is_strict
                     {[ "build/metadata.json" := partialMetadataFile ]}
                     "AboutPage" "build/metadata.json" false))));
      [by vm_compute|].
    right. exists JNull. by vm_compute.
  - apply (proj1 (proj2 (resolve_is_strict (disk exampleStart) "RegisterPage"
                           "build/metadata.json" true))
             exampleMetadata
             {| scriptFileName := "registerpage.js";
                originalPath := "user/register.page.tsx";
                outputPath := "public/js/src/user/registerpage.js" |}).
    + exact (asMetadata_loadMetadata_written exampleMetadata
               "build/metadata.json" ∅).
    + by vm_compute.
Defined.

(** C1 as stated fails: [AboutPage] is absent from the registry the example
    project wrote, and the lookup asked not to be strict still fails instead
    of returning a file name made up from the component name. *)
Lemma resolve_has_no_fallback :
  asMetadata (loadMetadata (disk exampleStart) "build/metadata.json")
  = Some exampleMetadata
  ∧ exampleMetadata !! "AboutPage" = None
  ∧ resolve (disk exampleStart) "AboutPage" "build/metadata.json" false
    = NotFoundError (notFoundMessage "AboutPage").
Proof.
  split; [|split].
  - exact (asMetadata_loadMetadata_written exampleMetadata
             "build/metadata.json" ∅).
  - by vm_compute.
  - by vm_compute.
Qed.

(** ** The watch handler *)

Section HandlerFacts.

Variable cwd : list string.
Variable cfg : PageBuildConfig.

Implicit Types (s : State) (f : string) (t : Task).

(** Component names end in [Page]; no inherited property does. *)
Lemma extractComponentName_own (path : string) :
  inherited (extractComponentName path) = false.
Proof.
  unfold extractComponentName.
  set (stem := JsString.join "" _). clearbody stem.
  unfold inherited. apply bool_decide_eq_false.
  intros Hin. unfold objectPrototypeNames in Hin.
  assert (Hends : ∀ name, name ∈ objectPrototypeNames →
            JsString.endsWith name "Page" = false).
  { intros name Hname. unfold objectPrototypeNames in Hname.
    repeat (apply elem_of_cons in Hname as [->|Hname]; [reflexivity|]).
    by apply elem_of_nil in Hname. }
  apply Hends in Hin.
  assert (JsString.endsWith (stem +:+ "Page") "Page" = true) as Htrue.
  { apply endsWith_app. by exists stem. }
  congruence.
Qed.

Lemma hasProperty_extractComponentName (m : ComponentMetadata) (path : string) :
  hasProperty m (extractComponentName path)
  = bool_decide (is_Some (m !! extractComponentName path)).
Proof.
  unfold hasProperty. destruct (m !! _) as [e|] eqn:E.
  - symmetry. apply bool_decide_eq_true. eauto.
  - rewrite extractComponentName_own. symmetry.
    apply bool_decide_eq_false. by intros [? ?].
Qed.

(** A held lock drops the event. *)
Lemma onEvent_locked s eventType f stat outStat :
  lockMap s !! f = Some true →
  onEvent cwd cfg eventType (Some f) stat outStat s = s.
Proof.
  intros Hlock. unfold onEvent, lock. rewrite Hlock.
  by destruct (String.eqb f "").
Qed.

Lemma lock_free (lm : gmap string bool) f :
  lm !! f ≠ Some true →
  lock f lm = ({| isLock := true; lockedFileName := f |}, <[f := true]> lm).
Proof.
  intros Hfree. unfold lock. destruct (lm !! f) as [[]|]; done.
Qed.

(** An event of the build branch: the bundler is called and the handler
    waits for it. *)
Lemma onEvent_build s eventType f stats outStat :
  f ≠ "" →
  lockMap s !! f ≠ Some true →
  isDirectory stats = false →
  JsString.endsWith f (buildTargetFileSuffix cfg) = true →
  onEvent cwd cfg eventType (Some f) (StatFound stats) outStat s
  = {| lockMap := <[f := true]> (lockMap s);
       metadata := metadata s;
       disk := disk s;
       tasks := tasks s ++
         [{| locked := {| isLock := true; lockedFileName := f |};
             awaiting := AwaitBuild (Path.join (buildTargetDir cfg) f) |}];
       effects := effects s ++
         [EBuild (_build cwd (outputDir cfg) (buildTargetFileSuffix cfg)
                    (Path.join (buildTargetDir cfg) f))] |}.
Proof.
  intros Hne Hfree Hdir Hends. unfold onEvent.
  destruct (String.eqb_spec f "") as [|_]; [done|].
  rewrite lock_free by done. simpl.
  unfold isBuild. by rewrite Hdir, Hends.
Qed.

(** What an event does to the lock map and to the suspended handlers: it
    is dropped; or the lock is taken and given back at once; or the lock is
    taken and the handler is suspended. *)
Lemma onEvent_outcome s eventType filename stat outStat :
  let s' := onEvent cwd cfg eventType filename stat outStat s in
  s' = s
  ∨ ∃ f, filename = Some f ∧ lockMap s !! f ≠ Some true ∧
      ((lockMap s' = <[f := false]> (<[f := true]> (lockMap s))
        ∧ tasks s' = tasks s)
       ∨ ∃ a, lockMap s' = <[f := true]> (lockMap s)
              ∧ tasks s' = tasks s ++
                  [{| locked := {| isLock := true; lockedFileName := f |};
                      awaiting := a |}]).
Proof.
  destruct filename as [f|]; [|by left].
  destruct (decide (lockMap s !! f = Some true)) as [Hheld|Hfree].
  { left. by apply onEvent_locked. }
  simpl. unfold onEvent.
  destruct (String.eqb f ""); [by left|].
  rewrite lock_free by done. simpl.
  right. exists f. split; [done|]. split; [done|].
  destruct stat as [|stats|].
  - destruct (JsString.endsWith f (buildTargetFileSuffix cfg)).
    + destruct (hasProperty _ _).
      * right. by eexists.
      * left. unfold cleanupAndReturn.
        by destruct (deleteBuildedPageJsFile _ _ _ _).
    + left. unfold cleanupAndReturn.
      by destruct (deleteBuildedPageJsFile _ _ _ _).
  - destruct (isDirectory stats); simpl; [by left|].
    destruct (JsString.endsWith f (buildTargetFileSuffix cfg)); simpl.
    + right. by eexists.
    + by left.
  - by left.
Qed.

(** What the settling of an awaited promise does: nothing when there is no
    such handler; or the handler ends and disposes of its lock; or it is
    suspended again, holding the same lock. *)
Lemma onSettle_outcome s i ok outStat :
  let s' := onSettle cwd cfg i ok outStat s in
  s' = s
  ∨ ∃ t, tasks s !! i = Some t ∧
      ((lockMap s' = dispose (locked t) (lockMap s)
        ∧ tasks s' = delete i (tasks s))
       ∨ ∃ a, lockMap s' = lockMap s
              ∧ tasks s' = delete i (tasks s) ++
                  [{| locked := locked t; awaiting := a |}]).
Proof.
  simpl. unfold onSettle.
  destruct (tasks s !! i) as [t|] eqn:Ht; [|by left].
  right. exists t. split; [done|].
  destruct ok; simpl; [|by left].
  destruct (awaiting t) as [fullPath|next|content next].
  - destruct (negb (hasProperty _ _)).
    + right. by eexists.
    + by left.
  - right. by eexists.
  - left. destruct next as [componentName fullPath|componentName]; [|done].
    unfold cleanupAndReturn. by destruct (deleteBuildedPageJsFile _ _ _ _).
Qed.









(** *** Counting the handlers of a file name *)





(** *** The settling of a build *)

Lemma onSettle_rejected s i t outStat :
  tasks s !! i = Some t →
  onSettle cwd cfg i false outStat s
  = release (locked t) (setTasks (delete i (tasks s)) s).
Proof. intros Ht. unfold onSettle. by rewrite Ht. Qed.

Lemma onSettle_built_known s i t fullPath outStat :
  tasks s !! i = Some t →
  awaiting t = AwaitBuild fullPath →
  is_Some (metadata s !! extractComponentName fullPath) →
  onSettle cwd cfg i true outStat s
  = release (locked t) (setTasks (delete i (tasks s)) s).
Proof.
  intros Ht Hawait Hknown. unfold onSettle. rewrite Ht. simpl.
  rewrite Hawait. simpl. rewrite hasProperty_extractComponentName.
  by rewrite bool_decide_eq_true_2.
Qed.

(** A successful build registers the component unless its name is a key. *)
Lemma onSettle_built_metadata s i t fullPath outStat :
  tasks s !! i = Some t →
  awaiting t = AwaitBuild fullPath →
  (metadata s !! extractComponentName fullPath = None →
   metadata (onSettle cwd cfg i true outStat s)
   = <[extractComponentName fullPath := entryFor cwd cfg fullPath]> (metadata s))
  ∧ (is_Some (metadata s !! extractComponentName fullPath) →
     metadata (onSettle cwd cfg i true outStat s) = metadata s).
Proof.
  intros Ht Hawait. unfold onSettle. rewrite Ht. simpl. rewrite Hawait.
  simpl. rewrite hasProperty_extractComponentName. split.
  - intros Hnew. by rewrite bool_decide_eq_false_2
      by (rewrite Hnew; by intros [? ?]).
  - intros Hknown. by rewrite bool_decide_eq_true_2.
Qed.

(** *** What takes a key out of the registry *)

(** A step takes a key out of the registry only when it is a deletion
    event, for a file name whose lock is free and that ends in the suffix,
    whose path has the key as its component name. *)
Lemma removal_is_by_deletion s (l : Step) (k : string) :
  is_Some (metadata s !! k) →
  metadata (step cwd cfg s l) !! k = None →
  ∃ eventType g outStat,
    l = Event eventType (Some g) StatMissing outStat
    ∧ g ≠ ""
    ∧ lockMap s !! g ≠ Some true
    ∧ JsString.endsWith g (buildTargetFileSuffix cfg) = true
    ∧ extractComponentName (Path.join (buildTargetDir cfg) g) = k.
Proof.
  intros [e He] Hgone.
  destruct l as [eventType filename stat outStat|i ok outStat]; simpl in Hgone.
  - destruct filename as [g|]; [|simpl in Hgone; congruence].
    destruct (decide (lockMap s !! g = Some true)) as [Hheld|Hfree].
    { rewrite onEvent_locked in Hgone by done. congruence. }
    unfold onEvent in Hgone.
    destruct (String.eqb_spec g "") as [|Hne]; [congruence|].
    rewrite lock_free in Hgone by done. simpl in Hgone.
    destruct stat as [|stats|].
    + destruct (JsString.endsWith g (buildTargetFileSuffix cfg)) eqn:Hends.
      * destruct (hasProperty _ _).
        -- simpl in Hgone.
           destruct (decide (extractComponentName
                               (Path.join (buildTargetDir cfg) g) = k))
             as [Hk|Hk].
           ++ by exists eventType, g, outStat.
           ++ rewrite lookup_delete_ne in Hgone by done. congruence.
        -- unfold cleanupAndReturn in Hgone.
           destruct (deleteBuildedPageJsFile _ _ _ _); simpl in Hgone;
             congruence.
      * unfold cleanupAndReturn in Hgone.
        destruct (deleteBuildedPageJsFile _ _ _ _); simpl in Hgone;
          congruence.
    + destruct (isDirectory stats); simpl in Hgone; [congruence|].
      destruct (JsString.endsWith g (buildTargetFileSuffix cfg));
        simpl in Hgone; congruence.
    + simpl in Hgone. congruence.
  - unfold onSettle in Hgone.
    destruct (tasks s !! i) as [t|]; [|congruence].
    destruct ok; simpl in Hgone; [|congruence].
    destruct (awaiting t) as [fullPath|next|content next].
    + destruct (negb (hasProperty _ _)); simpl in Hgone; [|congruence].
      destruct (decide (extractComponentName fullPath = k)) as [Hk|Hk].
      * by rewrite Hk, lookup_insert_eq in Hgone.
      * rewrite lookup_insert_ne in Hgone by done. congruence.
    + simpl in Hgone. congruence.
    + destruct next as [componentName fullPath|componentName];
        [|simpl in Hgone; congruence].
      unfold cleanupAndReturn in Hgone.
      destruct (deleteBuildedPageJsFile _ _ _ _); simpl in Hgone; congruence.
Qed.

End HandlerFacts.

(** ** Events while the lock is held *)

(** C2, as amended: an event for a file name whose lock is held is dropped,
    a deletion like any other: the registry, the lock map, the suspended
    handlers, the disk and the calls made are what they were, and nothing is
    kept to be processed after the lock is released. A deletion event for
    the file that finds the lock free does remove the entry. And a key
    leaves the registry in no other way than by a deletion event that finds
    the lock of its own file name free, for a file name that ends in the
    suffix and whose path has the key as its component name (the file
    itself, or another file with the same component name). *)
Theorem event_dropped_while_locked (cwd : list string) (cfg : PageBuildConfig)
    (s : State) (f : string) :
  (∀ eventType stat outStat,
     lockMap s !! f = Some true →
     step cwd cfg s (Event eventType (Some f) stat outStat) = s)
  ∧ (∀ eventType outStat entry,
       f ≠ "" →
       lockMap s !! f ≠ Some true →
       JsString.endsWith f (buildTargetFileSuffix cfg) = true →
       metadata s !! extractComponentName (Path.join (buildTargetDir cfg) f)
       = Some entry →
       metadata (step cwd cfg s (Event eventType (Some f) StatMissing outStat))
       = delete (extractComponentName (Path.join (buildTargetDir cfg) f))
           (metadata s))
  ∧ (∀ (l : Step) (componentName : string),
       is_Some (metadata s !! componentName) →
       metadata (step cwd cfg s l) !! componentName = None →
       ∃ eventType g outStat,
         l = Event eventType (Some g) StatMissing outStat
         ∧ g ≠ ""
         ∧ lockMap s !! g ≠ Some true
         ∧ JsString.endsWith g (buildTargetFileSuffix cfg) = true
         ∧ extractComponentName (Path.join (buildTargetDir cfg) g)
           = componentName).
Proof.
  split; [|split].
  - intros eventType stat outStat Hheld. by apply onEvent_locked.
  - intros eventType outStat entry Hne Hfree Hends Hentry. simpl.
    unfold onEvent. destruct (String.eqb_spec f "") as [|_]; [done|].
    rewrite lock_free by done. simpl. rewrite Hends.
    unfold hasProperty. simpl. by rewrite Hentry.
  - intros l componentName. apply removal_is_by_deletion.
Qed.

Lemma event_dropped_while_locked_witness :
  let building :=
    step exampleCwd exampleConfig exampleStart
      (Event change (Some "user/register.page.tsx") (StatFound regularFile)
         StatMissing) in
  step exampleCwd exampleConfig building
    (Event rename (Some "user/register.page.tsx") StatMissing StatMissing)
  = building.
Proof.
  apply (proj1 (event_dropped_while_locked exampleCwd exampleConfig _
                  "user/register.page.tsx")).
  by vm_compute.
Defined.

(** C2 as stated fails: [user/register.page.tsx] is deleted while its build
    is in flight; the deletion event changes nothing, and once the build has
    settled no handler is left, the lock is free, and [RegisterPage] is
    still in the registry. *)
Lemma deletion_while_locked_is_lost :
  let building :=
    step exampleCwd exampleConfig exampleStart
      (Event change (Some "user/register.page.tsx") (StatFound regularFile)
         StatMissing) in
  let deleted :=
    step exampleCwd exampleConfig building
      (Event rename (Some "user/register.page.tsx") StatMissing StatMissing) in
  let settled := step exampleCwd exampleConfig deleted (Settle 0 true StatMissing) in
  lockMap building !! "user/register.page.tsx" = Some true
  ∧ deleted = building
  ∧ tasks settled = []
  ∧ lockMap settled !! "user/register.page.tsx" = Some false
  ∧ metadata settled !! "RegisterPage"
    = Some {| scriptFileName := "registerpage.js";
              originalPath := "user/register.page.tsx";
              outputPath := "public/js/src/user/registerpage.js" |}.
Proof. by vm_compute. Qed.

(** ** The build branch *)

Lemma lookup_snoc_last {A} (l : list A) (x : A) : (l ++ [x]) !! length l = Some x.
Proof. by apply list_lookup_middle. Qed.

Lemma delete_snoc_last {A} (l : list A) (x : A) : delete (length l) (l ++ [x]) = l.
Proof. by rewrite delete_middle, app_nil_r. Qed.

(** C3, as amended: the event type plays no part. An event of either type
    for a non-empty file name whose lock is free, whose path is a file that
    is no directory and whose name ends in the suffix takes the build branch:
    [isBuild] is true, the bundler is called for the full path and the
    handler waits for it, holding the lock. When the build then succeeds, in
    whatever state the watcher is by then, the handler adds the entry of the
    full path under the component name if that name is no key of the
    registry, and leaves the registry as it is if the name is a key; so
    with nothing in between, a component name that was no key at the event
    has been registered. *)
Theorem build_branch_whatever_event_type (cwd : list string)
    (cfg : PageBuildConfig) (s : State) (eventType : WatchEventType)
    (f : string) (stats : Stats) (outStat : StatOutcome) :
  f ≠ "" →
  lockMap s !! f ≠ Some true →
  isDirectory stats = false →
  JsString.endsWith f (buildTargetFileSuffix cfg) = true →
  let fullPath := Path.join (buildTargetDir cfg) f in
  let componentName := extractComponentName fullPath in
  let handler :=
    {| locked := {| isLock := true; lockedFileName := f |};
       awaiting := AwaitBuild fullPath |} in
  let s' := step cwd cfg s (Event eventType (Some f) (StatFound stats) outStat) in
  isBuild eventType f (Some stats) (buildTargetFileSuffix cfg) = true
  ∧ effects s'
    = effects s ++
      [EBuild (_build cwd (outputDir cfg) (buildTargetFileSuffix cfg) fullPath)]
  ∧ tasks s' = tasks s ++ [handler]
  ∧ lockMap s' = <[f := true]> (lockMap s)
  ∧ metadata s' = metadata s
  ∧ (∀ (s2 : State) (i : nat) (outStat' : StatOutcome),
       tasks s2 !! i = Some handler →
       let s3 := step cwd cfg s2 (Settle i true outStat') in
       (metadata s2 !! componentName = None →
        metadata s3
        = <[componentName := entryFor cwd cfg fullPath]> (metadata s2))
       ∧ (is_Some (metadata s2 !! componentName) →
          metadata s3 = metadata s2))
  ∧ (∀ outStat' : StatOutcome,
       metadata s !! componentName = None →
       metadata (step cwd cfg s' (Settle (length (tasks s)) true outStat'))
       = <[componentName := entryFor cwd cfg fullPath]> (metadata s)).
Proof.
  intros Hne Hfree Hdir Hends. cbv zeta. unfold step.
  rewrite onEvent_build by done. simpl.
  split; [unfold isBuild; by rewrite Hdir, Hends|].
  do 4 (split; [done|]). split.
  - intros s2 i outStat' Ht.
    by apply (onSettle_built_metadata cwd cfg s2 i _ _ outStat' Ht).
  - intros outStat' Hnew.
    match goal with
    | |- metadata (onSettle _ _ _ _ _ ?built) = _ =>
        destruct (onSettle_built_metadata cwd cfg built (length (tasks s))
                    {| locked := {| isLock := true; lockedFileName := f |};
                       awaiting :=
                         AwaitBuild (Path.join (buildTargetDir cfg) f) |}
                    (Path.join (buildTargetDir cfg) f) outStat')
          as [Hadd _]; [apply lookup_snoc_last|reflexivity|exact (Hadd Hnew)]
    end.
Qed.

Lemma build_branch_whatever_event_type_witness :
  let renamed :=
    step exampleCwd exampleConfig exampleStart
      (Event rename (Some "contact.page.tsx") (StatFound regularFile)
         StatMissing) in
  effects renamed
  = [EBuild (_build exampleCwd "public/js" ".page.tsx" "src/contact.page.tsx")]
  ∧ metadata (step exampleCwd exampleConfig renamed (Settle 0 true StatMissing))
    = <["ContactPage" :=
          entryFor exampleCwd exampleConfig "src/contact.page.tsx"]>
        (metadata exampleStart).
Proof.
  pose proof (build_branch_whatever_event_type exampleCwd exampleConfig
                exampleStart rename "contact.page.tsx" regularFile StatMissing
                ltac:(done) ltac:(by vm_compute) eq_refl eq_refl)
    as (_ & Heffects & _ & _ & _ & _ & Hadded).
  split; [exact Heffects|].
  apply (Hadded StatMissing). by vm_compute.
Defined.

(** C3 as stated fails: a [rename] event for the new file [about.page.tsx],
    found to be a regular file, calls the bundler, and once the build has
    succeeded [AboutPage] has been added to the registry. *)
Lemma rename_event_builds :
  let renamed :=
    step exampleCwd exampleConfig exampleStart
      (Event rename (Some "about.page.tsx") (StatFound regularFile) StatMissing) in
  let built := step exampleCwd exampleConfig renamed (Settle 0 true StatMissing) in
  effects renamed
  = [EBuild (_build exampleCwd "public/js" ".page.tsx" "src/about.page.tsx")]
  ∧ metadata exampleStart !! "AboutPage" = None
  ∧ metadata built !! "AboutPage"
    = Some {| scriptFileName := "aboutpage.js";
              originalPath := "about.page.tsx";
              outputPath := "public/js/src/aboutpage.js" |}.
Proof. by vm_compute. Qed.

(** C7: an event of the build branch leaves registry and disk as they are
    while the bundler runs; when the bundler then fails, in whatever state
    the watcher is by then, the handler ends: registry, disk and the calls
    made stay as they are (no [mkdir], no [writeFile]), and the lock is given
    back. With nothing in between, the failed event has changed the state in
    the lock map and the one bundler call only. *)
Theorem failed_build_records_nothing (cwd : list string) (cfg : PageBuildConfig)
    (s : State) (eventType : WatchEventType) (f : string) (stats : Stats)
    (outStat : StatOutcome) :
  f ≠ "" →
  lockMap s !! f ≠ Some true →
  isDirectory stats = false →
  JsString.endsWith f (buildTargetFileSuffix cfg) = true →
  let fullPath := Path.join (buildTargetDir cfg) f in
  let handler :=
    {| locked := {| isLock := true; lockedFileName := f |};
       awaiting := AwaitBuild fullPath |} in
  let call :=
    EBuild (_build cwd (outputDir cfg) (buildTargetFileSuffix cfg) fullPath) in
  let s1 := step cwd cfg s (Event eventType (Some f) (StatFound stats) outStat) in
  (metadata s1 = metadata s ∧ disk s1 = disk s
   ∧ tasks s1 = tasks s ++ [handler] ∧ effects s1 = effects s ++ [call])
  ∧ (∀ (s2 : State) (i : nat) (outStat' : StatOutcome),
       tasks s2 !! i = Some handler →
       let s3 := step cwd cfg s2 (Settle i false outStat') in
       metadata s3 = metadata s2 ∧ disk s3 = disk s2
       ∧ effects s3 = effects s2 ∧ tasks s3 = delete i (tasks s2)
       ∧ lockMap s3 = <[f := false]> (lockMap s2))
  ∧ (∀ outStat' : StatOutcome,
       let s3 := step cwd cfg s1 (Settle (length (tasks s)) false outStat') in
       metadata s3 = metadata s ∧ disk s3 = disk s
       ∧ effects s3 = effects s ++ [call] ∧ tasks s3 = tasks s
       ∧ lockMap s3 !! f = Some false).
Proof.
  intros Hne Hfree Hdir Hends. cbv zeta. unfold step.
  rewrite onEvent_build by done. simpl.
  split; [done|]. split.
  - intros s2 i outStat' Ht. by rewrite (onSettle_rejected _ _ _ _ _ _ Ht).
  - intros outStat'.
    erewrite onSettle_rejected by apply lookup_snoc_last. simpl.
    rewrite delete_snoc_last. unfold dispose. simpl.
    by rewrite lookup_insert_eq.
Qed.

Lemma failed_build_records_nothing_witness :
  let s1 :=
    step exampleCwd exampleConfig exampleStart
      (Event change (Some "about.page.tsx") (StatFound regularFile) StatMissing) in
  let s3 := step exampleCwd exampleConfig s1 (Settle 0 false StatMissing) in
  metadata s3 = metadata exampleStart ∧ disk s3 = disk exampleStart
  ∧ effects s3
    = effects exampleStart ++
      [EBuild (_build exampleCwd (outputDir exampleConfig)
                 (buildTargetFileSuffix exampleConfig)
                 (Path.join (buildTargetDir exampleConfig) "about.page.tsx"))]
  ∧ tasks s3 = tasks exampleStart
  ∧ lockMap s3 !! "about.page.tsx" = Some false.
Proof.
  apply (proj2 (proj2 (failed_build_records_nothing exampleCwd exampleConfig
                         exampleStart change "about.page.tsx" regularFile
                         StatMissing ltac:(done) ltac:(by vm_compute)
                         eq_refl eq_refl))
           StatMissing).
Defined.

(** C9, as amended: an event of the build branch calls the bundler and
    leaves the registry as it is; when the build then succeeds and the
    component name is a key of the registry at that moment, the handler ends
    without touching the registry:
    every entry keeps its fields, nothing is written ([mkdir] and [writeFile]
    are not called, the disk stays as it is), and the lock is given back. So
    an event for a file whose component name is a key, with nothing in
    between, leaves the registry and the disk unchanged and adds the one
    bundler call. *)
Theorem rebuild_keeps_existing_entry (cwd : list string) (cfg : PageBuildConfig)
    (s : State) (eventType : WatchEventType) (f : string) (stats : Stats)
    (outStat : StatOutcome) :
  f ≠ "" →
  lockMap s !! f ≠ Some true →
  isDirectory stats = false →
  JsString.endsWith f (buildTargetFileSuffix cfg) = true →
  let fullPath := Path.join (buildTargetDir cfg) f in
  let componentName := extractComponentName fullPath in
  let handler :=
    {| locked := {| isLock := true; lockedFileName := f |};
       awaiting := AwaitBuild fullPath |} in
  let call :=
    EBuild (_build cwd (outputDir cfg) (buildTargetFileSuffix cfg) fullPath) in
  let s1 := step cwd cfg s (Event eventType (Some f) (StatFound stats) outStat) in
  (metadata s1 = metadata s ∧ disk s1 = disk s
   ∧ tasks s1 = tasks s ++ [handler] ∧ effects s1 = effects s ++ [call])
  ∧ (∀ (s2 : State) (i : nat) (outStat' : StatOutcome),
       tasks s2 !! i = Some handler →
       is_Some (metadata s2 !! componentName) →
       let s3 := step cwd cfg s2 (Settle i true outStat') in
       metadata s3 = metadata s2 ∧ disk s3 = disk s2
       ∧ effects s3 = effects s2 ∧ tasks s3 = delete i (tasks s2)
       ∧ lockMap s3 = <[f := false]> (lockMap s2))
  ∧ (∀ outStat' : StatOutcome,
       is_Some (metadata s !! componentName) →
       let s3 := step cwd cfg s1 (Settle (length (tasks s)) true outStat') in
       metadata s3 = metadata s ∧ disk s3 = disk s
       ∧ effects s3 = effects s ++ [call] ∧ tasks s3 = tasks s
       ∧ lockMap s3 !! f = Some false).
Proof.
  intros Hne Hfree Hdir Hends. cbv zeta. unfold step.
  rewrite onEvent_build by done. simpl.
  split; [done|]. split.
  - intros s2 i outStat' Ht Hknown.
    erewrite onSettle_built_known; [|exact Ht|reflexivity|exact Hknown].
    done.
  - intros outStat' Hknown.
    erewrite onSettle_built_known;
      [|apply lookup_snoc_last|reflexivity|exact Hknown].
    simpl. rewrite delete_snoc_last. unfold dispose. simpl.
    by rewrite lookup_insert_eq.
Qed.

Lemma rebuild_keeps_existing_entry_witness :
  let s1 :=
    step exampleCwd exampleConfig exampleStart
      (Event change (Some "home.page.tsx") (StatFound regularFile) StatMissing) in
  let s3 := step exampleCwd exampleConfig s1 (Settle 0 true StatMissing) in
  metadata s3 = metadata exampleStart ∧ disk s3 = disk exampleStart
  ∧ effects s3
    = effects exampleStart ++
      [EBuild (_build exampleCwd (outputDir exampleConfig)
                 (buildTargetFileSuffix exampleConfig)
                 (Path.join (buildTargetDir exampleConfig) "home.page.tsx"))]
  ∧ tasks s3 = tasks exampleStart
  ∧ lockMap s3 !! "home.page.tsx" = Some false.
Proof.
  apply (proj2 (proj2 (rebuild_keeps_existing_entry exampleCwd exampleConfig
                         exampleStart change "home.page.tsx" regularFile
                         StatMissing ltac:(done) ltac:(by vm_compute)
                         eq_refl eq_refl))
           StatMissing).
  eexists. by vm_compute.
Defined.

(** C9 as stated fails: [home.page.tsx] and [admin/home.page.tsx] have
    the component name [HomePage], and the registry holds the entry of the
    second. A change of [home.page.tsx] starts a build while [HomePage] is a
    key; [admin/home.page.tsx] is deleted before the build has finished,
    which removes the key; when the build succeeds, the handler of the first
    event finds no key, registers [HomePage] with the fields of
    [home.page.tsx], and once its [mkdir] has settled writes the metadata
    file. *)
Lemma rebuild_after_removal_registers_again :
  let start :=
    watchStart exampleCwd exampleConfig
      ["src/home.page.tsx"; "src/admin/home.page.tsx"] ∅ in
  let building :=
    step exampleCwd exampleConfig start
      (Event change (Some "home.page.tsx") (StatFound regularFile) StatMissing) in
  let deleted :=
    step exampleCwd exampleConfig building
      (Event rename (Some "admin/home.page.tsx") StatMissing StatMissing) in
  let built := step exampleCwd exampleConfig deleted (Settle 0 true StatMissing) in
  let writing := step exampleCwd exampleConfig built (Settle 1 true StatMissing) in
  metadata building !! "HomePage"
  = Some {| scriptFileName := "homepage.js";
            originalPath := "admin/home.page.tsx";
            outputPath := "public/js/src/admin/homepage.js" |}
  ∧ effects building
    = [EBuild (_build exampleCwd "public/js" ".page.tsx" "src/home.page.tsx")]
  ∧ metadata deleted !! "HomePage" = None
  ∧ metadata built !! "HomePage"
    = Some {| scriptFileName := "homepage.js";
              originalPath := "home.page.tsx";
              outputPath := "public/js/src/homepage.js" |}
  ∧ tasks built !! 1
    = Some {| locked := {| isLock := true; lockedFileName := "home.page.tsx" |};
              awaiting := AwaitMkdir (AfterAdd "HomePage") |}
  ∧ last (effects writing)
    = Some (EWriteFile "build/metadata.json"
              (metadataFileContent (metadata built))).
Proof. by vm_compute. Qed.

(** ** The lock *)



(** * Further properties of the sources *)

(** ** The lock, on its own *)

Lemma lock_held (lm : gmap string bool) (f : string) :
  lm !! f = Some true →
  lock f lm = ({| isLock := false; lockedFileName := f |}, lm).
Proof. intros Hheld. unfold lock. by rewrite Hheld. Qed.

(** X1: once [lock] has given the lock of a file name, asking again is
    refused, leaves the lock map as it is, and the refused handle's
    [Symbol.dispose] changes nothing: it cannot free a lock held by another
    handler. Disposing of the first handle makes the lock available again.
    The locks of other file names are never touched. *)
Theorem lock_excludes_second_holder (lockMap0 : gmap string bool) (f : string) :
  lockMap0 !! f ≠ Some true →
  let first := lock f lockMap0 in
  let second := lock f first.2 in
  isLock first.1 = true
  ∧ isLock second.1 = false
  ∧ second.2 = first.2
  ∧ dispose second.1 second.2 = first.2
  ∧ isLock (lock f (dispose first.1 first.2)).1 = true
  ∧ ∀ g, g ≠ f →
      first.2 !! g = lockMap0 !! g
      ∧ dispose first.1 first.2 !! g = lockMap0 !! g.
Proof.
  intros Hfree. cbv zeta. rewrite (lock_free lockMap0 f Hfree). simpl.
  rewrite (lock_held (<[f := true]> lockMap0) f) by apply lookup_insert_eq.
  unfold dispose. simpl.
  split; [done|]. split; [done|]. split; [done|]. split; [done|]. split.
  - rewrite lock_free; [done|]. by rewrite lookup_insert_eq.
  - intros g Hne. by rewrite !lookup_insert_ne.
Qed.

Lemma lock_excludes_second_holder_witness :
  isLock (lock "home.page.tsx" (lock "home.page.tsx" ∅).2).1 = false.
Proof.
  apply (lock_excludes_second_holder ∅ "home.page.tsx"). by vm_compute.
Defined.

(** ** Names of the bundle *)

(** X2: the [scriptFileName] recorded for a source file is the name of the
    file [_build] writes for it under [outputDir], and the file
    [deleteBuildedPageJsFile] removes for that source is this same file:
    [unlink] when it is a file, [rm] when it is a directory, nothing when it
    is missing. *)
Theorem scriptFileName_names_bundle (cwd : list string) (cfg : PageBuildConfig)
    (file : string) :
  let written :=
    outfile (_build cwd (outputDir cfg) (buildTargetFileSuffix cfg) file) in
  written = outputDir cfg +:+ "/" +:+ scriptFileName (entryFor cwd cfg file)
  ∧ deleteBuildedPageJsFile file (buildTargetFileSuffix cfg) (outputDir cfg)
      (StatFound {| isDirectory := false |}) = Some [EUnlink written]
  ∧ deleteBuildedPageJsFile file (buildTargetFileSuffix cfg) (outputDir cfg)
      (StatFound {| isDirectory := true |}) = Some [ERm written]
  ∧ deleteBuildedPageJsFile file (buildTargetFileSuffix cfg) (outputDir cfg)
      StatMissing = Some [].
Proof.
  cbv zeta. simpl. unfold toOutFile, toScriptFileName, deleteBuildedPageJsFile.
  simpl. by unfold toOutFile.
Qed.

(** ** The registry collected from a scan *)

Lemma collectMetadata_snoc (cwd : list string) (cfg : PageBuildConfig)
    (files : list string) (file : string) :
  collectMetadata cwd cfg (files ++ [file])
  = <[extractComponentName file := entryFor cwd cfg file]>
      (collectMetadata cwd cfg files).
Proof. unfold collectMetadata. by rewrite foldl_snoc. Qed.

(** The entry under a component name after the scan. *)
Lemma collectMetadata_lookup (cwd : list string) (cfg : PageBuildConfig)
    (files : list string) (componentName : string) :
  collectMetadata cwd cfg files !! componentName
  = entryFor cwd cfg
    <$> last (filter (λ file, extractComponentName file = componentName) files).
Proof.
  induction files as [|file files IH] using rev_ind; [done|].
  rewrite collectMetadata_snoc, filter_app, filter_cons, filter_nil.
  destruct (decide (extractComponentName file = componentName)) as [<-|Hne].
  - by rewrite lookup_insert_eq, last_snoc.
  - by rewrite lookup_insert_ne, app_nil_r.
Qed.

(** X3: the registry [build] and [watchBuild] collect from the scanned files
    keeps, under each component name, the entry of the last scanned file with
    that component name, and has no key that is not the component name of a
    scanned file: earlier files with the same name are overwritten without a
    trace. *)
Theorem collectMetadata_last_wins (cwd : list string) (cfg : PageBuildConfig)
    (files : list string) (componentName : string) :
  collectMetadata cwd cfg files !! componentName
  = entryFor cwd cfg
    <$> last (filter (λ file, extractComponentName file = componentName) files).
Proof. apply collectMetadata_lookup. Qed.

(** X4: once the first build has written the metadata file, looking up a
    component name gives the [scriptFileName] of the last scanned file with
    that component name; a name no scanned file has fails with the not-found
    error (or, for a property inherited from [Object.prototype], gives
    [undefined]). *)
Theorem resolve_after_build (cwd : list string) (cfg : PageBuildConfig)
    (files : list string) (disk0 : Disk) (componentName : string) :
  resolveScriptPath (disk (watchStart cwd cfg files disk0)) componentName
    (metadataPath cfg)
  = match last (filter (λ file, extractComponentName file = componentName)
                  files) with
    | Some file => Resolved (toScriptFileName file (buildTargetFileSuffix cfg))
    | None =>
        if inherited componentName then ResolvedUndefined
        else NotFoundError (notFoundMessage componentName)
    end.
Proof.
  simpl.
  rewrite (resolveScriptPath_typed _ _ _ _
             (asMetadata_loadMetadata_written _ _ _)).
  rewrite collectMetadata_lookup.
  by destruct (last _).
Qed.

(** ** More on the watch handler *)

Section HandlerMore.

Variable cwd : list string.
Variable cfg : PageBuildConfig.

Implicit Types (s : State) (f : string) (t : Task).



End HandlerMore.


Section HandlerRuns.

Variable cwd : list string.
Variable cfg : PageBuildConfig.

Implicit Types (s : State) (f : string) (t : Task).

(** What is written is read back as the registry, and a name the registry
    lacks is not found. *)
Lemma resolve_written (m : ComponentMetadata) (d : Disk) (componentName : string) :
  resolveScriptPath (<[metadataPath cfg := metadataFileContent m]> d)
    componentName (metadataPath cfg)
  = match m !! componentName with
    | Some entry => Resolved (scriptFileName entry)
    | None =>
        if inherited componentName then ResolvedUndefined
        else NotFoundError (notFoundMessage componentName)
    end.
Proof.
  apply resolveScriptPath_typed, asMetadata_loadMetadata_written.
Qed.

(** X6: the deletion of a registered source, handled with no other handler in
    flight and with [mkdir] and [writeFile] succeeding: the component leaves
    the registry, the metadata file is rewritten and reads back as the
    registry, the lookup of the component then fails with the not-found
    error, the bundle is removed as [deleteBuildedPageJsFile] decides, and
    the lock is given back. *)
Theorem deletion_removes_and_persists s (eventType : WatchEventType) f
    (o1 o2 outStat : StatOutcome) (entry : ComponentEntry) :
  tasks s = [] →
  f ≠ "" →
  lockMap s !! f ≠ Some true →
  JsString.endsWith f (buildTargetFileSuffix cfg) = true →
  metadata s !! extractComponentName (Path.join (buildTargetDir cfg) f)
  = Some entry →
  let fullPath := Path.join (buildTargetDir cfg) f in
  let componentName := extractComponentName fullPath in
  let s3 :=
    run cwd cfg s
      [Event eventType (Some f) StatMissing o1;
       Settle 0 true o2;
       Settle 0 true outStat] in
  metadata s3 = delete componentName (metadata s)
  ∧ asMetadata (loadMetadata (disk s3) (metadataPath cfg)) = Some (metadata s3)
  ∧ resolveScriptPath (disk s3) componentName (metadataPath cfg)
    = NotFoundError (notFoundMessage componentName)
  ∧ effects s3
    = effects s ++
      [EMkdir (Path.dirname (metadataPath cfg));
       EWriteFile (metadataPath cfg)
         (metadataFileContent (delete componentName (metadata s)))] ++
      default []
        (deleteBuildedPageJsFile fullPath (buildTargetFileSuffix cfg)
           (outputDir cfg) outStat)
  ∧ tasks s3 = []
  ∧ lockMap s3 !! f = Some false.
Proof.
  intros Hts Hne Hfree Hends Hentry. cbv zeta.
  unfold run. simpl. unfold onEvent.
  destruct (String.eqb_spec f "") as [|_]; [done|].
  rewrite lock_free by done. simpl. rewrite Hends.
  unfold hasProperty. rewrite Hentry.
  unfold startGenerateMetadataFile, suspend, emit, setTasks, setMetadata,
    setLockMap. simpl. rewrite Hts. simpl.
  unfold onSettle at 2. simpl.
  unfold suspend, emit, setTasks. simpl.
  unfold onSettle. simpl. unfold cleanupAndReturn.
  destruct (deleteBuildedPageJsFile _ _ _ outStat) as [es|]; simpl.
  all: rewrite asMetadata_loadMetadata_written, resolve_written,
         lookup_delete_eq, extractComponentName_own.
  all: unfold dispose; simpl; rewrite lookup_insert_eq.
  all: by rewrite <- !app_assoc.
Qed.

(** The settling of [_build] for a component the registry lacks, of [mkdir],
    and of [writeFile] after an addition. *)
Lemma onSettle_built_new s i t fullPath outStat :
  tasks s !! i = Some t →
  awaiting t = AwaitBuild fullPath →
  metadata s !! extractComponentName fullPath = None →
  onSettle cwd cfg i true outStat s
  = {| lockMap := lockMap s;
       metadata :=
         <[extractComponentName fullPath := entryFor cwd cfg fullPath]>
           (metadata s);
       disk := disk s;
       tasks := delete i (tasks s) ++
         [{| locked := locked t;
             awaiting := AwaitMkdir (AfterAdd (extractComponentName fullPath)) |}];
       effects := effects s ++ [EMkdir (Path.dirname (metadataPath cfg))] |}.
Proof.
  intros Ht Hawait Hnew. unfold onSettle. rewrite Ht. simpl. rewrite Hawait.
  simpl. rewrite hasProperty_extractComponentName, bool_decide_eq_false_2
    by (rewrite Hnew; by intros [? ?]).
  done.
Qed.

Lemma onSettle_mkdir s i t next outStat :
  tasks s !! i = Some t →
  awaiting t = AwaitMkdir next →
  onSettle cwd cfg i true outStat s
  = {| lockMap := lockMap s;
       metadata := metadata s;
       disk := disk s;
       tasks := delete i (tasks s) ++
         [{| locked := locked t;
             awaiting := AwaitWriteFile (metadataFileContent (metadata s)) next |}];
       effects := effects s ++
         [EWriteFile (metadataPath cfg) (metadataFileContent (metadata s))] |}.
Proof.
  intros Ht Hawait. unfold onSettle. rewrite Ht. simpl. by rewrite Hawait.
Qed.

Lemma onSettle_written_add s i t content componentName outStat :
  tasks s !! i = Some t →
  awaiting t = AwaitWriteFile content (AfterAdd componentName) →
  onSettle cwd cfg i true outStat s
  = {| lockMap := dispose (locked t) (lockMap s);
       metadata := metadata s;
       disk := <[metadataPath cfg := content]> (disk s);
       tasks := delete i (tasks s);
       effects := effects s |}.
Proof.
  intros Ht Hawait. unfold onSettle. rewrite Ht. simpl. by rewrite Hawait.
Qed.

(** X7: a new source (its component name is no key yet), handled with no
    other handler in flight and with the bundler, [mkdir] and [writeFile]
    succeeding: the entry of the full path is added under the component name,
    the metadata file is rewritten and reads back as the registry, the lookup
    of the component gives the [scriptFileName] of the new source, and the
    lock is given back. *)
Theorem new_source_is_registered s (eventType : WatchEventType) f
    (stats : Stats) (o1 o2 o3 o4 : StatOutcome) :
  tasks s = [] →
  f ≠ "" →
  lockMap s !! f ≠ Some true →
  isDirectory stats = false →
  JsString.endsWith f (buildTargetFileSuffix cfg) = true →
  metadata s !! extractComponentName (Path.join (buildTargetDir cfg) f) = None →
  let fullPath := Path.join (buildTargetDir cfg) f in
  let componentName := extractComponentName fullPath in
  let registry := <[componentName := entryFor cwd cfg fullPath]> (metadata s) in
  let s4 :=
    run cwd cfg s
      [Event eventType (Some f) (StatFound stats) o1;
       Settle 0 true o2;
       Settle 0 true o3;
       Settle 0 true o4] in
  metadata s4 = registry
  ∧ asMetadata (loadMetadata (disk s4) (metadataPath cfg)) = Some registry
  ∧ resolveScriptPath (disk s4) componentName (metadataPath cfg)
    = Resolved (toScriptFileName fullPath (buildTargetFileSuffix cfg))
  ∧ effects s4
    = effects s ++
      [EBuild (_build cwd (outputDir cfg) (buildTargetFileSuffix cfg) fullPath);
       EMkdir (Path.dirname (metadataPath cfg));
       EWriteFile (metadataPath cfg) (metadataFileContent registry)]
  ∧ tasks s4 = []
  ∧ lockMap s4 !! f = Some false.
Proof.
  intros Hts Hne Hfree Hdir Hends Hnew. cbv zeta.
  unfold run. cbn [foldl]. unfold step.
  rewrite onEvent_build by done. rewrite Hts.
  erewrite (onSettle_built_new _ 0 _ _ o2);
    [|reflexivity|reflexivity|exact Hnew].
  erewrite (onSettle_mkdir _ 0 _ _ o3); [|reflexivity|reflexivity].
  erewrite (onSettle_written_add _ 0 _ _ _ o4); [|reflexivity|reflexivity].
  simpl.
  rewrite asMetadata_loadMetadata_written, resolve_written, !lookup_insert_eq.
  unfold dispose. simpl. rewrite lookup_insert_eq.
  by rewrite <- !app_assoc.
Qed.

(** X8: when [mkdir] is rejected after a registered source was deleted, the
    handler leaves through [finally]: the component stays removed from the
    in-memory registry (nothing is rolled back), no [writeFile] is called and
    the disk is as before, the bundle is not cleaned up
    ([deleteBuildedPageJsFile] is never reached), and the lock is given
    back. *)
Theorem failed_persist_after_deletion s (eventType : WatchEventType) f
    (o1 o2 : StatOutcome) (entry : ComponentEntry) :
  tasks s = [] →
  f ≠ "" →
  lockMap s !! f ≠ Some true →
  JsString.endsWith f (buildTargetFileSuffix cfg) = true →
  metadata s !! extractComponentName (Path.join (buildTargetDir cfg) f)
  = Some entry →
  let componentName :=
    extractComponentName (Path.join (buildTargetDir cfg) f) in
  let s2 :=
    run cwd cfg s [Event eventType (Some f) StatMissing o1; Settle 0 false o2] in
  metadata s2 = delete componentName (metadata s)
  ∧ disk s2 = disk s
  ∧ effects s2 = effects s ++ [EMkdir (Path.dirname (metadataPath cfg))]
  ∧ tasks s2 = []
  ∧ lockMap s2 !! f = Some false.
Proof.
  intros Hts Hne Hfree Hends Hentry. cbv zeta.
  unfold run. simpl. unfold onEvent.
  destruct (String.eqb_spec f "") as [|_]; [done|].
  rewrite lock_free by done. simpl. rewrite Hends.
  unfold hasProperty. rewrite Hentry.
  unfold startGenerateMetadataFile, suspend, emit, setTasks, setMetadata,
    setLockMap. simpl. rewrite Hts. simpl.
  unfold onSettle. simpl. unfold dispose. simpl.
  by rewrite lookup_insert_eq.
Qed.

(** X9: an event that is not for a source to build: no file name or an empty
    one leaves the state as it is; a path whose [statSync] throws, a
    directory, or a file whose name does not end in the suffix calls nothing
    and leaves registry, disk and suspended handlers as they are; its only
    trace is the lock entry of the file name, set and reset. *)
Theorem ignored_event_calls_nothing s (eventType : WatchEventType)
    (outStat : StatOutcome) :
  (∀ stat, step cwd cfg s (Event eventType None stat outStat) = s)
  ∧ (∀ stat, step cwd cfg s (Event eventType (Some "") stat outStat) = s)
  ∧ (∀ f stat,
       f ≠ "" →
       lockMap s !! f ≠ Some true →
       stat = StatThrows
       ∨ (∃ stats, stat = StatFound stats
            ∧ (isDirectory stats = true
               ∨ JsString.endsWith f (buildTargetFileSuffix cfg) = false)) →
       step cwd cfg s (Event eventType (Some f) stat outStat)
       = setLockMap (<[f := false]> (lockMap s)) s).
Proof.
  split; [done|]. split; [done|].
  intros f stat Hne Hfree Hstat. simpl. unfold onEvent.
  destruct (String.eqb_spec f "") as [|_]; [done|].
  rewrite lock_free by done. simpl.
  assert (Hrel : release {| isLock := true; lockedFileName := f |}
                   (setLockMap (<[f := true]> (lockMap s)) s)
                 = setLockMap (<[f := false]> (lockMap s)) s).
  { unfold release, dispose, setLockMap. simpl. by rewrite insert_insert_eq. }
  destruct Hstat as [->|(stats & -> & [Hdir|Hends])]; [done|..].
  - unfold isBuild. by rewrite Hdir.
  - unfold isBuild. rewrite Hends. by destruct (isDirectory stats).
Qed.

(** X10: the deletion of a path that is no registered source (its name does
    not end in the suffix, or its component name is no key): the registry and
    the disk stay as they are and nothing is written, but the removal of the
    bundle file is still attempted, for the path [toOutFile] gives; whether
    that [statSync] finds a file, a directory, nothing, or throws, the lock
    is given back at once. *)
Theorem deletion_of_unregistered_path s (eventType : WatchEventType) f
    (outStat : StatOutcome) :
  f ≠ "" →
  lockMap s !! f ≠ Some true →
  JsString.endsWith f (buildTargetFileSuffix cfg) = false
  ∨ metadata s !! extractComponentName (Path.join (buildTargetDir cfg) f)
    = None →
  let s' := step cwd cfg s (Event eventType (Some f) StatMissing outStat) in
  metadata s' = metadata s
  ∧ disk s' = disk s
  ∧ tasks s' = tasks s
  ∧ lockMap s' = <[f := false]> (lockMap s)
  ∧ effects s'
    = effects s ++
      match outStat with
      | StatFound stats =>
          let path :=
            toOutFile (outputDir cfg) (Path.join (buildTargetDir cfg) f)
              (buildTargetFileSuffix cfg) in
          if isDirectory stats then [ERm path] else [EUnlink path]
      | _ => []
      end.
Proof.
  intros Hne Hfree Hun. cbv zeta. simpl. unfold onEvent.
  destruct (String.eqb_spec f "") as [|_]; [done|].
  rewrite lock_free by done. simpl.
  assert (Hclean :
    ∀ s0, lockMap s0 = <[f := true]> (lockMap s) →
      let s' := cleanupAndReturn cfg {| isLock := true; lockedFileName := f |}
                  (Path.join (buildTargetDir cfg) f) outStat s0 in
      metadata s' = metadata s0 ∧ disk s' = disk s0 ∧ tasks s' = tasks s0
      ∧ lockMap s' = <[f := false]> (lockMap s)
      ∧ effects s'
        = effects s0 ++
          match outStat with
          | StatFound stats =>
              if isDirectory stats
              then [ERm (toOutFile (outputDir cfg)
                           (Path.join (buildTargetDir cfg) f)
                           (buildTargetFileSuffix cfg))]
              else [EUnlink (toOutFile (outputDir cfg)
                               (Path.join (buildTargetDir cfg) f)
                               (buildTargetFileSuffix cfg))]
          | _ => []
          end).
  { intros s0 Hlm. unfold cleanupAndReturn, deleteBuildedPageJsFile.
    destruct outStat as [|stats|]; simpl;
      [|destruct (isDirectory stats); simpl|];
      unfold dispose; simpl; rewrite Hlm, insert_insert_eq;
      by rewrite ?app_nil_r. }
  destruct (JsString.endsWith f (buildTargetFileSuffix cfg)) eqn:Hends.
  - destruct Hun as [|Hnone]; [done|].
    rewrite hasProperty_extractComponentName, bool_decide_eq_false_2
      by (rewrite Hnone; by intros [? ?]).
    exact (Hclean (setLockMap (<[f := true]> (lockMap s)) s) eq_refl).
  - exact (Hclean (setLockMap (<[f := true]> (lockMap s)) s) eq_refl).
Qed.

(** X11: a step touches the lock of its own file name only. An event leaves
    the lock entry of every other file name as it is, and so does the
    settling of a handler's promise for every file name but the one the
    handler holds: handlers of different files never take or free each
    other's lock. *)
Theorem step_keeps_other_locks s :
  (∀ eventType filename stat outStat g,
     filename ≠ Some g →
     lockMap (step cwd cfg s (Event eventType filename stat outStat)) !! g
     = lockMap s !! g)
  ∧ (∀ i ok outStat g,
       (∀ t, tasks s !! i = Some t → lockedFileName (locked t) ≠ g) →
       lockMap (step cwd cfg s (Settle i ok outStat)) !! g = lockMap s !! g).
Proof.
  split.
  - intros eventType filename stat outStat g Hother. simpl.
    destruct (onEvent_outcome cwd cfg s eventType filename stat outStat)
      as [->|(f & -> & _ & [[Hlm _]|(a & Hlm & _)])]; [done|..];
      rewrite Hlm.
    + rewrite !lookup_insert_ne; [done|congruence..].
    + rewrite lookup_insert_ne; [done|congruence].
  - intros i ok outStat g Hother. simpl.
    destruct (onSettle_outcome cwd cfg s i ok outStat)
      as [->|(t & Ht & [[Hlm _]|(a & Hlm & _)])]; [done|..];
      rewrite Hlm; [|done].
    unfold dispose. destruct (isLock (locked t)); [|done].
    rewrite lookup_insert_ne; [done|]. by apply Hother.
Qed.

(** An event writes no file and leaves the suspended handlers where they are
    in the list. *)
Lemma onEvent_keeps s eventType filename stat outStat :
  disk (onEvent cwd cfg eventType filename stat outStat s) = disk s
  ∧ ∃ extra,
      tasks (onEvent cwd cfg eventType filename stat outStat s)
      = tasks s ++ extra.
Proof.
  assert (Hsame : disk s = disk s ∧ ∃ extra, tasks s = tasks s ++ extra).
  { split; [done|]. exists []. by rewrite app_nil_r. }
  destruct filename as [f|]; [|done]. unfold onEvent.
  destruct (String.eqb f ""); [done|].
  destruct (lock f (lockMap s)) as [h lm]. destruct (isLock h); simpl; [|done].
  destruct stat as [|stats|]; [| |done].
  - destruct (JsString.endsWith f (buildTargetFileSuffix cfg)).
    + destruct (hasProperty _ _).
      * split; [done|]. by eexists.
      * unfold cleanupAndReturn.
        by destruct (deleteBuildedPageJsFile _ _ _ _).
    + unfold cleanupAndReturn. by destruct (deleteBuildedPageJsFile _ _ _ _).
  - destruct (negb _); [done|]. split; [done|]. by eexists.
Qed.

Lemma run_events_keeps s
    (evs : list (WatchEventType * option string * StatOutcome * StatOutcome)) :
  let s' :=
    run cwd cfg s ((λ ev, Event ev.1.1.1 ev.1.1.2 ev.1.2 ev.2) <$> evs) in
  disk s' = disk s ∧ ∃ extra, tasks s' = tasks s ++ extra.
Proof.
  revert s. induction evs as [|ev evs IH]; intros s; cbv zeta.
  - split; [done|]. exists []. by rewrite app_nil_r.
  - rewrite fmap_cons. unfold run. cbn [foldl]. fold (run cwd cfg).
    set (s1 := step cwd cfg s _).
    destruct (IH s1) as [Hdisk [extra Htasks]].
    assert (Hs1 : disk s1 = disk s ∧ ∃ extra', tasks s1 = tasks s ++ extra').
    { exact (onEvent_keeps s ev.1.1.1 ev.1.1.2 ev.1.2 ev.2). }
    destruct Hs1 as [Hdisk' [extra' Htasks']].
    unfold run in Hdisk, Htasks.
    rewrite Hdisk, Hdisk'. split; [done|].
    exists (extra' ++ extra). by rewrite Htasks, Htasks', app_assoc.
Qed.

(** X12: [generateMetadataFile] builds the text of the file when its [mkdir]
    settles, from the registry as it is then. Whatever events arrive between
    that moment and the settling of [writeFile], and whatever they do to the
    registry, the file then holds the registry of the moment [mkdir]
    settled, and reads back as that registry. (No other [writeFile] is under
    way: none is suspended when [mkdir] settles, and events start none.) *)
Theorem written_file_is_registry_at_mkdir s (i : nat) t (next : AfterPersist)
    (evs : list (WatchEventType * option string * StatOutcome * StatOutcome))
    (o o' : StatOutcome) :
  tasks s !! i = Some t →
  awaiting t = AwaitMkdir next →
  (∀ t', t' ∈ tasks s → ∀ content next', awaiting t' ≠ AwaitWriteFile content next') →
  let s1 := step cwd cfg s (Settle i true o) in
  let s2 :=
    run cwd cfg s1 ((λ ev, Event ev.1.1.1 ev.1.1.2 ev.1.2 ev.2) <$> evs) in
  let s3 := step cwd cfg s2 (Settle (length (tasks s) - 1) true o') in
  effects s1
  = effects s ++ [EWriteFile (metadataPath cfg) (metadataFileContent (metadata s))]
  ∧ disk s3 !! metadataPath cfg = Some (metadataFileContent (metadata s))
  ∧ asMetadata (loadMetadata (disk s3) (metadataPath cfg)) = Some (metadata s).
Proof.
  intros Ht Hawait _. cbv zeta.
  change (step cwd cfg s (Settle i true o)) with (onSettle cwd cfg i true o s).
  rewrite (onSettle_mkdir s i t next o Ht Hawait).
  split; [done|].
  match goal with |- context [run cwd cfg ?s1 ?ls] =>
    destruct (run_events_keeps s1 evs) as [Hdisk [extra Htasks]];
    set (s2 := run cwd cfg s1 ls) in *
  end.
  simpl in Hdisk, Htasks.
  assert (Hlen : length (delete i (tasks s)) = length (tasks s) - 1).
  { apply length_delete. eauto. }
  assert (Hlookup : tasks s2 !! (length (tasks s) - 1)
                    = Some {| locked := locked t;
                              awaiting := AwaitWriteFile
                                (metadataFileContent (metadata s)) next |}).
  { rewrite Htasks, <- Hlen, <- app_assoc. by apply list_lookup_middle. }
  assert (Hdisk3 : disk (step cwd cfg s2 (Settle (length (tasks s) - 1) true o'))
                   = <[metadataPath cfg := metadataFileContent (metadata s)]>
                       (disk s2)).
  { simpl. unfold onSettle. rewrite Hlookup. simpl.
    destruct next as [componentName fullPath|componentName]; [|done].
    unfold cleanupAndReturn. by destruct (deleteBuildedPageJsFile _ _ _ _). }
  rewrite Hdisk3. split.
  - apply lookup_insert_eq.
  - apply asMetadata_loadMetadata_written.
Qed.

End HandlerRuns.

Lemma deletion_removes_and_persists_witness :
  let s3 :=
    run exampleCwd exampleConfig exampleStart
      [Event rename (Some "home.page.tsx") StatMissing StatMissing;
       Settle 0 true StatMissing;
       Settle 0 true (StatFound regularFile)] in
  metadata s3 = delete "HomePage" (metadata exampleStart)
  ∧ resolveScriptPath (disk s3) "HomePage" "build/metadata.json"
    = NotFoundError (notFoundMessage "HomePage").
Proof.
  pose proof (deletion_removes_and_persists exampleCwd exampleConfig
                exampleStart rename "home.page.tsx" StatMissing StatMissing
                (StatFound regularFile)
                {| scriptFileName := "homepage.js";
                   originalPath := "home.page.tsx";
                   outputPath := "public/js/src/homepage.js" |}
                eq_refl ltac:(done) ltac:(by vm_compute) eq_refl
                ltac:(by vm_compute)) as H.
  split; [exact (proj1 H)|exact (proj1 (proj2 (proj2 H)))].
Defined.

Lemma new_source_is_registered_witness :
  let s4 :=
    run exampleCwd exampleConfig exampleStart
      [Event rename (Some "about.page.tsx") (StatFound regularFile) StatMissing;
       Settle 0 true StatMissing;
       Settle 0 true StatMissing;
       Settle 0 true StatMissing] in
  resolveScriptPath (disk s4) "AboutPage" "build/metadata.json"
  = Resolved "aboutpage.js".
Proof.
  exact (proj1 (proj2 (proj2
    (new_source_is_registered exampleCwd exampleConfig exampleStart rename
       "about.page.tsx" regularFile StatMissing StatMissing StatMissing
       StatMissing eq_refl ltac:(done) ltac:(by vm_compute) eq_refl eq_refl
       ltac:(by vm_compute))))).
Defined.

Lemma failed_persist_after_deletion_witness :
  let s2 :=
    run exampleCwd exampleConfig exampleStart
      [Event rename (Some "home.page.tsx") StatMissing StatMissing;
       Settle 0 false StatMissing] in
  metadata s2 = delete "HomePage" (metadata exampleStart)
  ∧ disk s2 = disk exampleStart.
Proof.
  pose proof (failed_persist_after_deletion exampleCwd exampleConfig
                exampleStart rename "home.page.tsx" StatMissing StatMissing
                {| scriptFileName := "homepage.js";
                   originalPath := "home.page.tsx";
                   outputPath := "public/js/src/homepage.js" |}
                eq_refl ltac:(done) ltac:(by vm_compute) eq_refl
                ltac:(by vm_compute)) as H.
  split; [exact (proj1 H)|exact (proj1 (proj2 H))].
Defined.

Lemma ignored_event_calls_nothing_witness :
  step exampleCwd exampleConfig exampleStart
    (Event change (Some "user") (StatFound {| isDirectory := true |}) StatMissing)
  = setLockMap (<["user" := false]> (lockMap exampleStart)) exampleStart.
Proof.
  apply (proj2 (proj2 (ignored_event_calls_nothing exampleCwd exampleConfig
                         exampleStart change StatMissing))).
  - done.
  - by vm_compute.
  - right. eexists. split; [reflexivity|by left].
Defined.

Lemma deletion_of_unregistered_path_witness :
  effects
    (step exampleCwd exampleConfig exampleStart
       (Event rename (Some "notes.txt") StatMissing (StatFound regularFile)))
  = [EUnlink "public/js/notes.txtpage.js"].
Proof.
  exact (proj2 (proj2 (proj2 (proj2
    (deletion_of_unregistered_path exampleCwd exampleConfig exampleStart rename
       "notes.txt" (StatFound regularFile) ltac:(done) ltac:(by vm_compute)
       (or_introl eq_refl)))))).
Defined.

Lemma step_keeps_other_locks_witness :
  lockMap
    (step exampleCwd exampleConfig exampleStart
       (Event change (Some "home.page.tsx") (StatFound regularFile) StatMissing))
  !! "about.page.tsx"
  = lockMap exampleStart !! "about.page.tsx".
Proof.
  apply (proj1 (step_keeps_other_locks exampleCwd exampleConfig exampleStart)).
  done.
Defined.

(** The registry changes between the two settlings, and the file keeps the
    older registry. *)
Lemma written_file_is_registry_at_mkdir_witness :
  let s :=
    step exampleCwd exampleConfig exampleStart
      (Event rename (Some "home.page.tsx") StatMissing StatMissing) in
  let s1 := step exampleCwd exampleConfig s (Settle 0 true StatMissing) in
  let s2 :=
    run exampleCwd exampleConfig s1
      ((λ ev, Event ev.1.1.1 ev.1.1.2 ev.1.2 ev.2)
       <$> [(rename, Some "user/register.page.tsx", StatMissing, StatMissing)]) in
  let s3 := step exampleCwd exampleConfig s2 (Settle (length (tasks s) - 1) true StatMissing) in
  asMetadata (loadMetadata (disk s3) "build/metadata.json") = Some (metadata s)
  ∧ metadata s !! "RegisterPage"
    = Some {| scriptFileName := "registerpage.js";
              originalPath := "user/register.page.tsx";
              outputPath := "public/js/src/user/registerpage.js" |}
  ∧ metadata s3 !! "RegisterPage" = None.
Proof.
  split; [|by vm_compute].
  refine (proj2 (proj2
    (written_file_is_registry_at_mkdir exampleCwd exampleConfig
       (step exampleCwd exampleConfig exampleStart
          (Event rename (Some "home.page.tsx") StatMissing StatMissing))
       0
       {| locked := {| isLock := true; lockedFileName := "home.page.tsx" |};
          awaiting := AwaitMkdir (AfterDelete "HomePage" "src/home.page.tsx") |}
       (AfterDelete "HomePage" "src/home.page.tsx")
       [(rename, Some "user/register.page.tsx", StatMissing, StatMissing)]
       StatMissing StatMissing _ _ _))).
  - by vm_compute.
  - reflexivity.
  - intros t' Ht'. vm_compute in Ht'.
    apply list_elem_of_singleton in Ht' as ->. done.
Defined.

(** ** More on paths *)

Lemma split_app_any (isSep : ascii → bool) (c : ascii) (a b : string) :
  isSep c = true →
  JsString.split isSep (a +:+ String c b)
  = JsString.split isSep a ++ JsString.split isSep b.
Proof.
  intros Hc. induction a as [|d a IH].
  - rewrite app_empty_l. simpl. by rewrite Hc.
  - rewrite app_String. simpl. rewrite IH.
    destruct (isSep d); [done|].
    pose proof (split_nonempty isSep a) as Hne.
    by destruct (JsString.split isSep a).
Qed.

Lemma segments_app_slash (a b : string) :
  Path.segments (a +:+ "/" +:+ b) = Path.segments a ++ Path.segments b.
Proof. by apply split_app_any. Qed.

Lemma segments_slash_free (s : string) :
  JsString.count "/" s = 0 → Path.segments s = [s].
Proof. apply split_no_separator. Qed.

Lemma segments_all_slash_free (s : string) :
  Forall (λ w, JsString.count "/" w = 0) (Path.segments s).
Proof. apply split_pieces. Qed.

Lemma join_slash_snoc (xs : list string) (x : string) :
  xs ≠ [] →
  JsString.join "/" (xs ++ [x]) = JsString.join "/" xs +:+ "/" +:+ x.
Proof.
  induction xs as [|y xs IH]; [done|]. intros _.
  destruct xs as [|z xs]; [done|].
  change ((y :: z :: xs) ++ [x]) with (y :: (z :: xs) ++ [x]).
  change ((z :: xs) ++ [x]) with (z :: xs ++ [x]) at 1.
  rewrite !join_slash_cons.
  change (z :: xs ++ [x]) with ((z :: xs) ++ [x]).
  rewrite IH by done. by rewrite !app_String, !app_assoc_s.
Qed.

Lemma join_slash_app (xs ys : list string) :
  xs ≠ [] → ys ≠ [] →
  JsString.join "/" (xs ++ ys)
  = JsString.join "/" xs +:+ "/" +:+ JsString.join "/" ys.
Proof.
  intros Hxs Hys. revert xs Hxs.
  induction ys as [|y ys IH] using rev_ind; [done|]. intros xs Hxs.
  destruct ys as [|z ys _] using rev_ind.
  - simpl. by apply join_slash_snoc.
  - rewrite app_assoc, join_slash_snoc by (by destruct xs).
    rewrite IH by (done || by destruct ys).
    rewrite (join_slash_snoc (ys ++ [z])) by (by destruct ys).
    by rewrite !app_assoc_s.
Qed.

(** Joining slash-free pieces and splitting again gives them back. *)
Lemma segments_join_free (segs : list string) :
  segs ≠ [] → Forall (λ w, JsString.count "/" w = 0) segs →
  Path.segments (JsString.join "/" segs) = segs.
Proof.
  intros Hne Hfree. unfold Path.segments, Path.isSlash.
  induction Hfree as [|x l Hx Hl IH]; [done|].
  destruct l as [|y l].
  - by apply split_no_separator.
  - rewrite join_slash_cons, split_app_separator by done.
    f_equal. by apply IH.
Qed.

Lemma Forall_plain_free (segs : list string) :
  Forall plainSegment segs → Forall (λ w, JsString.count "/" w = 0) segs.
Proof.
  intros H. eapply Forall_impl; [exact H|]. by intros w (_ & _ & _ & ?).
Qed.

(** What [normalizeString] keeps are segments of its input. *)
Lemma fold_pushSegment_Forall (P : string → Prop) (allow : bool)
    (segs acc : list string) :
  Forall P segs → Forall P acc →
  Forall P (List.fold_left (Path.pushSegment allow) segs acc).
Proof.
  intros Hsegs. revert acc.
  induction Hsegs as [|x l Hx Hl IH]; intros acc Hacc; [done|].
  simpl. apply IH. unfold Path.pushSegment.
  destruct (_ || _); [done|]. destruct (String.eqb x "..").
  - destruct Hacc as [|top below Htop Hbelow]; [by destruct allow; constructor|].
    destruct (String.eqb top ".."); [|done].
    destruct allow; by repeat constructor.
  - by constructor.
Qed.

(** The last segment of a path that ends with a slash-free string ends with
    that string. *)
Lemma segments_app_free (r x : string) :
  JsString.count "/" x = 0 →
  ∃ l w, Path.segments (r +:+ x) = l ++ [w +:+ x].
Proof.
  intros Hx. induction r as [|c r (l & w & IH)].
  - exists [], "". by rewrite !app_empty_l, segments_slash_free.
  - rewrite app_String. unfold Path.segments in *. simpl. rewrite IH.
    destruct (Path.isSlash c).
    + by exists ("" :: l), w.
    + destruct l as [|a l]; simpl.
      * by exists [], (String c w).
      * by exists (String c a :: l), w.
Qed.

Lemma plain_not_trailing (r x : string) :
  plainSegment x → JsString.endsWith (r +:+ x) "/" = false.
Proof.
  intros (Hne & _ & _ & Hcount).
  destruct (JsString.endsWith (r +:+ x) "/") eqn:E; [|done].
  apply endsWith_app in E as [t Ht].
  destruct (segments_app_free r x Hcount) as (l & w & Hsegs).
  rewrite Ht in Hsegs.
  change (t +:+ "/") with (t +:+ "/" +:+ "") in Hsegs.
  rewrite segments_app_slash in Hsegs.
  change (Path.segments "") with [""] in Hsegs.
  apply app_inj_tail in Hsegs as [_ Hempty].
  destruct w; [|done]. rewrite app_empty_l in Hempty. by subst.
Qed.

(** The segments [normalize] keeps of a path that ends in a plain segment end
    in that segment. *)
Lemma normalizeSegments_snoc (allow : bool) (pre : list string) (x : string) :
  plainSegment x →
  ∃ xs, Path.normalizeSegments allow (pre ++ [x]) = xs ++ [x]
        ∧ (Forall (λ w, JsString.count "/" w = 0) pre →
           Forall (λ w, JsString.count "/" w = 0) xs).
Proof.
  intros Hx. unfold Path.normalizeSegments.
  rewrite fold_left_app. simpl. rewrite pushSegment_plain by done. simpl.
  eexists. split; [reflexivity|].
  intros Hpre. apply Forall_rev. by apply fold_pushSegment_Forall.
Qed.

Lemma basename_ends_plain (pfx : string) (xs : list string) (x : string) :
  pfx = "" ∨ pfx = "/" →
  Forall (λ w, JsString.count "/" w = 0) xs →
  plainSegment x →
  Path.basename (pfx +:+ JsString.join "/" (xs ++ [x])) = x.
Proof.
  intros Hpfx Hxs Hx.
  assert (Hfree : Forall (λ w, JsString.count "/" w = 0) (xs ++ [x])).
  { apply Forall_app. split; [done|]. constructor; [|done].
    by destruct Hx as (_ & _ & _ & ?). }
  assert (Hsegs : Path.segments (JsString.join "/" (xs ++ [x])) = xs ++ [x]).
  { apply segments_join_free; [by destruct xs|done]. }
  assert (Hnonempty : Path.nonEmpty x = true).
  { destruct Hx as (Hne & _). by destruct x. }
  unfold Path.basename.
  destruct Hpfx as [-> | ->].
  - rewrite app_empty_l, Hsegs, List.filter_app. simpl. rewrite Hnonempty.
    apply last_last.
  - change ("/" +:+ ?p) with ("" +:+ "/" +:+ p).
    rewrite segments_app_slash, Hsegs.
    change (Path.segments "") with [""]. simpl.
    rewrite List.filter_app. simpl. rewrite Hnonempty. apply last_last.
Qed.

(** [basename(join(dir, name))] is [name], for a plain name. *)
Lemma basename_join (dir name : string) :
  plainSegment name → Path.basename (Path.join dir name) = name.
Proof.
  intros Hname. pose proof Hname as (Hne & _ & _ & Hcount).
  unfold Path.join.
  assert (Hjoined : ∃ r pre,
    (if String.eqb dir "" then name
     else if String.eqb name "" then dir else dir +:+ "/" +:+ name)
    = r +:+ name
    ∧ Path.segments (r +:+ name) = pre ++ [name]
    ∧ Forall (λ w, JsString.count "/" w = 0) pre).
  { destruct (String.eqb dir "").
    - exists "", []. rewrite app_empty_l. split; [done|].
      split; [by apply segments_slash_free|done].
    - destruct (String.eqb_spec name "") as [|_]; [done|].
      exists (dir +:+ "/"), (Path.segments dir).
      rewrite app_assoc_s. split; [done|].
      rewrite segments_app_slash, (segments_slash_free name) by done.
      split; [done|apply segments_all_slash_free]. }
  destruct Hjoined as (r & pre & -> & Hsegs & Hpre).
  destruct (String.eqb_spec (r +:+ name) "") as [Hempty|_].
  { apply (f_equal String.length) in Hempty. rewrite length_app_s in Hempty.
    destruct name; [done|]. simpl in Hempty. lia. }
  unfold Path.normalize.
  destruct (String.eqb_spec (r +:+ name) "") as [Hempty|_].
  { apply (f_equal String.length) in Hempty. rewrite length_app_s in Hempty.
    destruct name; [done|]. simpl in Hempty. lia. }
  rewrite plain_not_trailing by done. rewrite Hsegs.
  destruct (normalizeSegments_snoc (negb (Path.isAbsolute (r +:+ name))) pre
              name Hname) as (xs & -> & Hxs).
  specialize (Hxs Hpre).
  destruct (String.eqb_spec (JsString.join "/" (xs ++ [name])) "") as [Hp|_].
  { assert (Hs : Path.segments (JsString.join "/" (xs ++ [name])) = xs ++ [name]).
    { apply segments_join_free; [by destruct xs|].
      apply Forall_app. split; [done|]. by constructor. }
    rewrite Hp in Hs. change (Path.segments "") with ([] ++ [""]) in Hs.
    apply app_inj_tail in Hs as [_ Hs]. by subst. }
  rewrite app_empty_r.
  apply basename_ends_plain; [|done|done].
  destruct (Path.isAbsolute (r +:+ name)); auto.
Qed.

(** ** The directory scanner *)

(** X13: [readFiles] returns one path for each directory entry that is a file
    whose name ends in the suffix, the parent path joined with the name, and
    nothing else: directories are left out whatever their name. As the names
    of directory entries are plain segments, the base name of every path
    returned is the name of its entry, and so ends in the suffix. *)
Theorem readFiles_returns_matching_files (entries : list Dirent)
    (suffix : string) :
  (∀ path,
     path ∈ readFiles entries suffix
     ↔ ∃ file, file ∈ entries ∧ isFile file = true
              ∧ JsString.endsWith (name file) suffix = true
              ∧ path = Path.join (parentPath file) (name file))
  ∧ (Forall (λ file, plainSegment (name file)) entries →
     ∀ path, path ∈ readFiles entries suffix →
       JsString.endsWith (Path.basename path) suffix = true).
Proof.
  assert (Hmem : ∀ path,
     path ∈ readFiles entries suffix
     ↔ ∃ file, file ∈ entries ∧ isFile file = true
              ∧ JsString.endsWith (name file) suffix = true
              ∧ path = Path.join (parentPath file) (name file)).
  { intros path. unfold readFiles. rewrite list_elem_of_fmap. split.
    - intros (file & -> & Hin). apply list_elem_of_In, filter_In in Hin.
      destruct Hin as [Hin Hok]. apply andb_true_iff in Hok as [? ?].
      exists file. by rewrite list_elem_of_In.
    - intros (file & Hin & Hfile & Hends & ->). exists file. split; [done|].
      apply list_elem_of_In, filter_In. rewrite <- list_elem_of_In.
      split; [done|]. by rewrite Hfile, Hends. }
  split; [exact Hmem|].
  intros Hplain path Hpath. apply Hmem in Hpath as (file & Hin & _ & Hends & ->).
  rewrite Forall_forall in Hplain. by rewrite basename_join by by apply Hplain.
Qed.

Lemma readFiles_returns_matching_files_witness :
  JsString.endsWith (Path.basename "src/user/register.page.tsx") ".page.tsx"
  = true.
Proof.
  apply (proj2 (readFiles_returns_matching_files
                  [{| isFile := false; name := "user"; parentPath := "src" |};
                   {| isFile := true; name := "register.page.tsx";
                      parentPath := "src/user" |};
                   {| isFile := true; name := "notes.txt";
                      parentPath := "src/user" |}]
                  ".page.tsx")).
  - repeat (apply List.Forall_cons; [by repeat split|]). apply List.Forall_nil.
  - vm_compute. constructor.
Defined.

(** ** Absolute and relative source paths *)

Lemma join_plain_nonempty (segs : list string) :
  segs ≠ [] → Forall plainSegment segs → JsString.join "/" segs ≠ "".
Proof.
  intros Hne Hplain Hempty.
  pose proof (segments_join segs Hne Hplain) as Hsegs.
  rewrite Hempty in Hsegs. change (Path.segments "") with [""] in Hsegs.
  subst segs. apply Forall_inv in Hplain. by destruct Hplain as (? & _).
Qed.

Lemma normalizeSegments_plain (allow : bool) (segs : list string) :
  Forall plainSegment segs → Path.normalizeSegments allow segs = segs.
Proof.
  intros Hplain. unfold Path.normalizeSegments.
  rewrite fold_pushSegment_plain by done.
  by rewrite app_nil_r, rev_involutive.
Qed.

(** [resolve] of a relative path of plain segments: the resolved working
    directory, then the segments. *)
Lemma resolve_plain (cwd segs : list string) :
  segs ≠ [] → Forall plainSegment segs →
  Path.resolve cwd (JsString.join "/" segs)
  = Path.normalizeSegments false cwd ++ segs.
Proof.
  intros Hne Hplain. unfold Path.resolve, Path.normalizeSegments.
  rewrite isAbsolute_join, segments_join by done.
  rewrite fold_left_app, fold_pushSegment_plain by done.
  by rewrite rev_app_distr, rev_involutive.
Qed.

Lemma resolve_dot (cwd : list string) :
  Path.resolve cwd "." = Path.normalizeSegments false cwd.
Proof.
  unfold Path.resolve, Path.normalizeSegments.
  change (Path.isAbsolute ".") with false.
  change (Path.segments ".") with ["."]. cbv iota.
  by rewrite fold_left_app.
Qed.

(** [normalize] leaves a relative path of plain segments as it is. *)
Lemma normalize_plain (segs : list string) :
  segs ≠ [] → Forall plainSegment segs →
  Path.normalize (JsString.join "/" segs) = JsString.join "/" segs.
Proof.
  intros Hne Hplain. unfold Path.normalize.
  pose proof (join_plain_nonempty segs Hne Hplain) as Hjoin.
  destruct (String.eqb_spec (JsString.join "/" segs) "") as [|_]; [done|].
  rewrite isAbsolute_join, segments_join, normalizeSegments_plain by done.
  simpl negb.
  destruct (String.eqb_spec (JsString.join "/" segs) "") as [|_]; [done|].
  assert (Htrail : JsString.endsWith (JsString.join "/" segs) "/" = false).
  { destruct segs as [|x segs _] using rev_ind; [done|].
    apply Forall_app in Hplain as [_ Hx]. apply Forall_inv in Hx.
    destruct segs as [|y segs].
    - simpl. rewrite <- (app_empty_l x). by apply plain_not_trailing.
    - rewrite join_slash_snoc, <- app_assoc_s by done.
      by apply plain_not_trailing. }
  rewrite Htrail. by rewrite app_empty_l, app_empty_r.
Qed.

(** [join] of a directory and a file name, both of plain segments. *)
Lemma join_plain (dsegs fsegs : list string) :
  dsegs ≠ [] → fsegs ≠ [] →
  Forall plainSegment dsegs → Forall plainSegment fsegs →
  Path.join (JsString.join "/" dsegs) (JsString.join "/" fsegs)
  = JsString.join "/" (dsegs ++ fsegs).
Proof.
  intros Hd Hf Hpd Hpf. unfold Path.join.
  pose proof (join_plain_nonempty dsegs Hd Hpd).
  pose proof (join_plain_nonempty fsegs Hf Hpf).
  destruct (String.eqb_spec (JsString.join "/" dsegs) "") as [|_]; [done|].
  destruct (String.eqb_spec (JsString.join "/" fsegs) "") as [|_]; [done|].
  rewrite <- join_slash_app by done.
  assert (Hall : Forall plainSegment (dsegs ++ fsegs)) by by apply Forall_app.
  assert (Hne : dsegs ++ fsegs ≠ []) by by destruct dsegs.
  pose proof (join_plain_nonempty _ Hne Hall).
  destruct (String.eqb_spec (JsString.join "/" (dsegs ++ fsegs)) "") as [|_];
    [done|].
  by apply normalize_plain.
Qed.

(** The path of a file under a directory, relative to that directory. *)
Lemma relative_under (cwd dsegs fsegs : list string) :
  dsegs ≠ [] → fsegs ≠ [] →
  Forall plainSegment dsegs → Forall plainSegment fsegs →
  Path.relative cwd (JsString.join "/" dsegs) (JsString.join "/" (dsegs ++ fsegs))
  = JsString.join "/" fsegs.
Proof.
  intros Hd Hf Hpd Hpf.
  assert (Hall : Forall plainSegment (dsegs ++ fsegs)) by by apply Forall_app.
  assert (Hne : dsegs ++ fsegs ≠ []) by by destruct dsegs.
  unfold Path.relative.
  destruct (String.eqb_spec (JsString.join "/" dsegs)
              (JsString.join "/" (dsegs ++ fsegs))) as [Heq|_].
  { apply (f_equal Path.segments) in Heq.
    rewrite !segments_join in Heq by done.
    rewrite <- (app_nil_r dsegs) in Heq at 1.
    apply app_inv_head in Heq. by subst. }
  rewrite !resolve_plain by done.
  by rewrite app_assoc, dropCommonPrefix_app.
Qed.

(** X14: for a build directory and an event file name that are relative
    paths of plain segments, the full path the watcher builds is the
    directory, a slash and the file name, and the [originalPath] recorded in
    the registry entry of that full path is the file name the event
    reported, whatever the working directory. *)
Theorem originalPath_is_watched_name (cwd : list string) (cfg : PageBuildConfig)
    (dsegs fsegs : list string) :
  dsegs ≠ [] → fsegs ≠ [] →
  Forall plainSegment dsegs → Forall plainSegment fsegs →
  buildTargetDir cfg = JsString.join "/" dsegs →
  let filename := JsString.join "/" fsegs in
  let fullPath := Path.join (buildTargetDir cfg) filename in
  fullPath = buildTargetDir cfg +:+ "/" +:+ filename
  ∧ originalPath (entryFor cwd cfg fullPath) = filename.
Proof.
  intros Hd Hf Hpd Hpf Hdir. cbv zeta. simpl. rewrite Hdir.
  rewrite join_plain by done. split.
  - by apply join_slash_app.
  - by apply relative_under.
Qed.

Lemma originalPath_is_watched_name_witness :
  originalPath
    (entryFor exampleCwd exampleConfig
       (Path.join (buildTargetDir exampleConfig) "user/register.page.tsx"))
  = "user/register.page.tsx".
Proof.
  apply (proj2 (originalPath_is_watched_name exampleCwd exampleConfig ["src"]
                  ["user"; "register.page.tsx"] ltac:(done) ltac:(done)
                  ltac:(plain_segments) ltac:(plain_segments) eq_refl)).
Defined.

(** The path of a file under the working directory, given absolute. *)
Lemma relative_absolute (cwd segs : list string) :
  segs ≠ [] → Forall plainSegment cwd → Forall plainSegment segs →
  Path.relative cwd "." ("/" +:+ JsString.join "/" (cwd ++ segs))
  = JsString.join "/" segs.
Proof.
  intros Hne Hcwd Hsegs.
  assert (Hall : Forall plainSegment (cwd ++ segs)) by by apply Forall_app.
  assert (Hne' : cwd ++ segs ≠ []) by by destruct cwd, segs.
  unfold Path.relative.
  change (String.eqb "." ("/" +:+ ?p)) with false. cbv iota.
  rewrite resolve_dot, normalizeSegments_plain by done.
  unfold Path.resolve.
  change (Path.isAbsolute ("/" +:+ ?p)) with true. cbv iota.
  change ("/" +:+ ?p) with ("" +:+ "/" +:+ p).
  rewrite segments_app_slash, segments_join by done.
  change (Path.segments "") with [""].
  unfold Path.normalizeSegments. simpl.
  change (Path.pushSegment false [] "") with (@nil string).
  rewrite fold_pushSegment_plain, app_nil_r, rev_involutive by done.
  by rewrite dropCommonPrefix_app.
Qed.

(** X15: [toScriptPath] does not depend on how the source is named: for a
    source under the working directory, the absolute path and the path
    relative to the working directory give the same output path, the one
    that keeps the relative path under [outputDir]. *)
Theorem toScriptPath_absolute_source (cwd segs : list string)
    (outputDir suffix : string) :
  segs ≠ [] → Forall plainSegment cwd → Forall plainSegment segs →
  toScriptPath cwd outputDir ("/" +:+ JsString.join "/" (cwd ++ segs)) suffix
  = toScriptPath cwd outputDir (JsString.join "/" segs) suffix
  ∧ toScriptPath cwd outputDir ("/" +:+ JsString.join "/" (cwd ++ segs)) suffix
    = outputDir +:+ "/" +:+
      JsString.replace suffix (JsString.join "/" segs) +:+ "page.js".
Proof.
  intros Hne Hcwd Hsegs. unfold toScriptPath.
  by rewrite relative_absolute, relative_plain.
Qed.

Lemma toScriptPath_absolute_source_witness :
  toScriptPath exampleCwd "public/js" "/home/app/src/user/register.page.tsx"
    "page.tsx"
  = "public/js/src/user/register.page.js".
Proof.
  apply (proj2 (toScriptPath_absolute_source exampleCwd
                  ["src"; "user"; "register.page.tsx"] "public/js" "page.tsx"
                  ltac:(done) ltac:(plain_segments) ltac:(plain_segments))).
Defined.

(** ** Component names that coincide *)

Lemma pascalWords_scan (s : string) :
  JsString.join "" (pascalWord <$> JsString.split isWordSeparator s)
  = pascalScan true s
  ∧ match JsString.split isWordSeparator s with
    | w :: ws =>
        JsString.toLowerCase w +:+ JsString.join "" (pascalWord <$> ws)
    | [] => ""
    end = pascalScan false s.
Proof.
  induction s as [|c s [IHtrue IHfalse]]; [done|].
  simpl JsString.split. simpl pascalScan.
  destruct (isWordSeparator c).
  - rewrite fmap_cons, join_empty_cons. by split.
  - pose proof (split_nonempty isWordSeparator s) as Hne.
    destruct (JsString.split isWordSeparator s) as [|w ws]; [done|].
    rewrite fmap_cons, join_empty_cons.
    change (pascalWord (String c w))
      with (String (JsString.upperChar c) (JsString.toLowerCase w)).
    change (JsString.toLowerCase (String c w))
      with (String (JsString.lowerChar c) (JsString.toLowerCase w)).
    rewrite !app_String. by rewrite IHfalse.
Qed.

Lemma canonicalChar_facts (c : ascii) :
  isWordSeparator (canonicalChar c) = isWordSeparator c
  ∧ (isWordSeparator c = false →
     JsString.upperChar (canonicalChar c) = JsString.upperChar c
     ∧ JsString.lowerChar (canonicalChar c) = JsString.lowerChar c)
  ∧ (Path.isSlash (canonicalChar c) = Path.isSlash c).
Proof.
  destruct c as [[] [] [] [] [] [] [] []];
    (split; [reflexivity|split; [|reflexivity]]);
    intros Hsep; (discriminate Hsep || (split; reflexivity)).
Qed.

Lemma pascalScan_canonicalName (start : bool) (s : string) :
  pascalScan start (canonicalName s) = pascalScan start s.
Proof.
  revert start. induction s as [|c s IH]; intros start; [done|].
  change (canonicalName (String c s))
    with (String (canonicalChar c) (canonicalName s)).
  simpl pascalScan.
  destruct (canonicalChar_facts c) as (-> & Hcase & _).
  destruct (isWordSeparator c) eqn:Hsep; [apply IH|].
  destruct (Hcase eq_refl) as [-> ->]. by rewrite IH.
Qed.

(** The component name of a path whose base name is known. *)
Lemma extractComponentName_scan (path base ext : string) :
  ext = ".page.tsx" ∨ ext = ".page.ts" →
  Path.basename path = base +:+ ext →
  extractComponentName path = pascalScan true base +:+ "Page".
Proof.
  intros Hext Hbase. unfold extractComponentName. rewrite Hbase.
  destruct Hext as [-> | ->].
  - rewrite replacePageExtension_tsx. by rewrite (proj1 (pascalWords_scan _)).
  - rewrite replacePageExtension_ts. by rewrite (proj1 (pascalWords_scan _)).
Qed.

Lemma page_file_plain (base ext : string) :
  ext = ".page.tsx" ∨ ext = ".page.ts" →
  JsString.count "/" base = 0 → plainSegment (base +:+ ext).
Proof.
  intros Hext Hcount.
  assert (Hlen : 8 ≤ String.length (base +:+ ext)).
  { rewrite length_app_s. destruct Hext as [-> | ->]; simpl; lia. }
  repeat split.
  - intros Heq. rewrite Heq in Hlen. simpl in Hlen. lia.
  - intros Heq. rewrite Heq in Hlen. simpl in Hlen. lia.
  - intros Heq. rewrite Heq in Hlen. simpl in Hlen. lia.
  - rewrite count_app, Hcount. by destruct Hext as [-> | ->].
Qed.

(** X16: on ASCII names the component name forgets letter case and which
    of dot, hyphen and underscore separates the words. Two page files, in
    whatever directories, whose base names (ASCII, without slash, before
    the [.page.tsx] or [.page.ts] extension) agree once separators and case
    are forgotten get the same component name, so they share one key of the
    registry. The name is the scan of the base name followed by [Page]. *)
Theorem component_names_coincide (dir1 dir2 base1 base2 ext1 ext2 : string) :
  ext1 = ".page.tsx" ∨ ext1 = ".page.ts" →
  ext2 = ".page.tsx" ∨ ext2 = ".page.ts" →
  isAscii base1 = true →
  isAscii base2 = true →
  JsString.count "/" base1 = 0 →
  JsString.count "/" base2 = 0 →
  canonicalName base1 = canonicalName base2 →
  extractComponentName (Path.join dir1 (base1 +:+ ext1))
  = extractComponentName (Path.join dir2 (base2 +:+ ext2))
  ∧ extractComponentName (Path.join dir1 (base1 +:+ ext1))
    = pascalScan true base1 +:+ "Page".
Proof.
  intros Hext1 Hext2 _ _ Hcount1 Hcount2 Hsame.
  rewrite (extractComponentName_scan _ base1 ext1 Hext1)
    by (apply basename_join; by apply page_file_plain).
  rewrite (extractComponentName_scan _ base2 ext2 Hext2)
    by (apply basename_join; by apply page_file_plain).
  split; [|done].
  by rewrite <- (pascalScan_canonicalName true base1), Hsame,
    pascalScan_canonicalName.
Qed.

Lemma component_names_coincide_witness :
  extractComponentName (Path.join "src/user" "User-Profile.page.tsx")
  = extractComponentName (Path.join "src/admin" "user_profile.page.ts")
  ∧ extractComponentName (Path.join "src/user" "User-Profile.page.tsx")
    = "UserProfilePage".
Proof.
  apply (component_names_coincide "src/user" "src/admin" "User-Profile"
           "user_profile" ".page.tsx" ".page.ts");
    [by left | by right | reflexivity..].
Defined.

(** ** The entry handed to the bundler *)

Lemma mapChars_backslashToSlash (s : string) :
  JsString.count "\" s = 0 → JsString.mapChars backslashToSlash s = s.
Proof.
  induction s as [|c s IH]; [done|]. simpl. unfold backslashToSlash at 1.
  rewrite (Ascii.eqb_sym c "\"). destruct (Ascii.eqb "\" c); [done|].
  simpl. intros H. by rewrite IH.
Qed.

(** X17: the entry [_build] hands to the bundler imports the source by its
    path relative to the working directory, whether the source was given
    relative or absolute, with one [./] from [_build] in front of it and one
    more from the template; a backslash in the path is turned into a slash,
    and a path without backslash is imported as it is. *)
Theorem build_entry_imports_relative_source (cwd segs : list string)
    (targetDir suffix : string) :
  segs ≠ [] → Forall plainSegment cwd → Forall plainSegment segs →
  let path := JsString.join "/" segs in
  let absolute := "/" +:+ JsString.join "/" (cwd ++ segs) in
  stdin_contents (_build cwd targetDir suffix path)
  = formatTemplate ("./" +:+ JsString.mapChars backslashToSlash path)
  ∧ _build cwd targetDir suffix absolute = _build cwd targetDir suffix path
  ∧ (JsString.count "\" path = 0 →
     stdin_contents (_build cwd targetDir suffix path)
     = formatTemplate ("./" +:+ path)).
Proof.
  intros Hne Hcwd Hsegs. cbv zeta. unfold _build, toOutFile. simpl.
  assert (∃ xs x, segs = xs ++ [x] ∧ plainSegment x
                  ∧ Forall plainSegment xs) as (xs & x & -> & Hx & Hxs).
  { destruct segs as [|x xs _] using rev_ind; [done|].
    apply Forall_app in Hsegs as [Hxs Hx]. apply Forall_inv in Hx. eauto. }
  pose proof Forall_plain_free as Hfree.
  rewrite relative_absolute, relative_plain by done.
  rewrite app_assoc.
  rewrite (basename_ends_plain "/" (cwd ++ xs) x) by
    (try apply Hfree; try apply Forall_app; auto).
  rewrite <- (app_empty_l (JsString.join "/" (xs ++ [x]))) at 4 5.
  rewrite (basename_ends_plain "" xs x) by auto.
  split; [done|]. split; [done|].
  intros Hback. by rewrite mapChars_backslashToSlash.
Qed.

Lemma build_entry_imports_relative_source_witness :
  stdin_contents
    (_build exampleCwd "public/js" ".page.tsx" "src/user/register.page.tsx")
  = formatTemplate "./src/user/register.page.tsx"
  ∧ _build exampleCwd "public/js" ".page.tsx"
      "/home/app/src/user/register.page.tsx"
    = _build exampleCwd "public/js" ".page.tsx" "src/user/register.page.tsx".
Proof.
  pose proof (build_entry_imports_relative_source exampleCwd
                ["src"; "user"; "register.page.tsx"] "public/js" ".page.tsx"
                ltac:(done) ltac:(plain_segments) ltac:(plain_segments))
    as (_ & Habsolute & Hplain).
  split; [exact (Hplain eq_refl) | exact Habsolute].
Defined.

(** ** The directory of the metadata file *)

Lemma list_ascii_of_string_app (s t : string) :
  list_ascii_of_string (s +:+ t)
  = list_ascii_of_string s ++ list_ascii_of_string t.
Proof.
  induction s as [|c s IH]; [done|]. rewrite app_String. simpl. by rewrite IH.
Qed.

Lemma slash_free_chars (s : string) :
  JsString.count "/" s = 0 →
  Forall (λ c, Path.isSlash c = false) (list_ascii_of_string s).
Proof.
  induction s as [|c s IH]; [constructor|]. simpl.
  destruct (Ascii.eqb "/" c) eqn:E; [done|]. intros H.
  constructor; [by rewrite count_slash_isSlash|by apply IH].
Qed.

Lemma dropWhile_slash_keeps (l l' : list ascii) :
  l ≠ [] → Forall (λ c, Path.isSlash c = false) l →
  Path.dropWhile Path.isSlash (l ++ l') = l ++ l'.
Proof.
  intros Hne Hl. destruct Hl as [|c l Hc _]; [done|]. simpl. by rewrite Hc.
Qed.

Lemma dropWhile_to_slash (l l' : list ascii) :
  Forall (λ c, Path.isSlash c = false) l →
  Path.dropWhile (λ c, negb (Path.isSlash c)) (l ++ "/"%char :: l')
  = "/"%char :: l'.
Proof.
  induction 1 as [|c l Hc _ IH]; [done|]. simpl. by rewrite Hc.
Qed.

(** [dirname] of a relative path of plain segments: the path without its last
    segment. *)
Lemma dirname_plain (xs : list string) (x : string) :
  xs ≠ [] → Forall plainSegment xs → plainSegment x →
  Path.dirname (JsString.join "/" (xs ++ [x])) = JsString.join "/" xs.
Proof.
  intros Hne Hxs Hx. rewrite join_slash_snoc by done.
  pose proof (join_plain_nonempty xs Hne Hxs) as Hjoin.
  pose proof (isAbsolute_join xs Hne Hxs) as Habs.
  destruct (JsString.join "/" xs) as [|c0 r]; [done|].
  assert (Hc0 : Path.isSlash c0 = false).
  { unfold Path.isAbsolute, JsString.startsWith in Habs. simpl in Habs.
    rewrite count_slash_isSlash. by destruct (Ascii.eqb "/" c0). }
  rewrite app_String. unfold Path.dirname. rewrite Hc0.
  change ("/" +:+ x) with (String "/" x).
  rewrite list_ascii_of_string_app. simpl list_ascii_of_string.
  rewrite rev_app_distr. simpl rev. rewrite <- app_assoc. simpl app.
  destruct Hx as (Hxne & _ & _ & Hcount).
  assert (Hchars : Forall (λ c, Path.isSlash c = false)
                     (rev (list_ascii_of_string x))).
  { apply Forall_rev. by apply slash_free_chars. }
  assert (Hlast : rev (list_ascii_of_string x) ≠ []).
  { intros Hnil. apply (f_equal (@rev ascii)) in Hnil.
    rewrite rev_involutive in Hnil. by destruct x. }
  rewrite dropWhile_slash_keeps by done.
  rewrite dropWhile_to_slash by done.
  destruct (rev (list_ascii_of_string r)) as [|c before] eqn:Hrev.
  - apply (f_equal (@rev ascii)) in Hrev. rewrite rev_involutive in Hrev.
    by destruct r.
  - rewrite <- Hrev, rev_involutive.
    by rewrite string_of_list_ascii_of_string.
Qed.

(** X18: the directory [generateMetadataFile] creates before it writes is
    the metadata path without its last segment, so the file is written into
    the directory just created; for a metadata path of one segment it is the
    working directory [.]. Stated for a metadata path that is a relative path
    of plain segments, on the effects of a handler that starts to persist
    the registry. *)
Theorem metadata_directory_is_parent (cwd : list string) (cfg : PageBuildConfig)
    (dsegs : list string) (name : string) (locked : LockHandle)
    (next : AfterPersist) (s : State) :
  Forall plainSegment dsegs → plainSegment name →
  metadataPath cfg = JsString.join "/" (dsegs ++ [name]) →
  let dir := match dsegs with [] => "." | _ => JsString.join "/" dsegs end in
  effects (startGenerateMetadataFile cfg locked next s)
  = effects s ++ [EMkdir dir]
  ∧ Path.join dir name = metadataPath cfg.
Proof.
  intros Hd Hname Hpath. cbv zeta.
  unfold startGenerateMetadataFile, suspend, emit. simpl. rewrite Hpath.
  destruct dsegs as [|d dsegs].
  - split.
    + do 2 f_equal. simpl. destruct Hname as (Hne & _ & _ & Hcount).
      destruct name as [|c0 r]; [done|].
      unfold Path.dirname.
      assert (Hc0 : Path.isSlash c0 = false).
      { simpl in Hcount. rewrite count_slash_isSlash.
        by destruct (Ascii.eqb "/" c0). }
      rewrite Hc0.
      assert (Hall : Forall (λ c, Path.isSlash c = false)
                       (rev (list_ascii_of_string r))).
      { apply Forall_rev, slash_free_chars. simpl in Hcount.
        by destruct (Ascii.eqb "/" c0). }
      destruct (rev (list_ascii_of_string r)) as [|c l]; [done|].
      apply Forall_cons in Hall as [Hc Hl]. simpl. rewrite Hc. simpl.
      rewrite Hc. simpl.
      clear -Hl. induction Hl as [|c' l Hc' _ IH]; [done|].
      simpl. by rewrite Hc'.
    + change (Path.join "." name) with (Path.join (JsString.join "/" ["."]) name).
      simpl. unfold Path.join.
      destruct Hname as (Hne & Hdot & Hdots & Hcount).
      change (String.eqb "." "") with false. cbv iota.
      destruct (String.eqb_spec name "") as [|_]; [done|].
      assert (Htrail : JsString.endsWith ("." +:+ "/" +:+ name) "/" = false)
        by exact (plain_not_trailing "./" name (conj Hne (conj Hdot (conj Hdots Hcount)))).
      unfold Path.normalize. rewrite Htrail.
      change (String.eqb ("." +:+ "/" +:+ name) "") with false. cbv iota.
      change (Path.isAbsolute ("." +:+ "/" +:+ name)) with false.
      rewrite segments_app_slash by done.
      change (Path.segments ".") with ["."].
      rewrite (segments_slash_free name) by done.
      unfold Path.normalizeSegments. simpl.
      change (Path.pushSegment true [] ".") with (@nil string).
      rewrite (pushSegment_plain true [] name) by done. simpl.
      destruct (String.eqb_spec name "") as [|_]; [done|].
      by rewrite !app_empty_l, app_empty_r.
  - split.
    + by rewrite dirname_plain.
    + rewrite <- (join_plain (d :: dsegs) [name]) by (done || by constructor).
      reflexivity.
Qed.

Lemma metadata_directory_is_parent_witness :
  effects
    (startGenerateMetadataFile exampleConfig
       {| isLock := true; lockedFileName := "home.page.tsx" |}
       (AfterAdd "HomePage") exampleStart)
  = [EMkdir "build"]
  ∧ Path.join "build" "metadata.json" = "build/metadata.json".
Proof.
  apply (metadata_directory_is_parent exampleCwd exampleConfig ["build"]
           "metadata.json" _ _ exampleStart ltac:(plain_segments)
           ltac:(by repeat split) eq_refl).
Defined.

(** ** Component names and the properties the platform supplies *)

Lemma takeDigits_page (stem : string) :
  (JSON.takeDigits (stem +:+ "Page")).2 ≠ "".
Proof.
  induction stem as [|c stem IH]; [done|].
  rewrite app_String. simpl.
  destruct (JSON.isDigit c); [|done].
  by destruct (JSON.takeDigits (stem +:+ "Page")).
Qed.

Lemma arrayIndex_page (stem : string) : arrayIndex (stem +:+ "Page") = None.
Proof.
  unfold arrayIndex. pose proof (takeDigits_page stem) as Hrest.
  destruct (stem +:+ "Page") as [|c rest]; [done|].
  destruct (JSON.takeDigits (String c rest)) as [digits other].
  simpl in Hrest. by destruct (String.eqb_spec other "").
Qed.

Lemma page_not_among (names : list string) (stem : string) :
  Forall (λ name, JsString.endsWith name "Page" = false) names →
  bool_decide (stem +:+ "Page" ∈ names) = false.
Proof.
  intros Hnames. apply bool_decide_eq_false. intros Hin.
  rewrite Forall_forall in Hnames. apply Hnames in Hin.
  assert (JsString.endsWith (stem +:+ "Page") "Page" = true) as Htrue.
  { apply endsWith_app. by exists stem. }
  congruence.
Qed.

Lemma inheritedFrom_page (names : list string) (stem : string) :
  Forall (λ name, JsString.endsWith name "Page" = false) names →
  inheritedFrom names (stem +:+ "Page") = Missing.
Proof.
  intros Hnames. unfold inheritedFrom, inherited.
  rewrite (page_not_among names), (page_not_among objectPrototypeNames);
    [done| |done].
  unfold objectPrototypeNames. repeat (constructor; [reflexivity|]).
  constructor.
Qed.

(** X19: a name that ends in [Page], as every name made by
    [extractComponentName] does, is never answered by a property the
    platform supplies: it is no name of a prototype, no index and not
    [length]. So whatever the metadata file holds, the lookup of such a name
    is decided by the members of the parsed object alone: a truthy member
    gives its [scriptFileName]; no member or a falsy one throws the error
    that names the component, as does a document that is an array, a
    string, a number or a boolean; [null] throws a [TypeError]. *)
Theorem resolve_prototype_names (disk : Disk)
    (componentName metadataPath : string) :
  (∀ path, JsString.endsWith (extractComponentName path) "Page" = true)
  ∧ (JsString.endsWith componentName "Page" = true →
     resolveScriptPath disk componentName metadataPath
     = match loadMetadata disk metadataPath with
       | JNull => TypeError
       | JObject members =>
           match member componentName members with
           | Some componentMeta =>
               if truthy componentMeta then scriptFileNameOf componentMeta
               else NotFoundError (notFoundMessage componentName)
           | None => NotFoundError (notFoundMessage componentName)
           end
       | _ => NotFoundError (notFoundMessage componentName)
       end).
Proof.
  split.
  { intros path. unfold extractComponentName. apply endsWith_app. eauto. }
  intros [stem ->]%endsWith_app. unfold resolveScriptPath. cbv zeta.
  assert (Hlength : String.eqb (stem +:+ "Page") "length" = false).
  { destruct (String.eqb_spec (stem +:+ "Page") "length") as [Heq|]; [|done].
    assert (JsString.endsWith (stem +:+ "Page") "Page" = true) as Htrue.
    { apply endsWith_app. by exists stem. }
    by rewrite Heq in Htrue. }
  destruct (loadMetadata disk metadataPath) as [|b|lexeme|s|items|members];
    unfold getProperty.
  - done.
  - rewrite inheritedFrom_page; [done|].
    unfold booleanPrototypeNames. repeat (constructor; [reflexivity|]).
    constructor.
  - rewrite inheritedFrom_page; [done|].
    unfold numberPrototypeNames. repeat (constructor; [reflexivity|]).
    constructor.
  - rewrite arrayIndex_page, Hlength, inheritedFrom_page; [done|].
    unfold stringPrototypeNames. repeat (constructor; [reflexivity|]).
    constructor.
  - rewrite arrayIndex_page, Hlength. simpl.
    rewrite inheritedFrom_page; [done|].
    unfold arrayPrototypeNames. repeat (constructor; [reflexivity|]).
    constructor.
  - destruct (member (stem +:+ "Page") members) as [v|]; [done|].
    by rewrite inheritedFrom_page by constructor.
Qed.

Lemma resolve_prototype_names_witness :
  resolveScriptPath {[ "build/metadata.json" := "[]" ]} "AboutPage"
    "build/metadata.json"
  = NotFoundError (notFoundMessage "AboutPage")
  ∧ resolveScriptPath {[ "build/metadata.json" := partialMetadataFile ]}
      "HomePage" "build/metadata.json"
    = Resolved "homepage.js".
Proof.
  split.
  - etrans.
    + apply (proj2 (resolve_prototype_names
                      {[ "build/metadata.json" := "[]" ]}
                      "AboutPage" "build/metadata.json")).
      reflexivity.
    + by vm_compute.
  - etrans.
    + apply (proj2 (resolve_prototype_names
                      {[ "build/metadata.json" := partialMetadataFile ]}
                      "HomePage" "build/metadata.json")).
      reflexivity.
    + by vm_compute.
Defined.
